(** * finance_tracker: the transaction analytics pipeline

    A shallow embedding of the analytics core of the finance tracker:
    [finance_core.py] (FinanceManager, AIPredictor),
    [modules/data_manager.py] (QuantumDataManager),
    [modules/ai_engine.py] (AIFinancialEngine) and the amount validator of
    [data_entry.py].

    Conventions of the embedding.
    - Python floats are idealised as exact rationals ([Q]); equality of
      computed amounts is [Qeq] ([==]).  NaN and the infinities are made
      explicit where the source can produce them ([PyFloat], and [option]
      in [series_var]).
    - A pandas DataFrame is the list of its rows, in row order; a
      [groupby] is the key-sorted list of its groups.
    - Calls into libraries whose results cannot be computed over [Q]
      (string hashing, MD5, float formatting, square roots, date parsing,
      the wall clock) are parameters of the definitions that use them.
    - A Python exception is a [Raise] result. *)

From Stdlib Require Import Reals Lra Qreals.
From Stdlib Require Import QArith Qabs Qround ZArith List String Ascii Bool Lia Lqa.
From Stdlib Require Import DecimalString DecimalZ Sorted Permutation.
Import ListNotations.

Local Open Scope string_scope.
Local Open Scope list_scope.
Local Open Scope Q_scope.

(* ================================================================== *)
(** * Numbers *)

Definition Qltb (x y : Q) : bool := negb (Qle_bool y x).
Definition Qgtb (x y : Q) : bool := Qltb y x.

(** [sum()] of a numeric column; the empty sum is [0]. *)
Definition Qsum (l : list Q) : Q := fold_right Qplus 0 l.

(** [mean()] of a numeric column: sum over count. *)
Definition Qmean (l : list Q) : Q := Qsum l / inject_Z (Z.of_nat (List.length l)).

Definition Qmin' (x y : Q) : Q := if Qltb y x then y else x.
Definition Qmax' (x y : Q) : Q := if Qltb x y then y else x.

(** Round half to even, as [rint] does. *)
Definition rint (x : Q) : Z :=
  let f := Qfloor x in
  let r := x - inject_Z f in
  if Qltb r (1#2) then f
  else if Qltb (1#2) r then (f + 1)%Z
  else if Z.even f then f else (f + 1)%Z.

(** [round(x, ndigits)]: scale by [10^ndigits], round half to even, scale
    back. *)
Definition py_round (x : Q) (ndigits : nat) : Q :=
  let s := inject_Z (10 ^ Z.of_nat ndigits) in
  inject_Z (rint (x * s)) / s.

(** A Python float that need not be finite: what [float('inf')],
    [float('nan')] and a division by zero in numpy give. *)
Inductive PyFloat : Type :=
| Fin (q : Q)
| PosInf
| NegInf
| NaN.

(** Division of numpy scalars and of pandas columns.  Dividing by zero is
    no error there (the warning is filtered out by the source): it gives
    an infinity with the sign of the dividend, and NaN for [0 / 0]. *)
Definition np_div (x y : Q) : PyFloat :=
  if Qeq_bool y 0 then
    if Qltb 0 x then PosInf
    else if Qltb x 0 then NegInf
    else NaN
  else Fin (x / y).

(** [x * c], [x + c] and [c + x] for a finite [c]. *)
Definition pf_mul (x : PyFloat) (c : Q) : PyFloat :=
  match x with
  | Fin q => Fin (q * c)
  | PosInf => if Qltb 0 c then PosInf else if Qltb c 0 then NegInf else NaN
  | NegInf => if Qltb 0 c then NegInf else if Qltb c 0 then PosInf else NaN
  | NaN => NaN
  end.

Definition pf_add (x : PyFloat) (c : Q) : PyFloat :=
  match x with
  | Fin q => Fin (q + c)
  | _ => x
  end.

Definition pf_radd (c : Q) (x : PyFloat) : PyFloat :=
  match x with
  | Fin q => Fin (c + q)
  | _ => x
  end.

(** The built-in [max(x, y)] and [min(x, y)]: the first argument, unless
    the second is greater (smaller); every comparison with NaN is
    false. *)
Definition py_max (x : PyFloat) (y : Q) : PyFloat :=
  match x with
  | Fin q => Fin (if Qltb q y then y else q)
  | PosInf => PosInf
  | NegInf => Fin y
  | NaN => NaN
  end.

Definition py_min (x : PyFloat) (y : Q) : PyFloat :=
  match x with
  | Fin q => Fin (if Qltb y q then y else q)
  | PosInf => Fin y
  | NegInf => NegInf
  | NaN => NaN
  end.

(** [x <= 0] *)
Definition pf_le0 (x : PyFloat) : bool :=
  match x with
  | Fin q => Qle_bool q 0
  | NegInf => true
  | PosInf | NaN => false
  end.

(** [round(x, ndigits)]: an infinity and NaN are returned as they
    are. *)
Definition pf_round (x : PyFloat) (ndigits : nat) : PyFloat :=
  match x with
  | Fin q => Fin (py_round q ndigits)
  | _ => x
  end.

(* ================================================================== *)
(** * Python values and exceptions *)

Inductive PyError : Set := TypeError | ValueError.

Inductive result (A : Type) : Type :=
| Ok (a : A)
| Raise (e : PyError).
Arguments Ok {A} a.
Arguments Raise {A} e.

(** A cell of an object column: a number or a string. *)
Inductive PyObj : Type :=
| PyNum (q : Q)
| PyStr (s : string).

(** How pandas holds a column of Python strings: as an [object] column
    (pandas before 3.0) or as a column of the string dtype (pandas 3).
    The repository pins no version of pandas. *)
Inductive StrColumn : Set := ObjectDtype | StrDtype.

(** [Series.sum()] over a selection from a column of strings:
    concatenation.  The empty selection sums to the integer [0] in an
    object column and to the empty string in a string column. *)
Definition str_series_sum (dtype : StrColumn) (l : list string) : PyObj :=
  match l with
  | [] => match dtype with
          | ObjectDtype => PyNum 0
          | StrDtype => PyStr ""
          end
  | _ => PyStr (String.concat "" l)
  end.

Definition is_num (o : PyObj) : bool :=
  match o with PyNum _ => true | PyStr _ => false end.

Definition num_of (o : PyObj) : Q :=
  match o with PyNum q => q | PyStr _ => 0 end.

(** [Series.mean()] over such a column: a column holding a string cannot
    be converted to numbers and raises [TypeError]. *)
Definition obj_series_mean (l : list PyObj) : result Q :=
  if forallb is_num l then Ok (Qmean (map num_of l)) else Raise TypeError.

(* ================================================================== *)
(** * groupby *)

Section GroupBy.
Context {K R : Type}.
Variable cmp : K -> K -> comparison.
Variable key : R -> K.

(** Put a row into the group of its key; groups stay sorted by key and
    rows keep their order inside a group. *)
Fixpoint group_insert (r : R) (g : list (K * list R)) : list (K * list R) :=
  match g with
  | [] => [(key r, [r])]
  | (k, rows) :: g' =>
      match cmp (key r) k with
      | Lt => (key r, [r]) :: g
      | Eq => (k, rows ++ [r]) :: g'
      | Gt => (k, rows) :: group_insert r g'
      end
  end.

Definition groupby (df : list R) : list (K * list R) :=
  fold_left (fun g r => group_insert r g) df [].
End GroupBy.

(** [df.groupby(key)[amount].sum()]. *)
Definition groupby_sum {K R : Type} (cmp : K -> K -> comparison)
  (key : R -> K) (amount : R -> Q) (df : list R) : list (K * Q) :=
  map (fun g => (fst g, Qsum (map amount (snd g)))) (groupby cmp key df).

(** The sum of a column over all the groups of a groupby. *)
Definition groups_total {K R : Type} (amount : R -> Q)
  (g : list (K * list R)) : Q :=
  Qsum (map (fun x => Qsum (map amount (snd x))) g).

(** [.iloc[-1]], [.iloc[-2]] and [.iloc[0]] of a column. *)
Definition iloc_last (l : list Q) : Q := last l 0.
Definition iloc_prev (l : list Q) : Q := last (removelast l) 0.
Definition iloc_first (l : list Q) : Q := hd 0 l.

(** [.tail(n)]. *)
Definition tail_n {A : Type} (n : nat) (l : list A) : list A :=
  skipn (List.length l - n) l.

(** [nunique()] of a string column. *)
Definition nunique (l : list string) : nat := List.length (nodup string_dec l).

(** [sorted(l, key=..., reverse=True)]: a stable sort into descending
    order.  [before y x] says that the key of [y] is smaller than the key
    of [x]; an element is put in front of the first element with a smaller
    key, so that elements with equal keys keep their order. *)
Section SortDescending.
Context {T : Type}.
Variable before : T -> T -> bool.

Fixpoint insert_desc (x : T) (l : list T) : list T :=
  match l with
  | [] => [x]
  | y :: l' => if before y x then x :: l else y :: insert_desc x l'
  end.

Definition sorted_desc (l : list T) : list T :=
  fold_left (fun acc x => insert_desc x acc) l [].
End SortDescending.

(** Decimal rendering of a Python [int] inside an f-string. *)
Definition str_of_int (z : Z) : string :=
  NilZero.string_of_int (Z.to_int z).

(* ================================================================== *)
(** * finance_core.py *)

Module FinanceCore.

(** [Transaction]: [id] is optional at construction and filled in by
    [__post_init__]. *)
Record Transaction : Type := {
  date : string;
  amount : Q;
  category : string;
  subcategory : string;
  description : string;
  id : string
}.

Section PostInit.
(** The interpreter's built-in [hash] on [str], and the rendering of a
    float inside an f-string. *)
Variable py_hash : string -> Z.
Variable fmt_float : Q -> string.

(** [f"{self.date}_{self.amount}_{hash(self.description)}"] *)
Definition synth_id (d : string) (a : Q) (descr : string) : string :=
  (d ++ "_" ++ fmt_float a ++ "_" ++ str_of_int (py_hash descr))%string.

(** The dataclass constructor followed by [__post_init__]. *)
Definition new_Transaction (d : string) (a : Q) (cat sub descr : string)
  (given_id : option string) : Transaction :=
  {| date := d; amount := a; category := cat; subcategory := sub;
     description := descr;
     id := match given_id with
           | Some i => i
           | None => synth_id d a descr
           end |}.
End PostInit.

(** [FinanceManager]: the in-memory list and what [save_data] last wrote
    to the data file. *)
Record FinanceManager : Type := {
  transactions : list Transaction;
  data_file : list Transaction
}.

Definition save_data (self : FinanceManager) : FinanceManager :=
  {| transactions := transactions self; data_file := transactions self |}.

Definition add_transaction (self : FinanceManager) (t : Transaction)
  : FinanceManager :=
  save_data {| transactions := transactions self ++ [t];
               data_file := data_file self |}.

Definition is_income (t : Transaction) : bool := String.eqb (category t) "Income".
Definition is_expense (t : Transaction) : bool := String.eqb (category t) "Expense".

(** [df[df['Category'] == 'Income']['Amount'].sum()] and its Expense twin. *)
Definition total_income (df : list Transaction) : Q :=
  Qsum (map amount (filter is_income df)).
Definition total_expenses (df : list Transaction) : Q :=
  Qsum (map amount (filter is_expense df)).

(** [df[df['Category'] == c].groupby('Subcategory')['Amount'].sum().to_dict()] *)
Definition expense_breakdown (df : list Transaction) : list (string * Q) :=
  groupby_sum String.compare subcategory amount (filter is_expense df).
Definition income_breakdown (df : list Transaction) : list (string * Q) :=
  groupby_sum String.compare subcategory amount (filter is_income df).

Record MonthRow : Type := {
  Month : Z;
  Income : Q;
  Expense : PyObj
}.

Record Summary : Type := {
  s_total_income : Q;
  s_total_expenses : Q;
  s_net_balance : Q;
  s_current_month_income : Q;
  s_current_month_expense : PyObj;
  s_savings_rate : Q;
  s_expense_ratio : Q;
  s_expense_breakdown : list (string * Q);
  s_income_breakdown : list (string * Q);
  s_transaction_count : nat;
  s_avg_monthly_income : Q;
  s_avg_monthly_expense : Q
}.

Definition _get_empty_summary : Summary :=
  {| s_total_income := 0; s_total_expenses := 0; s_net_balance := 0;
     s_current_month_income := 0; s_current_month_expense := PyNum 0;
     s_savings_rate := 0; s_expense_ratio := 0;
     s_expense_breakdown := []; s_income_breakdown := [];
     s_transaction_count := 0%nat;
     s_avg_monthly_income := 0; s_avg_monthly_expense := 0 |}.

Section Analytics.
(** [pd.to_datetime(date).to_period('M')], as the ordinal of the month. *)
Variable to_period_M : string -> Z.
(** The dtype the installed pandas gives the ['Category'] column. *)
Variable dtype : StrColumn.

Definition month_of (t : Transaction) : Z := to_period_M (date t).

(** The [monthly_data] of [get_financial_summary]:
    [df.groupby('Month').agg({'Amount': ..., 'Category': ...})].
    The first aggregate sums the Income amounts of the month.  The
    second one is applied to the ['Category'] column: it selects the
    category strings equal to ['Expense'] and sums those strings. *)
Definition summary_monthly_data (df : list Transaction) : list MonthRow :=
  map (fun g =>
         {| Month := fst g;
            Income := Qsum (map amount (filter is_income (snd g)));
            Expense := str_series_sum dtype
                         (map category (filter is_expense (snd g))) |})
      (groupby Z.compare month_of df).

Definition current_month_data (now : Z) (md : list MonthRow) : Q * PyObj :=
  match find (fun r => Z.eqb (Month r) now) md with
  | Some r => (Income r, Expense r)
  | None => (0, PyNum 0)
  end.

Definition savings_rate_of (net_balance income : Q) : Q :=
  if Qltb 0 income then net_balance / income * 100 else 0.
Definition expense_ratio_of (expenses income : Q) : Q :=
  if Qltb 0 income then expenses / income * 100 else 0.

(** [FinanceManager.get_financial_summary]; [now] is the current
    month. *)
Definition get_financial_summary (self : FinanceManager) (now : Z)
  : result Summary :=
  let df := transactions self in
  match df with
  | [] => Ok _get_empty_summary
  | _ =>
      let ti := total_income df in
      let te := total_expenses df in
      let net_balance := ti - te in
      let monthly_data := summary_monthly_data df in
      let cmd := current_month_data now monthly_data in
      let savings_rate := savings_rate_of net_balance ti in
      let expense_ratio := expense_ratio_of te ti in
      let eb := expense_breakdown df in
      let ib := income_breakdown df in
      let avg_income := Qmean (map Income monthly_data) in
      match obj_series_mean (map Expense monthly_data) with
      | Raise e => Raise e
      | Ok avg_expense =>
          Ok {| s_total_income := ti; s_total_expenses := te;
                s_net_balance := net_balance;
                s_current_month_income := fst cmd;
                s_current_month_expense := snd cmd;
                s_savings_rate := savings_rate;
                s_expense_ratio := expense_ratio;
                s_expense_breakdown := eb;
                s_income_breakdown := ib;
                s_transaction_count := List.length df;
                s_avg_monthly_income := avg_income;
                s_avg_monthly_expense := avg_expense |}
      end
  end.
End Analytics.

(** ** AIPredictor *)

Record Prediction : Type := {
  p_month : nat;
  predicted_balance : Q;
  confidence_low : Q;
  confidence_high : Q
}.

Record Forecast : Type := {
  predictions : list Prediction;
  r_squared : Q;
  current_trend : string
}.

Section Predictor.
Variable to_period_M : string -> Z.
(** [np.sqrt] on floats. *)
Variable np_sqrt : Q -> Q.

(** [df.groupby('Month').agg({'Amount': [('Income', ...), ('Expense', ...)]})]
    with [Balance = Income - Expense], one value per month bucket. *)
Definition monthly_balance (df : list Transaction) : list Q :=
  map (fun g => Qsum (map amount (filter is_income (snd g)))
                - Qsum (map amount (filter is_expense (snd g))))
      (groupby Z.compare (month_of to_period_M) df).

Definition month_index (n : nat) : list Q :=
  map (fun i => inject_Z (Z.of_nat i)) (seq 0 n).

(** [LinearRegression().fit(X, y)] with one feature: ordinary least
    squares, returned as (coefficient, intercept). *)
Definition fit (xs ys : list Q) : Q * Q :=
  let xm := Qmean xs in
  let ym := Qmean ys in
  let sxy := Qsum (map (fun p => (fst p - xm) * (snd p - ym)) (combine xs ys)) in
  let sxx := Qsum (map (fun x => (x - xm) * (x - xm)) xs) in
  let coef := sxy / sxx in
  (coef, ym - coef * xm).

Definition predict (model : Q * Q) (x : Q) : Q := snd model + fst model * x.

(** [np.std]: the population standard deviation. *)
Definition np_std (l : list Q) : Q :=
  let m := Qmean l in
  np_sqrt (Qmean (map (fun r => (r - m) * (r - m)) l)).

(** [model.score(X, y)]: the coefficient of determination. *)
Definition score (model : Q * Q) (xs ys : list Q) : Q :=
  let ym := Qmean ys in
  let ss_res := Qsum (map (fun p => (snd p - predict model (fst p))
                                    * (snd p - predict model (fst p)))
                          (combine xs ys)) in
  let ss_tot := Qsum (map (fun y => (y - ym) * (y - ym)) ys) in
  if Qeq_bool ss_tot 0
  then (if Qeq_bool ss_res 0 then 1 else 0)
  else 1 - ss_res / ss_tot.

(** [AIPredictor.predict_future_balance]; [None] is the empty dict
    [{}]. *)
Definition predict_future_balance (fm : FinanceManager) (months : nat)
  : result (option Forecast) :=
  let df := transactions fm in
  if (List.length df <? 3)%nat then Ok None
  else
    let y := monthly_balance df in
    let n := List.length y in
    if (n <? 2)%nat then Ok None
    else
      let X := month_index n in
      let model := fit X y in
      match months with
      | O => Raise ValueError
      | S _ =>
          let future_months := seq n months in
          let future_predictions :=
            map (fun m => predict model (inject_Z (Z.of_nat m))) future_months in
          let std_dev :=
            np_std (map (fun p => snd p - predict model (fst p)) (combine X y)) in
          let margin_error := std_dev * (196 # 100) in
          Ok (Some
            {| predictions :=
                 map (fun mp =>
                        {| p_month := fst mp;
                           predicted_balance := Qmax' 0 (snd mp);
                           confidence_low := Qmax' 0 (snd mp - margin_error);
                           confidence_high := Qmax' 0 (snd mp + margin_error) |})
                     (combine future_months future_predictions);
               r_squared := score model X y;
               current_trend :=
                 if Qltb (hd 0 future_predictions) (last future_predictions 0)
                 then "increasing" else "decreasing" |})
      end.
End Predictor.

(** ** Persistence: [save_data] and [load_data] *)

(** One object of the ["transactions"] array of the data file; a key may
    be missing. *)
Record JsonRecord : Type := {
  j_date : option string;
  j_amount : option Q;
  j_category : option string;
  j_subcategory : option string;
  j_description : option string;
  j_id : option string
}.

(** What the data file holds when a manager is constructed. *)
Inductive DataFile : Type :=
| Missing
| Corrupt
| Parsed (records : list JsonRecord).

(** The object [save_data] writes for one transaction. *)
Definition to_json (t : Transaction) : JsonRecord :=
  {| j_date := Some (date t); j_amount := Some (amount t);
     j_category := Some (category t); j_subcategory := Some (subcategory t);
     j_description := Some (description t); j_id := Some (id t) |}.

(** The content of the data file after the last [save_data]. *)
Definition dump (self : FinanceManager) : DataFile :=
  Parsed (map to_json (data_file self)).

Section Load.
Variable py_hash : string -> Z.
Variable fmt_float : Q -> string.

(** The constructor call inside [load_data]: the five required keys are
    indexed ([KeyError], here [None], when one is missing), the id is
    read with [t.get('id')]. *)
Definition of_json (j : JsonRecord) : option Transaction :=
  match j_date j, j_amount j, j_category j, j_subcategory j, j_description j with
  | Some d, Some a, Some c, Some sub, Some descr =>
      Some (new_Transaction py_hash fmt_float d a c sub descr (j_id j))
  | _, _, _, _, _ => None
  end.

Fixpoint of_json_all (l : list JsonRecord) : option (list Transaction) :=
  match l with
  | [] => Some []
  | j :: rest =>
      match of_json j, of_json_all rest with
      | Some t, Some ts => Some (t :: ts)
      | _, _ => None
      end
  end.

(** The transactions of a freshly constructed manager: [__init__] starts
    from the empty list and [load_data] replaces it by the records of the
    file; any exception while reading leaves the list empty. *)
Definition load_data (file : DataFile) : list Transaction :=
  match file with
  | Missing => []
  | Corrupt => []
  | Parsed records =>
      match of_json_all records with
      | Some ts => ts
      | None => []
      end
  end.
End Load.

(** ** [get_spending_trends] *)

Record TrendRow : Type := {
  t_month : Z;
  t_income : Q;
  t_expense : Q;
  t_savings : Q
}.

Record SpendingTrends : Type := {
  monthly_trends : list TrendRow;
  daily_patterns : list (string * Q);
  category_trends : list string * list (Z * list Q)
}.

Section Trends.
Variable to_period_M : string -> Z.
(** [pd.to_datetime(date).day_name()] *)
Variable day_name : string -> string.

Definition trend_row (g : Z * list Transaction) : TrendRow :=
  let income := Qsum (map amount (filter is_income (snd g))) in
  let expense := Qsum (map amount (filter is_expense (snd g))) in
  {| t_month := fst g; t_income := income; t_expense := expense;
     t_savings := income - expense |}.

(** The unstacked table of [category_trends]: the column labels (the
    subcategories of the expenses, in label order) and, per month with an
    expense, the sum per column, [0] where the month has none. *)
Definition category_table (expenses : list Transaction)
  : list string * list (Z * list Q) :=
  let columns := map fst (groupby String.compare subcategory expenses) in
  (columns,
   map (fun g =>
          (fst g,
           map (fun c =>
                  Qsum (map amount
                          (filter (fun t => String.eqb (subcategory t) c) (snd g))))
               columns))
       (groupby Z.compare (month_of to_period_M) expenses)).

(** [get_spending_trends]; [None] is the empty dict returned for an empty
    DataFrame. *)
Definition get_spending_trends (self : FinanceManager) : option SpendingTrends :=
  match transactions self with
  | [] => None
  | df =>
      Some {| monthly_trends :=
                map trend_row (groupby Z.compare (month_of to_period_M) df);
              daily_patterns :=
                map (fun g => (fst g, Qmean (map amount (snd g))))
                    (groupby String.compare (fun t => day_name (date t))
                             (filter is_expense df));
              category_trends := category_table (filter is_expense df) |}
  end.
End Trends.

End FinanceCore.

(* ================================================================== *)
(** * modules/data_manager.py *)

Module DataManager.

Record Transaction : Type := {
  id : string;
  date : string;
  amount : Q;
  category : string;
  type : string;
  description : string;
  tags : list string;
  status : string;
  created_at : string;
  updated_at : string
}.

(** The dict handed to [add_transaction]: [id], [status] and the two
    timestamps may be absent. *)
Record TransactionData : Type := {
  d_id : option string;
  d_date : string;
  d_amount : Q;
  d_category : string;
  d_type : string;
  d_description : string;
  d_tags : list string;
  d_status : option string;
  d_created_at : option string;
  d_updated_at : option string
}.

(** The dict handed to [update_transaction]: any subset of the fields. *)
Record Updates : Type := {
  u_id : option string;
  u_date : option string;
  u_amount : option Q;
  u_category : option string;
  u_type : option string;
  u_description : option string;
  u_tags : option (list string);
  u_status : option string;
  u_created_at : option string;
  u_updated_at : option string
}.

Definition or_else {A : Type} (o : option A) (d : A) : A :=
  match o with Some a => a | None => d end.

(** The dataclass constructor applied to the dict, with its
    [__post_init__]; [clock] is [datetime.now().isoformat()]. *)
Definition new_Transaction (clock : string) (i : string) (d : TransactionData)
  : Transaction :=
  let created := or_else (d_created_at d) clock in
  {| id := i; date := d_date d; amount := d_amount d;
     category := d_category d; type := d_type d;
     description := d_description d; tags := d_tags d;
     status := or_else (d_status d) "completed";
     created_at := created;
     updated_at := or_else (d_updated_at d) created |}.

Record QuantumDataManager : Type := {
  transactions : list Transaction;
  portfolio_total_value : option Q;
  data_file : list Transaction
}.

Definition save_data (self : QuantumDataManager) : QuantumDataManager :=
  {| transactions := transactions self;
     portfolio_total_value := portfolio_total_value self;
     data_file := transactions self |}.

Definition set_transactions (self : QuantumDataManager)
  (l : list Transaction) : QuantumDataManager :=
  {| transactions := l;
     portfolio_total_value := portfolio_total_value self;
     data_file := data_file self |}.

Section Store.
(** [hashlib.md5(s.encode()).hexdigest()] and the rendering of the
    amount inside an f-string. *)
Variable md5_hexdigest : string -> string.
Variable fmt_amount : Q -> string.

Definition generate_id (data : string) : string :=
  substring 0 12 (md5_hexdigest data).

Definition sample_transactions : list TransactionData :=
  [ {| d_id := Some (generate_id "salary_jan"); d_date := "2024-01-15";
       d_amount := 75000; d_category := "Income"; d_type := "Salary";
       d_description := "Monthly Salary";
       d_tags := ["salary"; "primary-income"];
       d_status := Some "completed";
       d_created_at := None; d_updated_at := None |};
    {| d_id := Some (generate_id "grocery_jan"); d_date := "2024-01-16";
       d_amount := 8500; d_category := "Expense"; d_type := "Food";
       d_description := "Grocery Shopping";
       d_tags := ["essential"; "food"];
       d_status := Some "completed";
       d_created_at := None; d_updated_at := None |};
    {| d_id := Some (generate_id "freelance_jan"); d_date := "2024-01-18";
       d_amount := 25000; d_category := "Income"; d_type := "Freelance";
       d_description := "Web Development Project";
       d_tags := ["freelance"; "side-income"];
       d_status := Some "completed";
       d_created_at := None; d_updated_at := None |} ].

Definition initialize_sample_data (clock : string) : QuantumDataManager :=
  save_data
    {| transactions :=
         map (fun d => new_Transaction clock (or_else (d_id d) "") d)
             sample_transactions;
       portfolio_total_value := Some 1284732;
       data_file := [] |}.

(** [add_transaction]: returns the id and the new manager. *)
Definition add_transaction (self : QuantumDataManager) (clock : string)
  (transaction_data : TransactionData) : string * QuantumDataManager :=
  let i :=
    match d_id transaction_data with
    | Some i => i
    | None =>
        generate_id (d_date transaction_data ++ "_"
                     ++ fmt_amount (d_amount transaction_data) ++ "_"
                     ++ d_description transaction_data)%string
    end in
  let transaction := new_Transaction clock i transaction_data in
  (id transaction,
   save_data (set_transactions self (transactions self ++ [transaction]))).
End Store.

(** The dict of the stored transaction overridden by the updates, with
    ['updated_at'] overwritten, passed to the dataclass constructor. *)
Definition apply_updates (clock : string) (txn : Transaction) (u : Updates)
  : Transaction :=
  {| id := or_else (u_id u) (id txn);
     date := or_else (u_date u) (date txn);
     amount := or_else (u_amount u) (amount txn);
     category := or_else (u_category u) (category txn);
     type := or_else (u_type u) (type txn);
     description := or_else (u_description u) (description txn);
     tags := or_else (u_tags u) (tags txn);
     status := or_else (u_status u) (status txn);
     created_at := or_else (u_created_at u) (created_at txn);
     updated_at := clock |}.

(** The loop of [update_transaction]: the first transaction with the id
    is replaced; [None] when the loop ends without a match. *)
Fixpoint update_first (clock : string) (transaction_id : string) (u : Updates)
  (l : list Transaction) : option (list Transaction) :=
  match l with
  | [] => None
  | txn :: rest =>
      if String.eqb (id txn) transaction_id
      then Some (apply_updates clock txn u :: rest)
      else match update_first clock transaction_id u rest with
           | Some rest' => Some (txn :: rest')
           | None => None
           end
  end.

Definition update_transaction (self : QuantumDataManager) (clock : string)
  (transaction_id : string) (updates : Updates) : bool * QuantumDataManager :=
  match update_first clock transaction_id updates (transactions self) with
  | Some l => (true, save_data (set_transactions self l))
  | None => (false, self)
  end.

Definition delete_transaction (self : QuantumDataManager)
  (transaction_id : string) : bool * QuantumDataManager :=
  let initial_length := List.length (transactions self) in
  let self' :=
    set_transactions self
      (filter (fun txn => negb (String.eqb (id txn) transaction_id))
              (transactions self)) in
  if (List.length (transactions self') <? initial_length)%nat
  then (true, save_data self')
  else (false, self').

Definition is_income (t : Transaction) : bool := String.eqb (category t) "Income".
Definition is_expense (t : Transaction) : bool := String.eqb (category t) "Expense".

Record Summary : Type := {
  total_income : Q;
  total_expenses : Q;
  net_worth : Q;
  current_month_income : Q;
  current_month_expenses : Q;
  savings_rate : Q;
  expense_breakdown : list (string * Q);
  income_breakdown : list (string * Q);
  transaction_count : nat;
  portfolio_value : Q;
  last_updated : string
}.

Definition get_empty_summary (clock : string) : Summary :=
  {| total_income := 0; total_expenses := 0; net_worth := 0;
     current_month_income := 0; current_month_expenses := 0;
     savings_rate := 0; expense_breakdown := []; income_breakdown := [];
     transaction_count := 0%nat; portfolio_value := 0;
     last_updated := clock |}.

Section Analytics.
(** The month of a stored date, and the current month with the current
    timestamp. *)
Variable to_period_M : string -> Z.

Definition in_month (now : Z) (t : Transaction) : bool :=
  Z.eqb (to_period_M (date t)) now.

Definition get_financial_summary (self : QuantumDataManager)
  (now : Z) (clock : string) : Summary :=
  match transactions self with
  | [] => get_empty_summary clock
  | df =>
      let ti := Qsum (map amount (filter is_income df)) in
      let te := Qsum (map amount (filter is_expense df)) in
      let pv := or_else (portfolio_total_value self) 0 in
      let monthly_income :=
        Qsum (map amount
                (filter (fun t => is_income t && in_month now t) df)) in
      let monthly_expenses :=
        Qsum (map amount
                (filter (fun t => is_expense t && in_month now t) df)) in
      {| total_income := ti; total_expenses := te;
         net_worth := ti - te + pv;
         current_month_income := monthly_income;
         current_month_expenses := monthly_expenses;
         savings_rate :=
           if Qltb 0 monthly_income
           then (monthly_income - monthly_expenses) / monthly_income * 100
           else 0;
         expense_breakdown :=
           groupby_sum String.compare type amount (filter is_expense df);
         income_breakdown :=
           groupby_sum String.compare type amount (filter is_income df);
         transaction_count := List.length df;
         portfolio_value := pv;
         last_updated := clock |}
  end.
End Analytics.

(** ** Queries and maintenance *)


Definition by_date_desc : list Transaction -> list Transaction :=
  sorted_desc (fun y x => String.ltb (date y) (date x)).

Section Queries.
(** [datetime.strptime(s, '%Y-%m-%d')] as a number of seconds; [None]
    when it raises [ValueError]. *)
Variable strptime : string -> option Z.




End Queries.

(** [get_recent_transactions]: the [limit] latest transactions. *)
Definition get_recent_transactions (self : QuantumDataManager) (limit : nat)
  : list Transaction :=
  firstn limit (by_date_desc (transactions self)).

End DataManager.

(* ================================================================== *)
(** * modules/ai_engine.py *)

Module AIEngine.

(** One transaction dict, i.e. one row of the prepared DataFrame. *)
Record Row : Type := {
  date : string;
  amount : Q;
  category : string;
  type : string;
  description : string
}.

Definition is_income (r : Row) : bool := String.eqb (category r) "Income".
Definition is_expense (r : Row) : bool := String.eqb (category r) "Expense".

(** [Series.mean()] and [Series.std()] (pandas: [ddof=1], the sample
    standard deviation).  The standard deviation is kept squared; it is
    NaN ([None]) for a single value. *)
Definition series_mean (l : list Q) : Q := Qmean l.

Definition sum_sq_dev (l : list Q) : Q :=
  let m := series_mean l in
  Qsum (map (fun x => (x - m) * (x - m)) l).

Definition series_var (l : list Q) : option Q :=
  match l with
  | [] | [_] => None
  | _ => Some (sum_sq_dev l / inject_Z (Z.of_nat (List.length l - 1)))
  end.

(** [abs((x - mean) / std) > 2] for [std > 0], decided on the squares:
    [(x - mean)^2 > 4 * std^2]. *)
Definition z_score_exceeds_2 (x mean var : Q) : bool :=
  Qltb (4 * var) ((x - mean) * (x - mean)).

Record Trend : Type := {
  trend : string;
  change_percent : Q;
  current_month : option Q;
  average_monthly : option Q
}.

Record ForecastEntry : Type := {
  f_month : string;
  predicted_amount : Q;
  confidence : Q
}.

Record Anomaly : Type := {
  a_date : string;
  a_amount : Q;
  a_description : string;
  a_z_score : Q;
  a_type : string
}.

Record Breakdown : Type := {
  b_savings_rate : Q;
  b_expense_ratio : Q;
  b_savings_score : Q;
  b_stability_score : Q;
  b_diversity_score : Q;
  b_growth_score : PyFloat
}.

Record HealthScore : Type := {
  score : PyFloat;
  breakdown : option Breakdown;
  recommendations : list string
}.

(** [{'score': 0, 'breakdown': {}, 'recommendations': []}] *)
Definition empty_health : HealthScore :=
  {| score := Fin 0; breakdown := None; recommendations := [] |}.

Section Engine.
(** [pd.to_datetime(date).to_period('M')] as the ordinal of the
    month. *)
Variable to_period_M : string -> Z.
(** [np.sqrt], used for the reported z-score only. *)
Variable np_sqrt : Q -> Q.
(** [(datetime.now() + timedelta(days=d)).strftime('%Y-%m')] *)
Variable strftime_after : Z -> string.
(** [pd.to_datetime(date).strftime('%Y-%m-%d')]: the date of a row as
    [prepare_transaction_data] parsed it, rendered again. *)
Variable strftime_ymd : string -> string.

Definition month (r : Row) : Z := to_period_M (date r).

(** [df[df['category'] == 'Expense'].groupby('month')['amount'].sum()] *)
Definition monthly_expense_sums (df : list Row) : list Q :=
  map snd (groupby_sum Z.compare month amount (filter is_expense df)).

Definition monthly_income_sums (df : list Row) : list Q :=
  map snd (groupby_sum Z.compare month amount (filter is_income df)).

Definition change_of (current previous : Q) : Q :=
  if Qeq_bool previous 0 then 0
  else (current - previous) / previous * 100.

Definition classify (change_percent : Q) : string :=
  if Qltb 5 change_percent then "increasing"
  else if Qltb change_percent (-5) then "decreasing"
  else "stable".

Definition calculate_monthly_trend (df : list Row) : Trend :=
  let monthly_data := monthly_expense_sums df in
  if (List.length monthly_data <? 2)%nat
  then {| trend := "stable"; change_percent := 0;
          current_month := None; average_monthly := None |}
  else
    let current := iloc_last monthly_data in
    let previous := iloc_prev monthly_data in
    let cp := change_of current previous in
    {| trend := classify cp;
       change_percent := py_round cp 1;
       current_month := Some current;
       average_monthly := Some (Qmean monthly_data) |}.

Definition forecast_entry (avg_spending : Q) (i : nat) : ForecastEntry :=
  let qi := inject_Z (Z.of_nat i) in
  {| f_month := strftime_after (30 * (Z.of_nat i + 1));
     predicted_amount := avg_spending * (1 + (2 # 100) * qi);
     confidence := Qmax' ((7 # 10) - qi * (1 # 10)) (3 # 10) |}.

Definition forecast_spending (df : list Row) (months : nat)
  : list ForecastEntry :=
  let expense_df := filter is_expense df in
  if (List.length expense_df <? 3)%nat then []
  else
    let monthly_expenses := monthly_expense_sums df in
    let last_values := tail_n 3 monthly_expenses in
    let avg_spending := Qmean last_values in
    map (forecast_entry avg_spending) (seq 0 months).

Definition anomaly_of (mean_amount var : Q) (row : Row) : Anomaly :=
  {| a_date := strftime_ymd (date row);
     a_amount := amount row;
     a_description := description row;
     a_z_score :=
       py_round (Qabs ((amount row - mean_amount) / np_sqrt var)) 2;
     a_type := if Qltb mean_amount (amount row)
               then "high_spending" else "low_spending" |}.

(** [detect_anomalies].  A NaN deviation (a single expense) is not equal
to [0] and no z-score computed from it exceeds 2, so the loop appends
nothing. *)
Definition detect_anomalies (df : list Row) : list Anomaly :=
  let expense_df := filter is_expense df in
  match expense_df with
  | [] => []
  | _ =>
      let amounts := map amount expense_df in
      let mean_amount := series_mean amounts in
      match series_var amounts with
      | None => []
      | Some var =>
          if Qeq_bool var 0 then []
          else
            map (anomaly_of mean_amount var)
                (filter (fun row =>
                           z_score_exceeds_2 (amount row) mean_amount var)
                        expense_df)
      end
  end.

Definition calculate_diversity_score (df : list Row) : Q :=
  let income_sources := nunique (map type (filter is_income df)) in
  Qmin' (inject_Z (Z.of_nat income_sources) * 20) 100.

(** [calculate_growth_score].  The monthly sums are numpy scalars: when
    the first month's income is zero the growth rate is an infinity or
    NaN, and the score is 100, 0 or NaN. *)
Definition calculate_growth_score (df : list Row) : PyFloat :=
  let monthly_income := monthly_income_sums df in
  if (List.length monthly_income <? 2)%nat then Fin 50
  else
    let growth_rate :=
      pf_mul (np_div (iloc_last monthly_income - iloc_first monthly_income)
                     (iloc_first monthly_income))
             100 in
    py_min (py_max (pf_add (pf_mul growth_rate 5) 50) 0) 100.

Definition generate_health_recommendations (b : Breakdown) : list string :=
  (if Qltb (b_savings_rate b) 20
   then ["Increase savings rate to at least 20% of income"] else [])
  ++ (if Qltb 80 (b_expense_ratio b)
      then ["Reduce expenses to below 80% of income"] else [])
  ++ (if Qltb (b_diversity_score b) 60
      then ["Diversify income sources for better stability"] else [])
  ++ (if Qltb (b_savings_score b) 70
      then ["Focus on building emergency fund"] else []).

Definition total_income (df : list Row) : Q :=
  Qsum (map amount (filter is_income df)).
Definition total_expenses (df : list Row) : Q :=
  Qsum (map amount (filter is_expense df)).

Definition savings_score_of (savings_rate : Q) : Q :=
  Qmin' (savings_rate * 2) 100.
Definition stability_score_of (df : list Row) : Q :=
  if (10 <? List.length df)%nat then 80 else 40.

(** The weighted overall score, before rounding. *)
Definition overall_score_of (savings stability diversity : Q)
  (growth : PyFloat) : PyFloat :=
  pf_radd (savings * (4 # 10) + stability * (3 # 10) + diversity * (2 # 10))
          (pf_mul growth (1 # 10)).

Definition calculate_financial_health_score (transactions : list Row)
  : HealthScore :=
  match transactions with
  | [] => empty_health
  | df =>
      let ti := total_income df in
      let te := total_expenses df in
      if Qeq_bool ti 0 then empty_health
      else
        let savings_rate := (ti - te) / ti * 100 in
        let expense_ratio := te / ti * 100 in
        let savings_score := savings_score_of savings_rate in
        let stability_score := stability_score_of df in
        let diversity_score := calculate_diversity_score df in
        let growth_score := calculate_growth_score df in
        let overall_score :=
          overall_score_of savings_score stability_score
                           diversity_score growth_score in
        let b :=
          {| b_savings_rate := py_round savings_rate 1;
             b_expense_ratio := py_round expense_ratio 1;
             b_savings_score := py_round savings_score 1;
             b_stability_score := py_round stability_score 1;
             b_diversity_score := py_round diversity_score 1;
             b_growth_score := pf_round growth_score 1 |} in
        {| score := pf_round overall_score 1;
           breakdown := Some b;
           recommendations := generate_health_recommendations b |}
  end.
End Engine.

(** ** Category analysis, savings opportunities, investment advice *)

Record CategoryRow : Type := {
  c_type : string;
  c_sum : Q;
  c_count : nat;
  c_mean : Q;
  c_percentage : PyFloat
}.

(** [expense_df.groupby('type')['amount'].agg(['sum', 'count', 'mean'])] *)
Definition category_groups (df : list Row) : list (string * list Row) :=
  groupby String.compare type (filter is_expense df).

Definition group_sum (g : string * list Row) : Q := Qsum (map amount (snd g)).

(** [sort_values('sum', ascending=False)].  pandas does not fix the order
    of groups with equal sums; they are kept in label order here. *)
Definition by_sum_desc : list (string * list Row) -> list (string * list Row) :=
  sorted_desc (fun y x => Qltb (group_sum y) (group_sum x)).

(** [analyze_categories]; [None] is the empty dict returned when there is
    no expense. *)
Definition analyze_categories (df : list Row) : option (list CategoryRow) :=
  match filter is_expense df with
  | [] => None
  | _ =>
      let category_analysis := by_sum_desc (category_groups df) in
      let total_expenses := Qsum (map group_sum category_analysis) in
      Some (map (fun g =>
                   {| c_type := fst g;
                      c_sum := group_sum g;
                      c_count := List.length (snd g);
                      c_mean := Qmean (map amount (snd g));
                      c_percentage :=
                        pf_round
                          (pf_mul (np_div (group_sum g) total_expenses) 100)
                          1 |})
                category_analysis)
  end.

Record Opportunity : Type := {
  o_type : string;
  o_description : string;
  potential_savings : Q;
  priority : string
}.

Section Opportunities.
(** [str.contains('subscription|netflix|spotify|prime', case=False)] on a
    description, and the rendering of an amount with [:,.0f]. *)
Variable mentions_subscription : string -> bool.
Variable fmt_amount0 : Q -> string.

Definition subscription_opportunity (expense_df : list Row) : list Opportunity :=
  match filter (fun r => mentions_subscription (description r)) expense_df with
  | [] => []
  | subscriptions =>
      let total_subscriptions := Qsum (map amount subscriptions) in
      [ {| o_type := "subscriptions";
           o_description :=
             ("Review " ++ str_of_int (Z.of_nat (List.length subscriptions))
              ++ " subscriptions costing ₹" ++ fmt_amount0 total_subscriptions
              ++ "/month")%string;
           potential_savings := total_subscriptions * (3 # 10);
           priority := "medium" |} ]
  end.

Definition high_frequency_opportunity (g : string * list Row) : Opportunity :=
  {| o_type := "high_frequency";
     o_description :=
       ("High frequency spending on " ++ fst g ++ " (₹"
        ++ fmt_amount0 (group_sum g) ++ ")")%string;
     potential_savings := group_sum g * (15 # 100);
     priority := "low" |}.

Definition identify_savings_opportunities (df : list Row) : list Opportunity :=
  match filter is_expense df with
  | [] => []
  | expense_df =>
      subscription_opportunity expense_df
      ++ map high_frequency_opportunity
             (filter (fun g => (8 <? List.length (snd g))%nat)
                     (category_groups df))
  end.
End Opportunities.

Record Recommendation : Type := {
  asset : string;
  allocation : Q;
  expected_return : Q;
  r_confidence : Q;
  time_horizon : string
}.

Definition base_recommendations (risk_tolerance : string)
  : list (string * Q * Q) :=
  if String.eqb risk_tolerance "conservative" then
    [ ("Government Bonds", 60, 55 # 10);
      ("Blue Chip Stocks", 25, 82 # 10);
      ("Fixed Deposits", 15, 6) ]
  else if String.eqb risk_tolerance "aggressive" then
    [ ("Growth Stocks", 40, 152 # 10);
      ("Technology ETFs", 30, 128 # 10);
      ("Cryptocurrency", 20, 25);
      ("Emerging Markets", 10, 185 # 10) ]
  else
    [ ("Diversified Stocks", 50, 105 # 10);
      ("Corporate Bonds", 30, 78 # 10);
      ("Real Estate", 20, 92 # 10) ].

Section Investment.
(** The successive draws of [np.random.uniform(0.7, 0.95)]. *)
Variable uniform_draw : nat -> Q.

(** [generate_investment_recommendations]; the [portfolio] argument is
    not read by the source. *)
Definition generate_investment_recommendations (risk_tolerance : string)
  : list Recommendation :=
  map (fun ir =>
         let '(i, (a, al, er)) := ir in
         {| asset := a; allocation := al; expected_return := er;
            r_confidence := uniform_draw i;
            time_horizon :=
              if String.eqb risk_tolerance "aggressive"
              then "long-term" else "medium-term" |})
      (combine (seq 0 (List.length (base_recommendations risk_tolerance)))
               (base_recommendations risk_tolerance)).
End Investment.

Record Analysis : Type := {
  monthly_trend : Trend;
  category_analysis : option (list CategoryRow);
  spending_forecast : list ForecastEntry;
  anomalies : list Anomaly;
  savings_opportunities : list Opportunity
}.

Definition get_default_analysis : Analysis :=
  {| monthly_trend := {| trend := "stable"; change_percent := 0;
                         current_month := None; average_monthly := None |};
     category_analysis := Some [];
     spending_forecast := [];
     anomalies := [];
     savings_opportunities := [] |}.

Section Patterns.
Variable to_period_M : string -> Z.
Variable np_sqrt : Q -> Q.
Variable strftime_after : Z -> string.
Variable strftime_ymd : string -> string.
Variable mentions_subscription : string -> bool.
Variable fmt_amount0 : Q -> string.

(** [analyze_spending_patterns] (the forecast horizon is the default of
    three months). *)
Definition analyze_spending_patterns (transactions : list Row) : Analysis :=
  match transactions with
  | [] => get_default_analysis
  | df =>
      {| monthly_trend := calculate_monthly_trend to_period_M df;
         category_analysis := analyze_categories df;
         spending_forecast := forecast_spending to_period_M strftime_after df 3;
         anomalies := detect_anomalies np_sqrt strftime_ymd df;
         savings_opportunities :=
           identify_savings_opportunities mentions_subscription fmt_amount0 df |}
  end.
End Patterns.

End AIEngine.

(* ================================================================== *)
(** * data_entry.py *)

Module DataEntry.
Section Validator.
(** [float(re.sub(r'[...]', '', line.strip()))]: the parsed float, which
    [float] also builds from ["nan"], ["inf"] and from a literal too large
    for a float, or [None] when [float] raises [ValueError]. *)
Variable parse_amount : string -> option PyFloat.

(** [DataValidator.get_amount]: the prompt loop over the lines the
    user types; [None] when the lines run out before one is
    accepted. *)
Fixpoint get_amount (lines : list string) : option PyFloat :=
  match lines with
  | [] => None
  | amount_str :: rest =>
      match parse_amount amount_str with
      | None => get_amount rest
      | Some amount =>
          if pf_le0 amount then get_amount rest
          else Some (pf_round amount 2)
      end
  end.
End Validator.
End DataEntry.

(* ================================================================== *)
(** * The interpreter's [hash] on [str]

    CPython (3.11 and later) hashes the bytes of a string with
    SipHash-1-3 under a per-process key; with [PYTHONHASHSEED=n] the key
    comes from a linear congruential generator seeded with [n], otherwise
    from the operating system's random source. *)

Module CPython.
Local Open Scope Z_scope.

Definition u64 (x : Z) : Z := x mod 2 ^ 64.

Definition ROTATE (x b : Z) : Z :=
  u64 (Z.lor (Z.shiftl x b) (Z.shiftr x (64 - b))).

Definition state : Type := (Z * Z * Z * Z)%type.

Definition HALF_ROUND (v : state) (s t : Z) : state :=
  let '(a, b, c, d) := v in
  let a := u64 (a + b) in
  let c := u64 (c + d) in
  let b := Z.lxor (ROTATE b s) a in
  let d := Z.lxor (ROTATE d t) c in
  let a := ROTATE a 32 in
  (a, b, c, d).

Definition SINGLE_ROUND (v : state) : state :=
  let '(v0, v1, v2, v3) := v in
  let '(v0, v1, v2, v3) := HALF_ROUND (v0, v1, v2, v3) 13 16 in
  let '(v2, v1, v0, v3) := HALF_ROUND (v2, v1, v0, v3) 17 21 in
  (v0, v1, v2, v3).

(** Little-endian bytes to integer. *)
Fixpoint le64 (bytes : list Z) : Z :=
  match bytes with
  | [] => 0
  | b :: rest => b + 256 * le64 rest
  end.

(** The loop over the full 8-byte words of the input. *)
Fixpoint compress (words : nat) (input : list Z) (v : state) : state * list Z :=
  match words with
  | O => (v, input)
  | S words' =>
      let mi := le64 (firstn 8 input) in
      let '(v0, v1, v2, v3) := v in
      let '(v0, v1, v2, v3) := SINGLE_ROUND (v0, v1, v2, Z.lxor v3 mi) in
      compress words' (skipn 8 input) (Z.lxor v0 mi, v1, v2, v3)
  end.

Definition siphash13 (k0 k1 : Z) (src : list Z) : Z :=
  let src_sz := Z.of_nat (List.length src) in
  let b := u64 (Z.shiftl src_sz 56) in
  let v0 := Z.lxor k0 0x736f6d6570736575 in
  let v1 := Z.lxor k1 0x646f72616e646f6d in
  let v2 := Z.lxor k0 0x6c7967656e657261 in
  let v3 := Z.lxor k1 0x7465646279746573 in
  let '(v, rest) := compress (List.length src / 8) src (v0, v1, v2, v3) in
  let b := Z.lor b (le64 rest) in
  let '(v0, v1, v2, v3) := v in
  let '(v0, v1, v2, v3) := SINGLE_ROUND (v0, v1, v2, Z.lxor v3 b) in
  let v0 := Z.lxor v0 b in
  let v2 := Z.lxor v2 0xff in
  let '(v0, v1, v2, v3) :=
    SINGLE_ROUND (SINGLE_ROUND (SINGLE_ROUND (v0, v1, v2, v3))) in
  Z.lxor (Z.lxor v0 v1) (Z.lxor v2 v3).

(** [lcg_urandom]: the hash secret derived from [PYTHONHASHSEED]. *)
Fixpoint lcg_urandom (x : Z) (size : nat) : list Z :=
  match size with
  | O => []
  | S size' =>
      let x := (x * 214013 + 2531011) mod 2 ^ 32 in
      Z.land (Z.shiftr x 16) 0xff :: lcg_urandom x size'
  end.

Definition bytes_of (s : string) : list Z :=
  map (fun c => Z.of_nat (nat_of_ascii c)) (list_ascii_of_string s).

(** [hash(s)] for a string of one-byte characters, in a process started
    with [PYTHONHASHSEED=seed] ([seed = 0] disables the
    randomisation). *)
Definition str_hash (seed : Z) (s : string) : Z :=
  match bytes_of s with
  | [] => 0
  | src =>
      let secret := if seed =? 0 then repeat 0 24%nat else lcg_urandom seed 24 in
      let k0 := le64 (firstn 8 secret) in
      let k1 := le64 (firstn 8 (skipn 8 secret)) in
      let x := siphash13 k0 k1 src in
      let x := if 2 ^ 63 <=? x then x - 2 ^ 64 else x in
      if x =? -1 then -2 else x
  end.
End CPython.

(* ================================================================== *)
(** * Reference definitions in the words of the specification *)

(** The population variance (divisor [n]) and the rows that an anomaly
    detector using the population standard deviation would flag. *)
Definition population_var (l : list Q) : Q :=
  AIEngine.sum_sq_dev l / inject_Z (Z.of_nat (List.length l)).

Definition population_flagged (df : list AIEngine.Row) : list AIEngine.Row :=
  let expense_df := filter AIEngine.is_expense df in
  let amounts := map AIEngine.amount expense_df in
  let mean_amount := AIEngine.series_mean amounts in
  let var := population_var amounts in
  if Qeq_bool var 0 then []
  else filter (fun row =>
                 AIEngine.z_score_exceeds_2 (AIEngine.amount row) mean_amount var)
              expense_df.

(** The amount invariant of the data model. *)
Definition amounts_positive {T : Type} (amount : T -> Q) (l : list T) : Prop :=
  Forall (fun t => 0 < amount t) l.

(** A line on which [DataValidator.get_amount] asks again: [float]
    raises [ValueError] on it, or it is a number that is not positive, or
    minus infinity.  The lines ["inf"] and ["nan"] are not among them. *)
Definition rejected (parse_amount : string -> option PyFloat) (line : string)
  : Prop :=
  match parse_amount line with
  | None => True
  | Some (Fin a) => a <= 0
  | Some NegInf => True
  | Some PosInf => False
  | Some NaN => False
  end.

(** A date parser for the examples: the month ordinal of an ISO date
    [YYYY-MM-DD] (months since January 1970). *)
Definition digit (c : ascii) : Z := Z.of_nat (nat_of_ascii c) - 48.

Definition iso_period_M (s : string) : Z :=
  match list_ascii_of_string s with
  | y1 :: y2 :: y3 :: y4 :: _ :: m1 :: m2 :: _ =>
      ((digit y1 * 1000 + digit y2 * 100 + digit y3 * 10 + digit y4 - 1970) * 12
       + (digit m1 * 10 + digit m2 - 1))%Z
  | _ => 0%Z
  end.






(* ================================================================== *)
(** * Example data *)

Module Examples.
Definition fc_salary : FinanceCore.Transaction :=
  {| FinanceCore.date := "2024-01-15"; FinanceCore.amount := 1000;
     FinanceCore.category := "Income"; FinanceCore.subcategory := "Salary";
     FinanceCore.description := "Monthly Salary"; FinanceCore.id := "t1" |}.

Definition fc_food : FinanceCore.Transaction :=
  {| FinanceCore.date := "2024-01-16"; FinanceCore.amount := 300;
     FinanceCore.category := "Expense"; FinanceCore.subcategory := "Food";
     FinanceCore.description := "Grocery Shopping"; FinanceCore.id := "t2" |}.

Definition fm_of (l : list FinanceCore.Transaction) : FinanceCore.FinanceManager :=
  {| FinanceCore.transactions := l; FinanceCore.data_file := l |}.

Definition row (d : string) (a : Q) (c t descr : string) : AIEngine.Row :=
  {| AIEngine.date := d; AIEngine.amount := a; AIEngine.category := c;
     AIEngine.type := t; AIEngine.description := descr |}.

(** Expenses exceed income. *)
Definition overspent : list AIEngine.Row :=
  [ row "2024-01-15" 100 "Income" "Salary" "Monthly Salary";
    row "2024-01-16" 1000 "Expense" "Food" "Grocery Shopping" ].

(** Only expenses: the total income is zero. *)
Definition expenses_only : list AIEngine.Row :=
  [ row "2024-01-16" 300 "Expense" "Food" "Grocery Shopping";
    row "2024-02-05" 200 "Expense" "Food" "Restaurant" ].

(** Three expenses inside one month. *)
Definition one_month : list AIEngine.Row :=
  [ row "2024-01-16" 300 "Expense" "Food" "Grocery Shopping";
    row "2024-01-20" 200 "Expense" "Bills" "Electricity Bill";
    row "2024-01-28" 100 "Expense" "Entertainment" "Movie" ].

(** Two months of expenses: 600 in January, 660 in February. *)
Definition two_months : list AIEngine.Row :=
  one_month
  ++ [ row "2024-02-05" 660 "Expense" "Food" "Restaurant" ].

Definition spend (a : Q) : AIEngine.Row :=
  row "2024-01-16" a "Expense" "Food" "Grocery Shopping".

(** Six expenses with amounts 1, 1, 1, 1, 4 and 10. *)
Definition six_expenses : list AIEngine.Row :=
  [ spend 1; spend 1; spend 1; spend 1; spend 4; spend 10 ].

Definition dm_txn (i : string) (a : Q) : DataManager.Transaction :=
  {| DataManager.id := i; DataManager.date := "2024-01-16";
     DataManager.amount := a; DataManager.category := "Expense";
     DataManager.type := "Food"; DataManager.description := "Grocery Shopping";
     DataManager.tags := []; DataManager.status := "completed";
     DataManager.created_at := "2024-01-16T10:00:00";
     DataManager.updated_at := "2024-01-16T10:00:00" |}.

Definition dm_txn_on (i d : string) (a : Q) : DataManager.Transaction :=
  {| DataManager.id := i; DataManager.date := d;
     DataManager.amount := a; DataManager.category := "Expense";
     DataManager.type := "Food"; DataManager.description := "Grocery Shopping";
     DataManager.tags := []; DataManager.status := "completed";
     DataManager.created_at := "2024-01-16T10:00:00";
     DataManager.updated_at := "2024-01-16T10:00:00" |}.

(** Three stored transactions, not in date order. *)
Definition dm_three : list DataManager.Transaction :=
  [ dm_txn_on "a1" "2024-01-16" 300;
    dm_txn_on "a2" "2024-03-05" 120;
    dm_txn_on "a3" "2023-11-30" 80 ].



Definition dm_of (l : list DataManager.Transaction)
  : DataManager.QuantumDataManager :=
  {| DataManager.transactions := l;
     DataManager.portfolio_total_value := None;
     DataManager.data_file := l |}.

Definition dm_data (i : option string) (a : Q) : DataManager.TransactionData :=
  {| DataManager.d_id := i; DataManager.d_date := "2024-01-16";
     DataManager.d_amount := a; DataManager.d_category := "Expense";
     DataManager.d_type := "Food";
     DataManager.d_description := "Grocery Shopping";
     DataManager.d_tags := []; DataManager.d_status := None;
     DataManager.d_created_at := None; DataManager.d_updated_at := None |}.

Definition no_updates : DataManager.Updates :=
  {| DataManager.u_id := None; DataManager.u_date := None;
     DataManager.u_amount := None; DataManager.u_category := None;
     DataManager.u_type := None; DataManager.u_description := None;
     DataManager.u_tags := None; DataManager.u_status := None;
     DataManager.u_created_at := None; DataManager.u_updated_at := None |}.

Definition set_amount (a : Q) : DataManager.Updates :=
  {| DataManager.u_id := None; DataManager.u_date := None;
     DataManager.u_amount := Some a; DataManager.u_category := None;
     DataManager.u_type := None; DataManager.u_description := None;
     DataManager.u_tags := None; DataManager.u_status := None;
     DataManager.u_created_at := None; DataManager.u_updated_at := None |}.

(** Five expenses of 1 and one of 13. *)
Definition six_with_outlier : list AIEngine.Row :=
  [ spend 1; spend 1; spend 1; spend 1; spend 1; spend 13 ].

(** A constant-amount expense series. *)
Definition constant_expenses : list AIEngine.Row :=
  [ spend 5; spend 5; spend 5 ].

(** A rational approximation of the square root (Newton's iteration),
    standing for [np.sqrt] in the examples. *)
Definition sqrt_newton (x : Q) : Q :=
  if Qle_bool x 0 then 0
  else Nat.iter 6 (fun y => Qred ((y + x / y) / 2)) x.

Definition fc_bills : FinanceCore.Transaction :=
  {| FinanceCore.date := "2024-01-20"; FinanceCore.amount := 200;
     FinanceCore.category := "Expense"; FinanceCore.subcategory := "Bills";
     FinanceCore.description := "Electricity Bill"; FinanceCore.id := "t4" |}.

Definition fc_salary_feb : FinanceCore.Transaction :=
  {| FinanceCore.date := "2024-02-01"; FinanceCore.amount := 1200;
     FinanceCore.category := "Income"; FinanceCore.subcategory := "Salary";
     FinanceCore.description := "Monthly Salary"; FinanceCore.id := "t5" |}.

(** Two months: a balance of 700 in January and of 1200 in February. *)
Definition fc_two_months : list FinanceCore.Transaction :=
  [fc_salary; fc_food; fc_salary_feb].

(** A record with a negative amount. *)
(** A case-sensitive stand-in for the pattern match of
    [identify_savings_opportunities]. *)
Fixpoint contains (pat s : string) : bool :=
  String.prefix pat s
  || match s with
     | EmptyString => false
     | String _ s' => contains pat s'
     end.

Definition mentions (s : string) : bool :=
  contains "subscription" s || contains "netflix" s
  || contains "spotify" s || contains "prime" s.

(** Nine food expenses of 100, one streaming plan of 15 and a salary. *)
Definition streaming : list AIEngine.Row :=
  row "2024-01-15" 5000 "Income" "Salary" "Monthly Salary"
  :: row "2024-01-20" 15 "Expense" "Entertainment" "netflix plan"
  :: repeat (spend 100) 9.

Definition fc_refund : FinanceCore.Transaction :=
  {| FinanceCore.date := "2024-01-17"; FinanceCore.amount := -5;
     FinanceCore.category := "Expense"; FinanceCore.subcategory := "Food";
     FinanceCore.description := "Refund"; FinanceCore.id := "t3" |}.
End Examples.

(* ================================================================== *)
(** * Sanity checks of the helpers *)

Example str_hash_seed0 :
  CPython.str_hash 0 "Lunch" = 1021447112583002277%Z.
Proof. vm_compute. reflexivity. Qed.

Example iso_period_M_jan_2024 : iso_period_M "2024-01-15" = 648%Z.
Proof. reflexivity. Qed.

Example str_hash_seed1 :
  CPython.str_hash 1 "Monthly Salary" = (-611827109911481535)%Z.
Proof. vm_compute. reflexivity. Qed.

Example py_round_half_even :
  map (fun x => Qred (py_round x 1)) [5 # 100; 15 # 100; -(5 # 100); 26 # 100]
  = [0; 1 # 5; 0; 3 # 10].
Proof. vm_compute. reflexivity. Qed.

(* ================================================================== *)
(** * Facts about the numeric helpers *)

Lemma Qltb_lt (x y : Q) : Qltb x y = true <-> x < y.
Proof.
  unfold Qltb. rewrite negb_true_iff. split; intro H.
  - apply Qnot_le_lt. intro Hle. apply Qle_bool_iff in Hle. congruence.
  - destruct (Qle_bool y x) eqn:E; [|reflexivity].
    apply Qle_bool_iff in E. exfalso. apply (Qlt_not_le _ _ H E).
Qed.

Lemma Qltb_ge (x y : Q) : Qltb x y = false <-> y <= x.
Proof.
  unfold Qltb. rewrite negb_false_iff. apply Qle_bool_iff.
Qed.

Lemma Qsum_app (l1 l2 : list Q) : Qsum (l1 ++ l2) == Qsum l1 + Qsum l2.
Proof.
  induction l1 as [|x l1 IH]; simpl.
  - ring.
  - rewrite IH. ring.
Qed.

Lemma Qsum_nonneg (l : list Q) : Forall (fun x => 0 <= x) l -> 0 <= Qsum l.
Proof.
  induction 1 as [|x l Hx _ IH]; simpl.
  - apply Qle_refl.
  - change 0 with (0 + 0) at 1. apply Qplus_le_compat; assumption.
Qed.

(* ================================================================== *)
(** * Facts about groupby *)

Section GroupByFacts.
Context {K R : Type}.
Variable cmp : K -> K -> comparison.
Variable key : R -> K.
Variable amount : R -> Q.

Lemma group_insert_total (r : R) (g : list (K * list R)) :
  groups_total amount (group_insert cmp key r g)
  == groups_total amount g + amount r.
Proof.
  unfold groups_total.
  induction g as [|[k rows] g IH]; simpl.
  - ring.
  - destruct (cmp (key r) k); simpl.
    + rewrite map_app, Qsum_app. simpl. ring.
    + ring.
    + rewrite IH. ring.
Qed.

Lemma fold_group_insert_total (df : list R) (g : list (K * list R)) :
  groups_total amount (fold_left (fun g r => group_insert cmp key r g) df g)
  == groups_total amount g + Qsum (map amount df).
Proof.
  revert g. induction df as [|r df IH]; intro g; simpl.
  - ring.
  - rewrite IH, group_insert_total. ring.
Qed.

(** Summing the per-group sums gives the sum of the whole column. *)
Lemma groupby_sum_total (df : list R) :
  Qsum (map snd (groupby_sum cmp key amount df)) == Qsum (map amount df).
Proof.
  unfold groupby_sum, groupby. rewrite map_map. simpl.
  rewrite <- (Qplus_0_l (Qsum (map amount df))).
  exact (fold_group_insert_total df []).
Qed.

(** Every row ends up in some group. *)
Lemma group_insert_In (r r' : R) (g : list (K * list R)) :
  (r' = r \/ exists grp, In grp g /\ In r' (snd grp)) ->
  exists grp, In grp (group_insert cmp key r g) /\ In r' (snd grp).
Proof.
  induction g as [|[k rows] g IH]; simpl; intros [H | (grp & Hin & Hr)].
  - subst. eexists. split; [left; reflexivity | simpl; auto].
  - contradiction.
  - subst. destruct (cmp (key r) k).
    + eexists. split; [left; reflexivity|]. simpl. apply in_or_app. simpl. auto.
    + eexists. split; [left; reflexivity|]. simpl. auto.
    + destruct IH as (grp & Hin & Hr); [left; reflexivity|].
      exists grp. split; [right; exact Hin | exact Hr].
  - destruct (cmp (key r) k).
    + destruct Hin as [<- | Hin].
      * eexists. split; [left; reflexivity|]. simpl. apply in_or_app. auto.
      * exists grp. split; [right; exact Hin | exact Hr].
    + exists grp. split; [right; exact Hin | exact Hr].
    + destruct Hin as [<- | Hin].
      * eexists. split; [left; reflexivity | exact Hr].
      * destruct IH as (grp' & Hin' & Hr'); [right; eauto|].
        exists grp'. split; [right; exact Hin' | exact Hr'].
Qed.

Lemma fold_group_insert_In (df : list R) (g : list (K * list R)) (r' : R) :
  (In r' df \/ exists grp, In grp g /\ In r' (snd grp)) ->
  exists grp,
    In grp (fold_left (fun g r => group_insert cmp key r g) df g)
    /\ In r' (snd grp).
Proof.
  revert g. induction df as [|r df IH]; intros g H; simpl.
  - destruct H as [[] | H]. exact H.
  - apply IH. destruct H as [[-> | H] | H].
    + right. apply group_insert_In. left; reflexivity.
    + left. exact H.
    + right. apply group_insert_In. right; exact H.
Qed.

Lemma groupby_In (df : list R) (r : R) :
  In r df -> exists grp, In grp (groupby cmp key df) /\ In r (snd grp).
Proof.
  intro H. apply fold_group_insert_In. left; exact H.
Qed.
End GroupByFacts.

(* ================================================================== *)
(** * Financial summaries *)

Lemma FinanceCore_ratio_guards (net_balance expenses income : Q) :
  income == 0 ->
  FinanceCore.savings_rate_of net_balance income = 0
  /\ FinanceCore.expense_ratio_of expenses income = 0.
Proof.
  intro H. unfold FinanceCore.savings_rate_of, FinanceCore.expense_ratio_of.
  assert (E : Qltb 0 income = false).
  { apply Qltb_ge. rewrite H. apply Qle_refl. }
  rewrite E. split; reflexivity.
Qed.

Lemma DataManager_savings_rate_guard (tpm : string -> Z)
  (self : DataManager.QuantumDataManager) (now : Z) (clock : string) :
  DataManager.current_month_income
    (DataManager.get_financial_summary tpm self now clock) == 0 ->
  DataManager.savings_rate
    (DataManager.get_financial_summary tpm self now clock) = 0.
Proof.
  unfold DataManager.get_financial_summary.
  destruct (DataManager.transactions self) as [|t l]; simpl; intro H.
  - reflexivity.
  - match goal with |- (if Qltb 0 ?m then _ else _) = _ =>
      assert (E : Qltb 0 m = false) by (apply Qltb_ge; rewrite H; apply Qle_refl)
    end.
    rewrite E. reflexivity.
Qed.

Lemma Qsum_filter_nonneg {T : Type} (amount : T -> Q) (f : T -> bool)
  (l : list T) :
  Forall (fun t => 0 <= amount t) l -> 0 <= Qsum (map amount (filter f l)).
Proof.
  induction 1 as [|x l Hx _ IH]; simpl; [apply Qle_refl|].
  destruct (f x); simpl; [|exact IH].
  change 0 with (0 + 0) at 1. apply Qplus_le_compat; assumption.
Qed.

Lemma Qsum_filter_and_le {T : Type} (amount : T -> Q) (f g : T -> bool)
  (l : list T) :
  Forall (fun t => 0 <= amount t) l ->
  Qsum (map amount (filter (fun t => f t && g t) l))
  <= Qsum (map amount (filter f l)).
Proof.
  induction 1 as [|x l Hx _ IH]; simpl; [apply Qle_refl|].
  destruct (f x), (g x); simpl; try exact IH.
  - apply Qplus_le_compat; [apply Qle_refl | exact IH].
  - rewrite <- (Qplus_0_l (Qsum _)) at 1.
    apply Qplus_le_compat; [exact Hx | exact IH].
Qed.

(** With non-negative amounts, a zero total income makes the savings rate
    of the data manager's summary zero. *)
Lemma DataManager_zero_income_savings_rate (tpm : string -> Z)
  (self : DataManager.QuantumDataManager) (now : Z) (clock : string) :
  Forall (fun t => 0 <= DataManager.amount t) (DataManager.transactions self) ->
  DataManager.total_income
    (DataManager.get_financial_summary tpm self now clock) == 0 ->
  DataManager.savings_rate
    (DataManager.get_financial_summary tpm self now clock) = 0.
Proof.
  intros Hpos Hti. apply DataManager_savings_rate_guard.
  assert (Hmi : DataManager.current_month_income
                  (DataManager.get_financial_summary tpm self now clock)
                = Qsum (map DataManager.amount
                          (filter (fun t => DataManager.is_income t
                                            && DataManager.in_month tpm now t)
                                  (DataManager.transactions self)))).
  { unfold DataManager.get_financial_summary.
    destruct (DataManager.transactions self); reflexivity. }
  assert (Hin : DataManager.total_income
                  (DataManager.get_financial_summary tpm self now clock)
                = Qsum (map DataManager.amount
                          (filter DataManager.is_income
                                  (DataManager.transactions self)))).
  { unfold DataManager.get_financial_summary.
    destruct (DataManager.transactions self); reflexivity. }
  rewrite Hin in Hti. rewrite Hmi. apply Qle_antisym.
  - rewrite <- Hti.
    apply (Qsum_filter_and_le DataManager.amount DataManager.is_income
             (DataManager.in_month tpm now) _ Hpos).
  - apply (Qsum_filter_nonneg DataManager.amount _ _ Hpos).
Qed.

(** A month group holding an Expense row makes the ['Expense'] column of
    [monthly_data] a string, whatever the dtype of the column. *)
Lemma str_series_sum_nonempty (dtype : StrColumn) (l : list string) :
  l <> [] -> is_num (str_series_sum dtype l) = false.
Proof. destruct l; [congruence | reflexivity]. Qed.

(** The summary of the finance manager raises as soon as one Expense
    transaction is stored: the mean of the monthly ['Expense'] column is
    taken over strings. *)
Lemma FinanceCore_summary_raises_with_expense (tpm : string -> Z)
  (dtype : StrColumn)
  (self : FinanceCore.FinanceManager) (now : Z) (t : FinanceCore.Transaction) :
  In t (FinanceCore.transactions self) ->
  FinanceCore.is_expense t = true ->
  FinanceCore.get_financial_summary tpm dtype self now = Raise TypeError.
Proof.
  intros Hin He. unfold FinanceCore.get_financial_summary.
  destruct (FinanceCore.transactions self) as [|t0 l] eqn:Edf; [contradiction|].
  rewrite <- Edf in *. clear Edf.
  assert (Hf : forallb is_num
                 (map FinanceCore.Expense
                      (FinanceCore.summary_monthly_data tpm dtype
                         (FinanceCore.transactions self))) = false).
  { destruct (groupby_In Z.compare (FinanceCore.month_of tpm) _ _ Hin)
      as (grp & Hg & Hr).
    apply not_true_is_false. intro Hall.
    rewrite forallb_forall in Hall.
    specialize (Hall (str_series_sum dtype
                        (map FinanceCore.category
                             (filter FinanceCore.is_expense (snd grp))))).
    rewrite str_series_sum_nonempty in Hall.
    - discriminate Hall.
      unfold FinanceCore.summary_monthly_data. rewrite map_map. simpl.
      apply (in_map (fun g => str_series_sum dtype
                                (map FinanceCore.category
                                     (filter FinanceCore.is_expense (snd g))))).
      exact Hg.
    - intro Hnil. apply map_eq_nil in Hnil.
      assert (Hin' : In t (filter FinanceCore.is_expense (snd grp)))
        by (apply filter_In; split; assumption).
      rewrite Hnil in Hin'. exact Hin'. }
  unfold obj_series_mean. rewrite Hf. reflexivity.
Qed.

(** C2 (the code departs from the claim): with no income and one Expense
    transaction stored, the total income is zero, yet
    [FinanceManager.get_financial_summary] returns no savings rate and no
    expense ratio: it raises [TypeError], under either dtype of the
    string columns. *)
Theorem zero_income_summary_raises :
  forall (to_period_M : string -> Z) (dtype : StrColumn) (now : Z),
    FinanceCore.total_income
      (FinanceCore.transactions (Examples.fm_of [Examples.fc_food])) == 0
    /\ FinanceCore.get_financial_summary to_period_M dtype
         (Examples.fm_of [Examples.fc_food]) now = Raise TypeError.
Proof.
  intros tpm dtype now. split.
  - reflexivity.
  - reflexivity.
Qed.

(** C6: the values of the expense breakdown sum to the total expenses and
    the values of the income breakdown sum to the total income, in the
    summary of the data manager (always returned), for the breakdowns and
    totals computed by the finance manager, and in every summary the
    finance manager returns. *)
Theorem breakdown_sums_to_total :
  forall (to_period_M : string -> Z),
    (forall (self : DataManager.QuantumDataManager) (now : Z) (clock : string),
        let s := DataManager.get_financial_summary to_period_M self now clock in
        Qsum (map snd (DataManager.expense_breakdown s))
        == DataManager.total_expenses s
        /\ Qsum (map snd (DataManager.income_breakdown s))
           == DataManager.total_income s)
    /\ (forall df : list FinanceCore.Transaction,
           Qsum (map snd (FinanceCore.expense_breakdown df))
           == FinanceCore.total_expenses df
           /\ Qsum (map snd (FinanceCore.income_breakdown df))
              == FinanceCore.total_income df)
    /\ (forall (dtype : StrColumn) (self : FinanceCore.FinanceManager)
               (now : Z) (s : FinanceCore.Summary),
           FinanceCore.get_financial_summary to_period_M dtype self now = Ok s ->
           Qsum (map snd (FinanceCore.s_expense_breakdown s))
           == FinanceCore.s_total_expenses s
           /\ Qsum (map snd (FinanceCore.s_income_breakdown s))
              == FinanceCore.s_total_income s).
Proof.
  intro tpm.
  assert (Hfc : forall df : list FinanceCore.Transaction,
             Qsum (map snd (FinanceCore.expense_breakdown df))
             == FinanceCore.total_expenses df
             /\ Qsum (map snd (FinanceCore.income_breakdown df))
                == FinanceCore.total_income df).
  { intro df. split; apply groupby_sum_total. }
  split; [|split].
  - intros self now clock. unfold DataManager.get_financial_summary.
    destruct (DataManager.transactions self) as [|t l]; simpl.
    + split; reflexivity.
    + split; apply groupby_sum_total.
  - exact Hfc.
  - intros dtype self now s. unfold FinanceCore.get_financial_summary.
    destruct (FinanceCore.transactions self) as [|t l] eqn:Edf.
    + intro H. inversion H; subst; simpl. split; reflexivity.
    + destruct (obj_series_mean _); intro H; inversion H; subst; simpl.
      apply Hfc.
Qed.

Lemma breakdown_sums_to_total_witness :
  exists s : FinanceCore.Summary,
    FinanceCore.get_financial_summary iso_period_M ObjectDtype
      (Examples.fm_of [Examples.fc_salary]) 648 = Ok s
    /\ Qsum (map snd (FinanceCore.s_income_breakdown s))
       == FinanceCore.s_total_income s.
Proof.
  eexists. split.
  - reflexivity.
  - pose proof (breakdown_sums_to_total iso_period_M) as (_ & _ & H).
    apply (H ObjectDtype (Examples.fm_of [Examples.fc_salary]) 648%Z).
    reflexivity.
Defined.

(* ================================================================== *)
(** * The transaction store of the data manager *)

Lemma update_first_None (clock tid : string) (u : DataManager.Updates)
  (l : list DataManager.Transaction) :
  DataManager.update_first clock tid u l = None
  <-> ~ In tid (map DataManager.id l).
Proof.
  induction l as [|t l IH]; simpl.
  - split; [intros _ [] | reflexivity].
  - destruct (String.eqb (DataManager.id t) tid) eqn:E.
    + apply String.eqb_eq in E. split; [discriminate | intro H; exfalso; auto].
    + apply String.eqb_neq in E.
      destruct (DataManager.update_first clock tid u l).
      * split; [discriminate|]. intro H. exfalso.
        destruct IH as [_ IH]. 
        assert (Hn : ~ In tid (map DataManager.id l)) by tauto.
        specialize (IH Hn). discriminate.
      * split; [|reflexivity]. intros _ [H | H]; [auto | tauto].
Qed.

Lemma filter_other_ids_absent (tid : string) (l : list DataManager.Transaction) :
  ~ In tid (map DataManager.id l) ->
  filter (fun txn => negb (String.eqb (DataManager.id txn) tid)) l = l.
Proof.
  induction l as [|t l IH]; simpl; intro H; [reflexivity|].
  destruct (String.eqb (DataManager.id t) tid) eqn:E; simpl.
  - apply String.eqb_eq in E. tauto.
  - f_equal. apply IH. tauto.
Qed.

Lemma filter_length_le {A : Type} (f : A -> bool) (l : list A) :
  (List.length (filter f l) <= List.length l)%nat.
Proof.
  induction l as [|x l IH]; simpl; [lia|]. destruct (f x); simpl; lia.
Qed.

Lemma filter_other_ids_shorter (tid : string) (l : list DataManager.Transaction) :
  In tid (map DataManager.id l) ->
  (List.length (filter (fun txn => negb (String.eqb (DataManager.id txn) tid)) l)
   < List.length l)%nat.
Proof.
  induction l as [|t l IH]; simpl; intro H; [contradiction|].
  destruct (String.eqb (DataManager.id t) tid) eqn:E; simpl.
  - pose proof (filter_length_le
                  (fun txn => negb (String.eqb (DataManager.id txn) tid)) l).
    lia.
  - apply String.eqb_neq in E. destruct H as [H | H]; [contradiction|].
    specialize (IH H). lia.
Qed.

(** C9: for an id that no stored transaction carries, [update_transaction]
    and [delete_transaction] return [False] and leave the manager (its
    transaction list and its data file) as it was; each returns [True]
    exactly when a transaction with the id is stored. *)
Theorem update_delete_unknown_id :
  forall (self : DataManager.QuantumDataManager) (clock tid : string)
         (u : DataManager.Updates),
    (~ In tid (map DataManager.id (DataManager.transactions self)) ->
     DataManager.update_transaction self clock tid u = (false, self)
     /\ DataManager.delete_transaction self tid = (false, self))
    /\ (fst (DataManager.update_transaction self clock tid u) = true
        <-> In tid (map DataManager.id (DataManager.transactions self)))
    /\ (fst (DataManager.delete_transaction self tid) = true
        <-> In tid (map DataManager.id (DataManager.transactions self))).
Proof.
  intros self clock tid u.
  assert (Hdec : In tid (map DataManager.id (DataManager.transactions self))
                 \/ ~ In tid (map DataManager.id (DataManager.transactions self))).
  { destruct (in_dec string_dec tid
                (map DataManager.id (DataManager.transactions self))); auto. }
  split; [|split].
  - intro Habs. split.
    + unfold DataManager.update_transaction.
      apply (update_first_None clock tid u) in Habs. rewrite Habs. reflexivity.
    + unfold DataManager.delete_transaction. simpl.
      rewrite (filter_other_ids_absent tid _ Habs).
      rewrite Nat.ltb_irrefl. destruct self; reflexivity.
  - unfold DataManager.update_transaction.
    destruct (DataManager.update_first clock tid u (DataManager.transactions self))
      eqn:E; simpl.
    + split; [intros _ | reflexivity].
      destruct Hdec as [H | H]; [exact H|].
      apply (update_first_None clock tid u) in H. congruence.
    + split; [discriminate|]. intro H.
      apply (update_first_None clock tid u) in E. contradiction.
  - unfold DataManager.delete_transaction. simpl.
    destruct Hdec as [H | H].
    + pose proof (filter_other_ids_shorter tid _ H) as Hlt.
      apply Nat.ltb_lt in Hlt. rewrite Hlt. simpl. tauto.
    + rewrite (filter_other_ids_absent tid _ H), Nat.ltb_irrefl. simpl.
      split; [discriminate | contradiction].
Qed.

Lemma update_delete_unknown_id_witness :
  DataManager.update_transaction
    (Examples.dm_of [Examples.dm_txn "a1" 300]) "2024-02-01T09:00:00" "zz"
    (Examples.set_amount 10)
  = (false, Examples.dm_of [Examples.dm_txn "a1" 300])
  /\ DataManager.delete_transaction
       (Examples.dm_of [Examples.dm_txn "a1" 300]) "zz"
     = (false, Examples.dm_of [Examples.dm_txn "a1" 300]).
Proof.
  apply (update_delete_unknown_id
           (Examples.dm_of [Examples.dm_txn "a1" 300]) "2024-02-01T09:00:00"
           "zz" (Examples.set_amount 10)).
  simpl. intros [H | []]. discriminate H.
Defined.

Lemma update_first_positive (clock tid : string) (u : DataManager.Updates)
  (l l' : list DataManager.Transaction) :
  amounts_positive DataManager.amount l ->
  (forall a, DataManager.u_amount u = Some a -> 0 < a) ->
  DataManager.update_first clock tid u l = Some l' ->
  amounts_positive DataManager.amount l'.
Proof.
  unfold amounts_positive. intros Hl Hu. revert l'.
  induction Hl as [|t l Ht Hl IH]; simpl; intros l' H; [discriminate|].
  destruct (String.eqb (DataManager.id t) tid).
  - inversion H; subst. constructor; [|exact Hl].
    simpl. destruct (DataManager.u_amount u) as [a|] eqn:E; simpl.
    + apply Hu. reflexivity.
    + exact Ht.
  - destruct (DataManager.update_first clock tid u l) as [r|]; [|discriminate].
    inversion H; subst. constructor; [exact Ht | apply IH; reflexivity].
Qed.

Lemma amounts_positive_snoc {T : Type} (amount : T -> Q) (l : list T) (t : T) :
  amounts_positive amount (l ++ [t])
  <-> amounts_positive amount l /\ 0 < amount t.
Proof.
  unfold amounts_positive. rewrite Forall_app. split.
  - intros [H1 H2]. inversion H2; subst. auto.
  - intros [H1 H2]. split; [exact H1 | constructor; [exact H2 | constructor]].
Qed.

(** X28: the store operations keep positive amounts positive.  The
    empty store and the built-in sample data satisfy [amount > 0];
    [add_transaction] (of either manager) yields a store satisfying it
    exactly when the store did and the new record's amount is positive;
    [update_transaction] preserves it when the update leaves the amount
    alone or sets a positive one; [delete_transaction] preserves it. *)
Theorem amount_invariant_for_positive_input :
  forall (md5_hexdigest : string -> string) (fmt_amount : Q -> string)
         (clock : string),
    amounts_positive FinanceCore.amount []
    /\ amounts_positive DataManager.amount
         (DataManager.transactions
            (DataManager.initialize_sample_data md5_hexdigest clock))
    /\ (forall (fm : FinanceCore.FinanceManager) (t : FinanceCore.Transaction),
           amounts_positive FinanceCore.amount
             (FinanceCore.transactions (FinanceCore.add_transaction fm t))
           <-> amounts_positive FinanceCore.amount (FinanceCore.transactions fm)
               /\ 0 < FinanceCore.amount t)
    /\ (forall (self : DataManager.QuantumDataManager)
               (d : DataManager.TransactionData),
           amounts_positive DataManager.amount
             (DataManager.transactions
                (snd (DataManager.add_transaction md5_hexdigest fmt_amount
                        self clock d)))
           <-> amounts_positive DataManager.amount (DataManager.transactions self)
               /\ 0 < DataManager.d_amount d)
    /\ (forall (self : DataManager.QuantumDataManager) (tid : string)
               (u : DataManager.Updates),
           amounts_positive DataManager.amount (DataManager.transactions self) ->
           (forall a, DataManager.u_amount u = Some a -> 0 < a) ->
           amounts_positive DataManager.amount
             (DataManager.transactions
                (snd (DataManager.update_transaction self clock tid u))))
    /\ (forall (self : DataManager.QuantumDataManager) (tid : string),
           amounts_positive DataManager.amount (DataManager.transactions self) ->
           amounts_positive DataManager.amount
             (DataManager.transactions
                (snd (DataManager.delete_transaction self tid)))).
Proof.
  intros md5 fmt clock.
  split; [constructor|].
  split; [simpl; repeat constructor|].
  split; [intros fm t; simpl; apply amounts_positive_snoc|].
  split; [intros self d; simpl; rewrite amounts_positive_snoc; simpl; tauto|].
  split.
  - intros self tid u Hinv Hu. unfold DataManager.update_transaction.
    destruct (DataManager.update_first clock tid u (DataManager.transactions self))
      as [l'|] eqn:E; simpl.
    + exact (update_first_positive clock tid u _ _ Hinv Hu E).
    + exact Hinv.
  - intros self tid Hinv. unfold DataManager.delete_transaction. simpl.
    assert (Hf : amounts_positive DataManager.amount
                   (filter (fun txn => negb (String.eqb (DataManager.id txn) tid))
                           (DataManager.transactions self))).
    { unfold amounts_positive in *. rewrite Forall_forall in *.
      intros x Hx. apply filter_In in Hx. apply Hinv. apply Hx. }
    destruct (_ <? _)%nat; simpl; exact Hf.
Qed.

Lemma amount_invariant_for_positive_input_witness :
  amounts_positive DataManager.amount
    (DataManager.transactions
       (snd (DataManager.update_transaction
               (Examples.dm_of [Examples.dm_txn "a1" 300])
               "2024-02-01T09:00:00" "a1" (Examples.set_amount 10))))
  /\ amounts_positive DataManager.amount
       (DataManager.transactions
          (snd (DataManager.delete_transaction
                  (Examples.dm_of [Examples.dm_txn "a1" 300]) "a1"))).
Proof.
  pose proof (amount_invariant_for_positive_input
                (fun s => s) (fun _ => "300") "2024-02-01T09:00:00")
    as (_ & _ & _ & _ & Hupd & Hdel).
  assert (Hinv : amounts_positive DataManager.amount
                   (DataManager.transactions
                      (Examples.dm_of [Examples.dm_txn "a1" 300]))).
  { simpl. repeat constructor. }
  split.
  - apply Hupd; [exact Hinv|]. simpl. intros a H. inversion H. reflexivity.
  - apply Hdel. exact Hinv.
Defined.

(** C7 (the code departs from the claim): [FinanceManager.add_transaction],
    documented as adding "with validation", stores a record with the
    amount -5 as it is; so does the data manager's [add_transaction],
    and its [update_transaction] applies an update setting the amount to
    -5.  The invariant [amount > 0] held before and fails afterwards. *)
Lemma amount_invariant_broken_by_negative_input :
  (amounts_positive FinanceCore.amount
     (FinanceCore.transactions (Examples.fm_of [Examples.fc_salary]))
   /\ ~ amounts_positive FinanceCore.amount
          (FinanceCore.transactions
             (FinanceCore.add_transaction (Examples.fm_of [Examples.fc_salary])
                                          Examples.fc_refund)))
  /\ (amounts_positive DataManager.amount
        (DataManager.transactions (Examples.dm_of [Examples.dm_txn "a1" 300]))
      /\ ~ amounts_positive DataManager.amount
             (DataManager.transactions
                (snd (DataManager.update_transaction
                        (Examples.dm_of [Examples.dm_txn "a1" 300])
                        "2024-02-01T09:00:00" "a1" (Examples.set_amount (-5))))))
  /\ (forall (md5_hexdigest : string -> string) (fmt_amount : Q -> string),
         ~ amounts_positive DataManager.amount
             (DataManager.transactions
                (snd (DataManager.add_transaction md5_hexdigest fmt_amount
                        (Examples.dm_of [Examples.dm_txn "a1" 300])
                        "2024-02-01T09:00:00"
                        (Examples.dm_data None (-5)))))).
Proof.
  split; [|split].
  - split.
    + simpl. repeat constructor.
    + simpl. intro H. inversion H as [|? ? _ H2]; subst.
      inversion H2 as [|? ? H3 _]; subst. simpl in H3. discriminate H3.
  - split.
    + simpl. repeat constructor.
    + simpl. intro H. inversion H as [|? ? H1 _]; subst.
      simpl in H1. discriminate H1.
  - intros md5 fmt. simpl. intro H. inversion H as [|? ? _ H2]; subst.
    inversion H2 as [|? ? H3 _]; subst. simpl in H3. discriminate H3.
Qed.

(* ================================================================== *)
(** * Rounding and clamping *)

Lemma rint_bounds (a b : Z) (x : Q) :
  inject_Z a <= x -> x <= inject_Z b -> (a <= rint x <= b)%Z.
Proof.
  intros Ha Hb.
  pose proof (Qfloor_le x) as Hfl.
  assert (Haf : (a <= Qfloor x)%Z).
  { rewrite <- (Qfloor_Z a). apply Qfloor_resp_le. exact Ha. }
  assert (Hfb : (Qfloor x <= b)%Z).
  { rewrite <- (Qfloor_Z b). apply Qfloor_resp_le. exact Hb. }
  assert (Hup : 1 # 2 <= x - inject_Z (Qfloor x) -> (Qfloor x + 1 <= b)%Z).
  { intro Hr.
    assert (Hlt : inject_Z (Qfloor x) < inject_Z b).
    { apply Qlt_le_trans with x; [|exact Hb].
      revert Hr. generalize (inject_Z (Qfloor x)). intros q Hr. lra. }
    rewrite <- Zlt_Qlt in Hlt. lia. }
  unfold rint.
  destruct (Qltb (x - inject_Z (Qfloor x)) (1 # 2)) eqn:E1.
  - lia.
  - apply Qltb_ge in E1. specialize (Hup E1).
    destruct (Qltb (1 # 2) (x - inject_Z (Qfloor x))); [lia|].
    destruct (Z.even (Qfloor x)); lia.
Qed.

Lemma py_round_1_bounds (x : Q) :
  0 <= x -> x <= 100 -> 0 <= py_round x 1 /\ py_round x 1 <= 100.
Proof.
  intros H0 H100. unfold py_round.
  change (inject_Z (10 ^ Z.of_nat 1)) with (10 # 1).
  destruct (rint_bounds 0 1000 (x * (10 # 1))) as [Hlo Hhi].
  - change (inject_Z 0) with 0. lra.
  - change (inject_Z 1000) with 1000. lra.
  - rewrite Zle_Qle in Hlo, Hhi.
    change (inject_Z 0) with 0 in Hlo. change (inject_Z 1000) with 1000 in Hhi.
    split.
    + apply Qle_shift_div_l; [reflexivity | lra].
    + apply Qle_shift_div_r; [reflexivity | lra].
Qed.

Lemma Qmin'_le_r (x y : Q) : Qmin' x y <= y.
Proof.
  unfold Qmin'. destruct (Qltb y x) eqn:E.
  - apply Qle_refl.
  - apply Qltb_ge in E. exact E.
Qed.

Lemma Qmin'_glb (x y z : Q) : z <= x -> z <= y -> z <= Qmin' x y.
Proof. intros Hx Hy. unfold Qmin'. destruct (Qltb y x); assumption. Qed.

Lemma Qmax'_ge_r (x y : Q) : y <= Qmax' x y.
Proof.
  unfold Qmax'. destruct (Qltb x y) eqn:E.
  - apply Qle_refl.
  - apply Qltb_ge in E. exact E.
Qed.

(* ================================================================== *)
(** * The financial health score *)

Lemma diversity_score_bounds (df : list AIEngine.Row) :
  0 <= AIEngine.calculate_diversity_score df
  /\ AIEngine.calculate_diversity_score df <= 100.
Proof.
  unfold AIEngine.calculate_diversity_score. split.
  - apply Qmin'_glb; [|discriminate].
    apply Qmult_le_0_compat; [|discriminate].
    change 0 with (inject_Z 0). rewrite <- Zle_Qle. lia.
  - apply Qmin'_le_r.
Qed.

(** The growth score is a number between 0 and 100, or NaN; it is NaN
    only when there are at least two income months and both the first and
    the last month's income are zero. *)
Lemma growth_score_bounds (tpm : string -> Z) (df : list AIEngine.Row) :
  match AIEngine.calculate_growth_score tpm df with
  | Fin g => 0 <= g /\ g <= 100
  | NaN =>
      (2 <= List.length (AIEngine.monthly_income_sums tpm df))%nat
      /\ iloc_first (AIEngine.monthly_income_sums tpm df) == 0
      /\ iloc_last (AIEngine.monthly_income_sums tpm df) == 0
  | PosInf | NegInf => False
  end.
Proof.
  unfold AIEngine.calculate_growth_score.
  destruct (_ <? 2)%nat eqn:El; [split; discriminate|].
  apply Nat.ltb_ge in El.
  set (first := iloc_first (AIEngine.monthly_income_sums tpm df)).
  set (latest := iloc_last (AIEngine.monthly_income_sums tpm df)).
  unfold np_div.
  destruct (Qeq_bool first 0) eqn:E0.
  - apply Qeq_bool_iff in E0.
    destruct (Qltb 0 (latest - first)) eqn:E1; [cbn; split; discriminate|].
    destruct (Qltb (latest - first) 0) eqn:E2; [cbn; split; discriminate|].
    cbn. apply Qltb_ge in E1. apply Qltb_ge in E2.
    split; [exact El|]. split; [exact E0 | lra].
  - cbn.
    destruct (Qltb ((latest - first) / first * 100 * 5 + 50) 0) eqn:E1.
    + assert (E2 : Qltb 100 0 = false) by reflexivity. rewrite E2.
      split; discriminate.
    + apply Qltb_ge in E1.
      destruct (Qltb 100 ((latest - first) / first * 100 * 5 + 50)) eqn:E2.
      * split; discriminate.
      * apply Qltb_ge in E2. split; assumption.
Qed.

Lemma stability_score_bounds (df : list AIEngine.Row) :
  0 <= AIEngine.stability_score_of df /\ AIEngine.stability_score_of df <= 100.
Proof.
  unfold AIEngine.stability_score_of.
  destruct (10 <? _)%nat; split; discriminate.
Qed.

(** When the expenses do not exceed a non-negative income, the savings
    score is in range, and so is the overall score, which is the rounded
    weighted sum of the four sub-scores; the overall score is NaN when
    the growth score is. *)
Lemma health_score_in_range_when_solvent (tpm : string -> Z)
  (txns : list AIEngine.Row) :
  0 <= AIEngine.total_income txns ->
  AIEngine.total_expenses txns <= AIEngine.total_income txns ->
  match AIEngine.score (AIEngine.calculate_financial_health_score tpm txns) with
  | Fin q => 0 <= q /\ q <= 100
  | NaN => AIEngine.calculate_growth_score tpm txns = NaN
  | PosInf | NegInf => False
  end.
Proof.
  intros Hti Hte. unfold AIEngine.calculate_financial_health_score.
  destruct txns as [|r l]; [split; discriminate|].
  set (df := r :: l) in *.
  destruct (Qeq_bool (AIEngine.total_income df) 0) eqn:E; [split; discriminate|].
  assert (Hpos : 0 < AIEngine.total_income df).
  { apply Qle_lteq in Hti. destruct Hti as [H | H]; [exact H|].
    symmetry in H. apply Qeq_bool_iff in H. congruence. }
  simpl.
  set (sr := (AIEngine.total_income df - AIEngine.total_expenses df)
             / AIEngine.total_income df * 100).
  assert (Hsr : 0 <= sr).
  { unfold sr. apply Qmult_le_0_compat; [|discriminate].
    apply Qle_shift_div_l; [exact Hpos | lra]. }
  assert (Hs : 0 <= AIEngine.savings_score_of sr
               /\ AIEngine.savings_score_of sr <= 100).
  { unfold AIEngine.savings_score_of. split.
    - apply Qmin'_glb; [lra | discriminate].
    - apply Qmin'_le_r. }
  pose proof (stability_score_bounds df) as Hst.
  pose proof (diversity_score_bounds df) as Hd.
  pose proof (growth_score_bounds tpm df) as Hg.
  unfold AIEngine.overall_score_of.
  destruct (AIEngine.calculate_growth_score tpm df) as [g| | |];
    cbn; try contradiction; [|reflexivity].
  apply py_round_1_bounds; lra.
Qed.

(** C1 (the code departs from the claim): with an income of 100 and
    expenses of 1000 the savings rate is -900, the savings score is
    [min(-1800, 100) = -1800], and the overall score is
    [0.4 * -1800 + 0.3 * 40 + 0.2 * 20 + 0.1 * 50 = -699], outside
    [0, 100]. *)
Theorem health_score_negative_when_overspent :
  forall to_period_M : string -> Z,
    let h := AIEngine.calculate_financial_health_score to_period_M
               Examples.overspent in
    exists q : Q,
      AIEngine.score h = Fin q
      /\ q == -699
      /\ ~ 0 <= q
      /\ exists (b : AIEngine.Breakdown) (g : Q),
          AIEngine.breakdown h = Some b
          /\ AIEngine.b_savings_rate b == -900
          /\ AIEngine.b_savings_score b == -1800
          /\ AIEngine.b_stability_score b == 40
          /\ AIEngine.b_diversity_score b == 20
          /\ AIEngine.b_growth_score b = Fin g
          /\ g == 50.
Proof.
  intro tpm. cbv zeta. eexists. split; [reflexivity|]. split; [|split].
  - vm_compute. reflexivity.
  - vm_compute. intro H. apply H. reflexivity.
  - eexists. eexists. split; [reflexivity|].
    repeat split; vm_compute; reflexivity.
Qed.

(** C10: a non-empty transaction list whose total income is zero gets the
    score [0] with no breakdown and no recommendation, whatever its
    expenses are. *)
Theorem health_score_zero_income :
  forall (to_period_M : string -> Z) (transactions : list AIEngine.Row),
    transactions <> [] ->
    AIEngine.total_income transactions == 0 ->
    AIEngine.calculate_financial_health_score to_period_M transactions
    = {| AIEngine.score := Fin 0; AIEngine.breakdown := None;
         AIEngine.recommendations := [] |}.
Proof.
  intros tpm txns Hne Hz. unfold AIEngine.calculate_financial_health_score.
  destruct txns as [|r l]; [congruence|].
  apply Qeq_bool_iff in Hz. rewrite Hz. reflexivity.
Qed.

Lemma health_score_zero_income_witness :
  AIEngine.calculate_financial_health_score iso_period_M Examples.expenses_only
  = {| AIEngine.score := Fin 0; AIEngine.breakdown := None;
       AIEngine.recommendations := [] |}.
Proof.
  apply (health_score_zero_income iso_period_M Examples.expenses_only).
  - discriminate.
  - reflexivity.
Defined.

(* ================================================================== *)
(** * Monthly buckets *)

Section MonthBuckets.
Context {R : Type}.
Variable key : R -> Z.

Lemma group_insert_keys (r : R) (g : list (Z * list R)) :
  Forall (fun grp => Forall (fun x => key x = fst grp) (snd grp)) g ->
  Forall (fun grp => Forall (fun x => key x = fst grp) (snd grp))
         (group_insert Z.compare key r g).
Proof.
  induction 1 as [|[k rows] g Hk Hg IH]; simpl.
  - repeat constructor.
  - destruct (Z.compare_spec (key r) k) as [E | E | E].
    + constructor; [|exact Hg]. simpl in *.
      apply Forall_app. split; [exact Hk | repeat constructor; exact E].
    + constructor; [repeat constructor|]. constructor; assumption.
    + constructor; assumption.
Qed.

Lemma group_insert_HdRel (r : R) (g : list (Z * list R)) (k : Z) :
  (k < key r)%Z ->
  HdRel Z.lt k (map fst g) ->
  HdRel Z.lt k (map fst (group_insert Z.compare key r g)).
Proof.
  intros Hk Hg. destruct g as [|[k' rows] g]; simpl.
  - constructor. exact Hk.
  - inversion Hg; subst. destruct (key r ?= k')%Z; simpl; constructor; assumption.
Qed.

Lemma group_insert_sorted (r : R) (g : list (Z * list R)) :
  Sorted Z.lt (map fst g) ->
  Sorted Z.lt (map fst (group_insert Z.compare key r g)).
Proof.
  induction g as [|[k rows] g IH]; simpl; intro Hs.
  - repeat constructor.
  - inversion Hs as [|? ? Hs' Hhd]; subst.
    destruct (Z.compare_spec (key r) k) as [E | E | E]; simpl.
    + constructor; assumption.
    + constructor; [exact Hs | constructor; exact E].
    + constructor; [apply IH; exact Hs'|].
      apply group_insert_HdRel; assumption.
Qed.

(** The buckets of a groupby on the month come in increasing month
    order, so the last one is the latest month. *)
Lemma groupby_sorted (df : list R) :
  Sorted Z.lt (map fst (groupby Z.compare key df)).
Proof.
  unfold groupby.
  assert (H : forall g, Sorted Z.lt (map fst g) ->
              Sorted Z.lt
                (map fst (fold_left (fun g r => group_insert Z.compare key r g)
                                    df g))).
  { induction df as [|r df IH]; intros g Hg; simpl; [exact Hg|].
    apply IH. apply group_insert_sorted. exact Hg. }
  apply H. constructor.
Qed.

(** Each bucket holds rows of its own month only. *)
Lemma groupby_keys (df : list R) :
  Forall (fun grp => Forall (fun x => key x = fst grp) (snd grp))
         (groupby Z.compare key df).
Proof.
  unfold groupby.
  assert (H : forall g,
              Forall (fun grp => Forall (fun x => key x = fst grp) (snd grp)) g ->
              Forall (fun grp => Forall (fun x => key x = fst grp) (snd grp))
                (fold_left (fun g r => group_insert Z.compare key r g) df g)).
  { induction df as [|r df IH]; intros g Hg; simpl; [exact Hg|].
    apply IH. apply group_insert_keys. exact Hg. }
  apply H. constructor.
Qed.
End MonthBuckets.

(* ================================================================== *)
(** * Trend and forecast *)

Lemma classify_cases (c : Q) :
  (AIEngine.classify c = "increasing" <-> 5 < c)
  /\ (AIEngine.classify c = "decreasing" <-> c < -5)
  /\ (AIEngine.classify c = "stable" <-> -5 <= c /\ c <= 5).
Proof.
  unfold AIEngine.classify.
  destruct (Qltb 5 c) eqn:E1.
  - apply Qltb_lt in E1. repeat split; intros; try discriminate; try lra.
  - apply Qltb_ge in E1. destruct (Qltb c (-5)) eqn:E2.
    + apply Qltb_lt in E2. repeat split; intros; try discriminate; try lra.
    + apply Qltb_ge in E2. repeat split; intros; try discriminate; try lra.
Qed.

(** C5: with fewer than two monthly expense buckets the trend is stable
    with change 0; with at least two, the change is
    [(current - previous) / previous * 100] for a non-zero previous month
    and [0] otherwise, where current and previous are the last two
    buckets; the trend is increasing iff the change is above 5, decreasing
    iff it is below -5 and stable otherwise; the reported change is the
    change rounded to one decimal. *)
Theorem monthly_trend_classification :
  forall (to_period_M : string -> Z) (df : list AIEngine.Row),
    let monthly_data := AIEngine.monthly_expense_sums to_period_M df in
    let r := AIEngine.calculate_monthly_trend to_period_M df in
    ((List.length monthly_data < 2)%nat ->
     AIEngine.trend r = "stable" /\ AIEngine.change_percent r = 0)
    /\ ((2 <= List.length monthly_data)%nat ->
        let current := iloc_last monthly_data in
        let previous := iloc_prev monthly_data in
        exists change : Q,
          (~ previous == 0 -> change = (current - previous) / previous * 100)
          /\ (previous == 0 -> change = 0)
          /\ AIEngine.change_percent r = py_round change 1
          /\ (AIEngine.trend r = "increasing" <-> 5 < change)
          /\ (AIEngine.trend r = "decreasing" <-> change < -5)
          /\ (AIEngine.trend r = "stable" <-> -5 <= change /\ change <= 5)).
Proof.
  intros tpm df monthly_data r. subst r.
  unfold AIEngine.calculate_monthly_trend. fold monthly_data. split.
  - intro Hlt. apply Nat.ltb_lt in Hlt. rewrite Hlt. simpl. auto.
  - intros Hge. cbv zeta.
    assert (E : (List.length monthly_data <? 2)%nat = false)
      by (apply Nat.ltb_ge; exact Hge).
    rewrite E. simpl.
    set (current := iloc_last monthly_data).
    set (previous := iloc_prev monthly_data).
    exists (AIEngine.change_of current previous).
    split; [|split; [|split; [reflexivity | apply classify_cases]]].
    + intro Hne. unfold AIEngine.change_of.
      destruct (Qeq_bool previous 0) eqn:Ez; [|reflexivity].
      apply Qeq_bool_iff in Ez. contradiction.
    + intro Hz. unfold AIEngine.change_of.
      apply Qeq_bool_iff in Hz. rewrite Hz. reflexivity.
Qed.

Lemma monthly_trend_classification_witness :
  AIEngine.trend (AIEngine.calculate_monthly_trend iso_period_M Examples.two_months)
  = "increasing"
  /\ AIEngine.trend (AIEngine.calculate_monthly_trend iso_period_M Examples.one_month)
     = "stable".
Proof.
  destruct (monthly_trend_classification iso_period_M Examples.two_months)
    as [_ H2].
  destruct (monthly_trend_classification iso_period_M Examples.one_month)
    as [H1 _].
  split.
  - assert (Hlen : (2 <= List.length
                          (AIEngine.monthly_expense_sums iso_period_M
                             Examples.two_months))%nat)
      by (vm_compute; apply le_n).
    destruct (H2 Hlen) as (change & Hne & _ & _ & Hinc & _).
    apply Hinc. rewrite Hne.
    + vm_compute. reflexivity.
    + vm_compute. intro H. discriminate H.
  - apply H1. vm_compute. apply le_n.
Defined.

Lemma filter_length_lt_of_length {A : Type} (f : A -> bool) (l : list A) (n : nat) :
  (List.length l < n)%nat -> (List.length (filter f l) < n)%nat.
Proof. intro H. pose proof (filter_length_le f l). lia. Qed.

(** C3 (as amended): the regression forecast [predict_future_balance] is
    the empty dict when the transactions fall into fewer than two monthly
    buckets (and also when there are fewer than three transactions); the
    moving-average forecast [forecast_spending] is the empty list when
    there are fewer than three Expense data points, in particular when
    there are fewer than three transactions at all.  Its guard counts
    Expense rows, not months: with three or more Expense rows it returns
    one entry per requested month, whatever the number of monthly
    buckets. *)
Theorem forecast_empty_on_insufficient_data :
  forall (to_period_M : string -> Z) (np_sqrt : Q -> Q)
         (strftime_after : Z -> string)
         (fm : FinanceCore.FinanceManager) (df : list AIEngine.Row)
         (months : nat),
    ((List.length (groupby Z.compare (FinanceCore.month_of to_period_M)
                           (FinanceCore.transactions fm)) < 2)%nat ->
     FinanceCore.predict_future_balance to_period_M np_sqrt fm months = Ok None)
    /\ ((List.length (FinanceCore.transactions fm) < 3)%nat ->
        FinanceCore.predict_future_balance to_period_M np_sqrt fm months = Ok None)
    /\ ((List.length (filter AIEngine.is_expense df) < 3)%nat ->
        AIEngine.forecast_spending to_period_M strftime_after df months = [])
    /\ ((List.length df < 3)%nat ->
        AIEngine.forecast_spending to_period_M strftime_after df months = [])
    /\ ((3 <= List.length (filter AIEngine.is_expense df))%nat ->
        List.length
          (AIEngine.forecast_spending to_period_M strftime_after df months)
        = months).
Proof.
  intros tpm np_sqrt strftime_after fm df months.
  assert (Hfs : (List.length (filter AIEngine.is_expense df) < 3)%nat ->
                AIEngine.forecast_spending tpm strftime_after df months = []).
  { intro H. unfold AIEngine.forecast_spending.
    apply Nat.ltb_lt in H. rewrite H. reflexivity. }
  split; [|split; [|split; [|split]]].
  - intro H. unfold FinanceCore.predict_future_balance.
    destruct (List.length (FinanceCore.transactions fm) <? 3)%nat; [reflexivity|].
    unfold FinanceCore.monthly_balance. rewrite length_map.
    apply Nat.ltb_lt in H. rewrite H. reflexivity.
  - intro H. unfold FinanceCore.predict_future_balance.
    apply Nat.ltb_lt in H. rewrite H. reflexivity.
  - exact Hfs.
  - intro H. apply Hfs. apply filter_length_lt_of_length. exact H.
  - intro H. unfold AIEngine.forecast_spending.
    apply Nat.ltb_ge in H. rewrite H.
    rewrite length_map, length_seq. reflexivity.
Qed.

Lemma forecast_empty_on_insufficient_data_witness :
  FinanceCore.predict_future_balance iso_period_M Examples.sqrt_newton
    (Examples.fm_of [Examples.fc_salary; Examples.fc_food; Examples.fc_bills]) 6
  = Ok None
  /\ FinanceCore.predict_future_balance iso_period_M Examples.sqrt_newton
       (Examples.fm_of [Examples.fc_salary; Examples.fc_food]) 6
     = Ok None
  /\ AIEngine.forecast_spending iso_period_M (fun _ => "2024-03")
       (Examples.overspent ++ [Examples.spend 5]) 3 = []
  /\ AIEngine.forecast_spending iso_period_M (fun _ => "2024-03")
       Examples.expenses_only 3 = [].
Proof.
  pose proof (forecast_empty_on_insufficient_data iso_period_M
                Examples.sqrt_newton (fun _ => "2024-03")) as H.
  split; [|split; [|split]].
  - destruct (H (Examples.fm_of [Examples.fc_salary; Examples.fc_food;
                                 Examples.fc_bills])
                Examples.expenses_only 6%nat) as (Hbuckets & _).
    apply Hbuckets. vm_compute. apply le_n.
  - destruct (H (Examples.fm_of [Examples.fc_salary; Examples.fc_food])
                Examples.expenses_only 6%nat) as (_ & Hcount & _).
    apply Hcount. vm_compute. apply le_n.
  - destruct (H (Examples.fm_of [Examples.fc_salary])
                (Examples.overspent ++ [Examples.spend 5]) 3%nat)
      as (_ & _ & Hpoints & _).
    apply Hpoints. vm_compute. apply le_n.
  - destruct (H (Examples.fm_of [Examples.fc_salary])
                Examples.expenses_only 3%nat) as (_ & _ & _ & Hrows & _).
    apply Hrows. vm_compute. apply le_n.
Defined.

(** C3 (counterexample to the claim as stated): three expenses inside
    one month fall into a single monthly bucket, fewer than two, yet
    [forecast_spending] returns numeric predictions, 600, 612 and 624,
    from that one bucket. *)
Lemma forecast_spending_one_bucket_counterexample :
  (List.length (groupby Z.compare (AIEngine.month iso_period_M)
                        Examples.one_month) < 2)%nat
  /\ (List.length (AIEngine.monthly_expense_sums iso_period_M Examples.one_month)
      < 2)%nat
  /\ AIEngine.forecast_spending iso_period_M (fun _ => "2024-02")
       Examples.one_month 3 <> []
  /\ map (fun e => Qred (AIEngine.predicted_amount e))
         (AIEngine.forecast_spending iso_period_M (fun _ => "2024-02")
            Examples.one_month 3)
     = [600; 612; 624].
Proof.
  split; [|split; [|split]].
  - vm_compute. apply le_n.
  - vm_compute. apply le_n.
  - vm_compute. discriminate.
  - vm_compute. reflexivity.
Qed.

(* ================================================================== *)
(** * Anomaly detection *)

Lemma sum_sq_dev_nonneg (l : list Q) : 0 <= AIEngine.sum_sq_dev l.
Proof.
  unfold AIEngine.sum_sq_dev. apply Qsum_nonneg. apply Forall_forall.
  intros y Hy. apply in_map_iff in Hy. destruct Hy as (x & <- & _).
  generalize (x - AIEngine.series_mean l). intro d. nra.
Qed.

Lemma series_var_nonneg (l : list Q) (v : Q) :
  AIEngine.series_var l = Some v -> 0 <= v.
Proof.
  unfold AIEngine.series_var. destruct l as [|a [|b l]]; try discriminate.
  intro H. inversion H; subst. clear H.
  apply Qle_shift_div_l.
  - change 0 with (inject_Z 0). rewrite <- Zlt_Qlt. simpl List.length. lia.
  - rewrite Qmult_0_l. apply sum_sq_dev_nonneg.
Qed.

Lemma Q2R_4 : Q2R 4 = 4%R.
Proof. unfold Q2R. simpl. rewrite Rinv_1. ring. Qed.

Lemma z_score_exceeds_2_iff_real (x m v : Q) :
  0 < v ->
  AIEngine.z_score_exceeds_2 x m v = true
  <-> (2 < Rabs ((Q2R x - Q2R m) / sqrt (Q2R v)))%R.
Proof.
  intro Hv. unfold AIEngine.z_score_exceeds_2. rewrite Qltb_lt.
  assert (HV : (0 < Q2R v)%R).
  { replace 0%R with (Q2R 0) by (unfold Q2R; simpl; ring). apply Qlt_Rlt. exact Hv. }
  pose proof (sqrt_lt_R0 _ HV) as Hs.
  pose proof (sqrt_sqrt (Q2R v) (Rlt_le _ _ HV)) as Hss.
  set (s := sqrt (Q2R v)) in *.
  set (d := (Q2R x - Q2R m)%R).
  assert (Habs : Rabs (d / s) = (Rabs d / s)%R).
  { unfold Rdiv. rewrite Rabs_mult. rewrite (Rabs_pos_eq (/ s)); [reflexivity|].
    apply Rlt_le. apply Rinv_0_lt_compat. exact Hs. }
  rewrite Habs.
  assert (Hq : (Rabs d / s * s = Rabs d)%R) by (field; Lra.lra).
  pose proof (Rabs_pos d) as Ha.
  assert (Ha2 : (Rabs d * Rabs d = d * d)%R).
  { unfold Rabs. destruct (Rcase_abs d); Lra.lra. }
  assert (Hiff : (4 * Q2R v < d * d)%R <-> (2 < Rabs d / s)%R).
  { set (q := (Rabs d / s)%R) in *. split; intro H.
    - apply Rnot_le_lt. intro Hle.
      assert (H1 : (Rabs d <= 2 * s)%R).
      { rewrite <- Hq. apply Rmult_le_compat_r; Lra.lra. }
      assert (H2 : (Rabs d * Rabs d <= (2 * s) * (2 * s))%R).
      { apply Rmult_le_compat; Lra.lra. }
      Lra.lra.
    - assert (H1 : (2 * s < Rabs d)%R).
      { rewrite <- Hq. apply Rmult_lt_compat_r; Lra.lra. }
      assert (H2 : ((2 * s) * (2 * s) < Rabs d * Rabs d)%R).
      { apply Rmult_le_0_lt_compat; Lra.lra. }
      Lra.lra. }
  rewrite <- Hiff. unfold d. split; intro H.
  - apply Qlt_Rlt in H. rewrite !Q2R_mult, Q2R_minus, Q2R_4 in H. exact H.
  - apply Rlt_Qlt. rewrite !Q2R_mult, Q2R_minus, Q2R_4. exact H.
Qed.

Lemma Qsum_const (c : Q) (l : list Q) :
  Forall (fun x => x == c) l ->
  Qsum l == inject_Z (Z.of_nat (List.length l)) * c.
Proof.
  induction 1 as [|x l Hx _ IH].
  - simpl. ring.
  - change (x == c) in Hx. simpl Qsum. simpl List.length. rewrite IH, Hx.
    rewrite Nat2Z.inj_succ. unfold Z.succ. rewrite inject_Z_plus. ring.
Qed.

Lemma Qsum_zero (l : list Q) : Forall (fun x => x == 0) l -> Qsum l == 0.
Proof.
  intro H. rewrite (Qsum_const 0 l H). ring.
Qed.

Lemma series_mean_const (c : Q) (l : list Q) :
  l <> [] -> Forall (fun x => x == c) l -> AIEngine.series_mean l == c.
Proof.
  intros Hne H. unfold AIEngine.series_mean, Qmean.
  rewrite (Qsum_const c l H). field.
  change 0 with (inject_Z 0). rewrite inject_Z_injective.
  destruct l; [congruence | simpl; lia].
Qed.

Lemma sum_sq_dev_const (c : Q) (l : list Q) :
  l <> [] -> Forall (fun x => x == c) l -> AIEngine.sum_sq_dev l == 0.
Proof.
  intros Hne H. unfold AIEngine.sum_sq_dev. apply Qsum_zero.
  pose proof (series_mean_const c l Hne H) as Hm.
  rewrite Forall_forall in *. intros y Hy.
  apply in_map_iff in Hy. destruct Hy as (x & <- & Hx).
  pose proof (H x Hx) as Hxc. cbv beta in Hxc. rewrite Hxc, Hm. ring.
Qed.

Lemma detect_anomalies_flagged (np_sqrt : Q -> Q)
  (strftime_ymd : string -> string) (df : list AIEngine.Row) (var : Q) :
  AIEngine.series_var (map AIEngine.amount (filter AIEngine.is_expense df))
  = Some var ->
  Qeq_bool var 0 = false ->
  AIEngine.detect_anomalies np_sqrt strftime_ymd df
  = map (AIEngine.anomaly_of np_sqrt strftime_ymd
           (AIEngine.series_mean
              (map AIEngine.amount (filter AIEngine.is_expense df))) var)
        (filter (fun row =>
                   AIEngine.z_score_exceeds_2 (AIEngine.amount row)
                     (AIEngine.series_mean
                        (map AIEngine.amount (filter AIEngine.is_expense df)))
                     var)
                (filter AIEngine.is_expense df)).
Proof.
  unfold AIEngine.detect_anomalies.
  destruct (filter AIEngine.is_expense df) as [|r l].
  - discriminate.
  - intros H1 H2. rewrite H1, H2. reflexivity.
Qed.

(** C4 (as amended): [detect_anomalies] works with the mean and the
    sample standard deviation of the Expense amounts: the mean is their
    sum over their number [n], and the variance is the sum of the squared
    deviations from the mean over [n - 1] (the default of [Series.std]).
    With at least two expenses and a non-zero deviation it returns, in
    row order, one record for exactly the Expense rows whose absolute
    z-score exceeds 2, holding the row's date as parsed and rendered
    again, its amount and description, the z-score rounded to two
    decimals, and the tag high or low relative to the mean.  With a
    single expense (the deviation is NaN), with none, or with a zero
    deviation, in particular for a constant-amount series, it returns
    nothing. *)
Theorem detect_anomalies_sample_z_score :
  forall (np_sqrt : Q -> Q) (strftime_ymd : string -> string)
         (df : list AIEngine.Row),
    let expense_df := filter AIEngine.is_expense df in
    let amounts := map AIEngine.amount expense_df in
    let n := List.length amounts in
    let mean_amount := Qsum amounts / inject_Z (Z.of_nat n) in
    let var :=
      Qsum (map (fun x => (x - mean_amount) * (x - mean_amount)) amounts)
      / inject_Z (Z.of_nat (n - 1)) in
    let flagged :=
      filter (fun row => Qltb (4 * var)
                              ((AIEngine.amount row - mean_amount)
                               * (AIEngine.amount row - mean_amount)))
             expense_df in
    ((2 <= n)%nat ->
     ~ var == 0 ->
     AIEngine.detect_anomalies np_sqrt strftime_ymd df
     = map (fun row =>
              {| AIEngine.a_date := strftime_ymd (AIEngine.date row);
                 AIEngine.a_amount := AIEngine.amount row;
                 AIEngine.a_description := AIEngine.description row;
                 AIEngine.a_z_score :=
                   py_round (Qabs ((AIEngine.amount row - mean_amount)
                                   / np_sqrt var)) 2;
                 AIEngine.a_type :=
                   if Qltb mean_amount (AIEngine.amount row)
                   then "high_spending" else "low_spending" |})
           flagged
     /\ (forall row : AIEngine.Row,
            In row flagged
            <-> In row df
                /\ AIEngine.category row = "Expense"
                /\ (2 < Rabs ((Q2R (AIEngine.amount row) - Q2R mean_amount)
                              / sqrt (Q2R var)))%R))
    /\ ((n <= 1)%nat ->
        AIEngine.detect_anomalies np_sqrt strftime_ymd df = [])
    /\ ((2 <= n)%nat -> var == 0 ->
        AIEngine.detect_anomalies np_sqrt strftime_ymd df = [])
    /\ (forall c : Q,
           (forall row, In row expense_df -> AIEngine.amount row == c) ->
           AIEngine.detect_anomalies np_sqrt strftime_ymd df = []).
Proof.
  intros np_sqrt strftime_ymd df expense_df amounts n mean_amount var flagged.
  assert (Hsome : (2 <= n)%nat -> AIEngine.series_var amounts = Some var).
  { unfold var, mean_amount, n. generalize amounts. intros l Hn.
    destruct l as [|a [|b l]]; cbn [List.length] in Hn; [lia | lia |].
    reflexivity. }
  assert (Hone : (n <= 1)%nat -> AIEngine.series_var amounts = None).
  { unfold n. generalize amounts. intros l Hn.
    destruct l as [|a [|b l]]; cbn [List.length] in Hn; [reflexivity.. | lia]. }
  assert (Hnone : AIEngine.series_var amounts = None ->
                  AIEngine.detect_anomalies np_sqrt strftime_ymd df = []).
  { intro H. unfold AIEngine.detect_anomalies. fold expense_df. fold amounts.
    rewrite H. destruct expense_df; reflexivity. }
  assert (Hzero : forall v, AIEngine.series_var amounts = Some v -> v == 0 ->
                  AIEngine.detect_anomalies np_sqrt strftime_ymd df = []).
  { intros v H Hz. unfold AIEngine.detect_anomalies. fold expense_df. fold amounts.
    rewrite H. apply Qeq_bool_iff in Hz. rewrite Hz.
    destruct expense_df; reflexivity. }
  split; [|split; [|split]].
  - intros Hn Hnz. split.
    + rewrite (detect_anomalies_flagged np_sqrt strftime_ymd df var (Hsome Hn)).
      * reflexivity.
      * destruct (Qeq_bool var 0) eqn:E; [|reflexivity].
        apply Qeq_bool_iff in E. contradiction.
    + assert (Hpos : 0 < var).
      { pose proof (series_var_nonneg _ _ (Hsome Hn)) as Hge.
        apply Qle_lteq in Hge. destruct Hge as [Hlt | Heq]; [exact Hlt|].
        symmetry in Heq. contradiction. }
      intro row. unfold flagged. rewrite filter_In.
      unfold expense_df. rewrite filter_In.
      change (Qltb (4 * var)
                   ((AIEngine.amount row - mean_amount)
                    * (AIEngine.amount row - mean_amount)))
        with (AIEngine.z_score_exceeds_2 (AIEngine.amount row) mean_amount var).
      rewrite (z_score_exceeds_2_iff_real _ _ _ Hpos).
      unfold AIEngine.is_expense. rewrite String.eqb_eq. tauto.
  - intro Hn. apply Hnone. apply Hone. exact Hn.
  - intros Hn Hz. exact (Hzero var (Hsome Hn) Hz).
  - intros c Hc.
    destruct (AIEngine.series_var amounts) as [v|] eqn:Hvar;
      [|apply Hnone; reflexivity].
    apply (Hzero v eq_refl).
    unfold AIEngine.series_var in Hvar.
    destruct amounts as [|a [|b l]] eqn:Ea; try discriminate.
    inversion Hvar; subst v. clear Hvar.
    rewrite (sum_sq_dev_const c); [|discriminate|].
    * field. change 0 with (inject_Z 0). rewrite inject_Z_injective.
      simpl List.length. lia.
    * rewrite <- Ea. unfold amounts. rewrite Forall_forall.
      intros y Hy. apply in_map_iff in Hy. destruct Hy as (row & <- & Hrow).
      apply Hc. exact Hrow.
Qed.

Lemma detect_anomalies_sample_z_score_witness :
  AIEngine.detect_anomalies Examples.sqrt_newton (fun d => d)
    Examples.six_with_outlier
  = [ {| AIEngine.a_date := "2024-01-16"; AIEngine.a_amount := 13;
         AIEngine.a_description := "Grocery Shopping";
         AIEngine.a_z_score :=
           py_round (Qabs ((13 - Qsum [1; 1; 1; 1; 1; 13] / 6)
                           / Examples.sqrt_newton
                               (Qsum (map (fun x =>
                                             (x - Qsum [1; 1; 1; 1; 1; 13] / 6)
                                             * (x - Qsum [1; 1; 1; 1; 1; 13] / 6))
                                          [1; 1; 1; 1; 1; 13]) / 5))) 2;
         AIEngine.a_type := "high_spending" |} ]
  /\ AIEngine.detect_anomalies Examples.sqrt_newton (fun d => d)
       Examples.constant_expenses = []
  /\ AIEngine.detect_anomalies Examples.sqrt_newton (fun d => d)
       [Examples.spend 5] = [].
Proof.
  split; [|split].
  - destruct (detect_anomalies_sample_z_score Examples.sqrt_newton (fun d => d)
                Examples.six_with_outlier) as (Hflag & _).
    destruct Hflag as (Heq & _).
    + vm_compute. lia.
    + vm_compute. intro H. discriminate H.
    + rewrite Heq. reflexivity.
  - destruct (detect_anomalies_sample_z_score Examples.sqrt_newton (fun d => d)
                Examples.constant_expenses) as (_ & _ & _ & Hconst).
    apply (Hconst 5).
    intros row Hrow. simpl in Hrow.
    destruct Hrow as [<- | [<- | [<- | []]]]; reflexivity.
  - destruct (detect_anomalies_sample_z_score Examples.sqrt_newton (fun d => d)
                [Examples.spend 5]) as (_ & Hnan & _).
    apply Hnan. vm_compute. lia.
Defined.

(** C4 (counterexample to the claim as stated): for the expenses
    1, 1, 1, 1, 4, 10 the mean is 3 and the population variance is 11, so
    the population z-score of the 10 is [7 / sqrt 11 > 2]; the sample
    variance is 66/5, and [detect_anomalies] reports nothing. *)
Lemma population_z_score_counterexample :
  (forall (np_sqrt : Q -> Q) (strftime_ymd : string -> string),
      AIEngine.detect_anomalies np_sqrt strftime_ymd Examples.six_expenses = [])
  /\ population_flagged Examples.six_expenses = [Examples.spend 10]
  /\ AIEngine.series_mean (map AIEngine.amount Examples.six_expenses) == 3
  /\ population_var (map AIEngine.amount Examples.six_expenses) == 11
  /\ (2 < Rabs ((Q2R 10 - Q2R 3) / sqrt (Q2R 11)))%R.
Proof.
  split; [|split; [|split; [|split]]].
  - intros np_sqrt strftime_ymd. vm_compute. reflexivity.
  - vm_compute. reflexivity.
  - vm_compute. reflexivity.
  - vm_compute. reflexivity.
  - apply (z_score_exceeds_2_iff_real 10 3 11); reflexivity.
Qed.

(* ================================================================== *)
(** * Synthesized identifiers *)

Lemma to_int_not_nil (z : Z) :
  Z.to_int z <> Decimal.Pos Decimal.Nil /\ Z.to_int z <> Decimal.Neg Decimal.Nil.
Proof.
  destruct z; simpl; split; try discriminate; intro H; inversion H as [H'];
    apply (DecimalPos.Unsigned.to_uint_nonnil p H').
Qed.

Lemma str_of_int_inj (z z' : Z) : str_of_int z = str_of_int z' -> z = z'.
Proof.
  unfold str_of_int. intro H.
  apply (f_equal NilZero.int_of_string) in H.
  destruct (to_int_not_nil z) as [H1 H2]. destruct (to_int_not_nil z') as [H3 H4].
  rewrite !NilZero.isi in H by assumption.
  inversion H as [H']. apply DecimalZ.to_int_inj. exact H'.
Qed.

Lemma append_inj_l (s a b : string) : (s ++ a = s ++ b)%string -> a = b.
Proof.
  induction s as [|c s IH]; simpl; intro H.
  - exact H.
  - inversion H. apply IH. assumption.
Qed.

(** The identifier synthesized by [Transaction.__post_init__] exposes the
    hash of the description: two processes give the same identifier to
    the same date, amount and description exactly when their [hash]
    functions agree on the description. *)
Lemma synth_id_eq_iff_hash_eq (h1 h2 : string -> Z) (fmt_float : Q -> string)
  (d : string) (a : Q) (descr : string) :
  FinanceCore.synth_id h1 fmt_float d a descr
  = FinanceCore.synth_id h2 fmt_float d a descr
  <-> h1 descr = h2 descr.
Proof.
  unfold FinanceCore.synth_id. split; intro H.
  - apply append_inj_l in H. apply append_inj_l in H.
    apply append_inj_l in H. apply append_inj_l in H.
    apply str_of_int_inj. exact H.
  - rewrite H. reflexivity.
Qed.

(** The identifier generated by the data manager depends on the date, the
    amount and the description of the record only: not on its other
    fields, not on the clock, not on the stored transactions. *)
Lemma generated_id_deterministic (md5_hexdigest : string -> string)
  (fmt_amount : Q -> string)
  (self1 self2 : DataManager.QuantumDataManager) (clock1 clock2 : string)
  (d1 d2 : DataManager.TransactionData) :
  DataManager.d_id d1 = None ->
  DataManager.d_id d2 = None ->
  DataManager.d_date d1 = DataManager.d_date d2 ->
  DataManager.d_amount d1 = DataManager.d_amount d2 ->
  DataManager.d_description d1 = DataManager.d_description d2 ->
  fst (DataManager.add_transaction md5_hexdigest fmt_amount self1 clock1 d1)
  = fst (DataManager.add_transaction md5_hexdigest fmt_amount self2 clock2 d2).
Proof.
  intros H1 H2 Hd Ha Hs. unfold DataManager.add_transaction. simpl.
  rewrite H1, H2, Hd, Ha, Hs. reflexivity.
Qed.

(** C8 (the code departs from the claim): the same date, amount and
    description, constructed without an id in a process started with
    [PYTHONHASHSEED=1] and in one started with [PYTHONHASHSEED=2], get the
    identifiers [2024-01-16_<amount>_-5642842696461201780] and
    [2024-01-16_<amount>_3694249153503583726]. *)
Theorem synth_id_differs_across_hash_seeds :
  forall fmt_float : Q -> string,
    let t1 := FinanceCore.new_Transaction (CPython.str_hash 1) fmt_float
                "2024-01-16" 300 "Expense" "Food" "Lunch" None in
    let t2 := FinanceCore.new_Transaction (CPython.str_hash 2) fmt_float
                "2024-01-16" 300 "Expense" "Food" "Lunch" None in
    FinanceCore.id t1
    = ("2024-01-16_" ++ fmt_float 300 ++ "_-5642842696461201780")%string
    /\ FinanceCore.id t2
       = ("2024-01-16_" ++ fmt_float 300 ++ "_3694249153503583726")%string
    /\ FinanceCore.id t1 <> FinanceCore.id t2.
Proof.
  intro fmt.
  assert (E1 : str_of_int (CPython.str_hash 1 "Lunch") = "-5642842696461201780")
    by (vm_compute; reflexivity).
  assert (E2 : str_of_int (CPython.str_hash 2 "Lunch") = "3694249153503583726")
    by (vm_compute; reflexivity).
  cbv zeta. unfold FinanceCore.new_Transaction, FinanceCore.id.
  split; [|split].
  - unfold FinanceCore.synth_id. rewrite E1. reflexivity.
  - unfold FinanceCore.synth_id. rewrite E2. reflexivity.
  - intro H. apply synth_id_eq_iff_hash_eq in H.
    apply (f_equal str_of_int) in H. rewrite E1, E2 in H. discriminate H.
Qed.

(* ================================================================== *)
(** * The amount validator *)

(** [get_amount] only accepts a line whose parsed value is not [<= 0]: a
    positive number, [inf] or [nan]; what it returns is that value
    rounded to two decimals. *)

Lemma pf_le0_false (a : PyFloat) :
  pf_le0 a = false
  <-> match a with
      | Fin q => 0 < q
      | PosInf | NaN => True
      | NegInf => False
      end.
Proof.
  destruct a as [q| | |]; simpl; try tauto.
  - split; intro H.
    + apply Qnot_le_lt. intro Hle. apply Qle_bool_iff in Hle. congruence.
    + destruct (Qle_bool q 0) eqn:E; [|reflexivity].
      apply Qle_bool_iff in E. lra.
  - split; [discriminate | tauto].
Qed.

Lemma get_amount_result_origin (parse_amount : string -> option PyFloat)
  (lines : list string) (r : PyFloat) :
  DataEntry.get_amount parse_amount lines = Some r ->
  exists (line : string) (a : PyFloat),
    In line lines /\ parse_amount line = Some a /\ r = pf_round a 2
    /\ match a with
       | Fin q => 0 < q
       | PosInf | NaN => True
       | NegInf => False
       end.
Proof.
  induction lines as [|l lines IH]; simpl; [discriminate|].
  destruct (parse_amount l) as [a|] eqn:Ep.
  - destruct (pf_le0 a) eqn:Ele.
    + intro H. destruct (IH H) as (line & a' & Hin & Hrest).
      exists line, a'. split; [right; exact Hin | exact Hrest].
    + intro H. inversion H; subst. exists l, a.
      split; [left; reflexivity|]. split; [exact Ep|]. split; [reflexivity|].
      apply pf_le0_false. exact Ele.
  - intro H. destruct (IH H) as (line & a' & Hin & Hrest).
    exists line, a'. split; [right; exact Hin | exact Hrest].
Qed.

(** The rounding happens after the positivity check: a positive input
    below half a cent is accepted and returned as zero. *)
Remark get_amount_rounds_after_check :
  exists r : Q,
    DataEntry.get_amount
      (fun s => if String.eqb s "0.004" then Some (Fin (4 # 1000)) else None)
      ["abc"; "-3"; "0.004"] = Some (Fin r)
    /\ r == 0.
Proof.
  eexists. split; [reflexivity|]. vm_compute. reflexivity.
Qed.

(** The check [amount <= 0] is false for NaN and for infinity: the lines
    ["nan"] and ["inf"] are accepted and returned as they are. *)
Remark get_amount_accepts_nan_and_inf :
  forall (parse_amount : string -> option PyFloat) (rest : list string),
    (parse_amount "nan" = Some NaN ->
     DataEntry.get_amount parse_amount ("nan" :: rest) = Some NaN)
    /\ (parse_amount "inf" = Some PosInf ->
        DataEntry.get_amount parse_amount ("inf" :: rest) = Some PosInf).
Proof.
  intros parse rest. split; intro H; simpl; rewrite H; reflexivity.
Qed.

(* ================================================================== *)
(** * Sorting into descending order *)

Section SortDescendingFacts.
Context {T : Type}.
Variable before : T -> T -> bool.

Lemma insert_desc_perm (x : T) (l : list T) :
  Permutation (x :: l) (insert_desc before x l).
Proof.
  induction l as [|y l IH]; simpl.
  - apply Permutation_refl.
  - destruct (before y x).
    + apply Permutation_refl.
    + apply perm_trans with (y :: x :: l); [apply perm_swap|].
      apply perm_skip. exact IH.
Qed.

Lemma fold_insert_desc_perm (l acc : list T) :
  Permutation (l ++ acc) (fold_left (fun acc x => insert_desc before x acc) l acc).
Proof.
  revert acc. induction l as [|x l IH]; intro acc; simpl.
  - apply Permutation_refl.
  - apply perm_trans with (l ++ insert_desc before x acc); [|apply IH].
    apply perm_trans with (l ++ x :: acc).
    + apply Permutation_middle.
    + apply Permutation_app_head. apply insert_desc_perm.
Qed.

Lemma sorted_desc_perm (l : list T) : Permutation l (sorted_desc before l).
Proof.
  unfold sorted_desc. rewrite <- (app_nil_r l) at 1.
  apply fold_insert_desc_perm.
Qed.

Hypothesis before_asym : forall a b, before a b = true -> before b a = false.
Hypothesis before_negtrans :
  forall a b c, before a b = false -> before b c = false -> before a c = false.

Lemma insert_desc_sorted (x : T) (l : list T) :
  StronglySorted (fun a b => before a b = false) l ->
  StronglySorted (fun a b => before a b = false) (insert_desc before x l).
Proof.
  induction 1 as [|y l Hs IH Hy]; simpl.
  - constructor; constructor.
  - destruct (before y x) eqn:E.
    + constructor; [constructor; assumption|].
      constructor; [apply before_asym; exact E|].
      rewrite Forall_forall in *. intros z Hz.
      apply before_negtrans with y; [apply before_asym; exact E | apply Hy; exact Hz].
    + constructor; [exact IH|].
      rewrite Forall_forall in *. intros z Hz.
      apply (Permutation_in z (Permutation_sym (insert_desc_perm x l))) in Hz.
      destruct Hz as [<- | Hz]; [exact E | apply Hy; exact Hz].
Qed.

Lemma sorted_desc_sorted (l : list T) :
  StronglySorted (fun a b => before a b = false) (sorted_desc before l).
Proof.
  unfold sorted_desc.
  assert (H : forall acc,
             StronglySorted (fun a b => before a b = false) acc ->
             StronglySorted (fun a b => before a b = false)
               (fold_left (fun acc x => insert_desc before x acc) l acc)).
  { induction l as [|x l IH]; intros acc Hacc; simpl; [exact Hacc|].
    apply IH. apply insert_desc_sorted. exact Hacc. }
  apply H. constructor.
Qed.
End SortDescendingFacts.

Lemma string_compare_lt_trans (a b c : string) :
  String.compare a b = Lt -> String.compare b c = Lt -> String.compare a c = Lt.
Proof.
  revert b c. induction a as [|x a IH]; intros [|y b] [|z c]; simpl;
    try discriminate; try reflexivity.
  unfold Ascii.compare.
  destruct (N.compare_spec (N_of_ascii x) (N_of_ascii y)) as [Exy | Lxy | Gxy];
    try discriminate;
    destruct (N.compare_spec (N_of_ascii y) (N_of_ascii z)) as [Eyz | Lyz | Gyz];
    try discriminate; intros H1 H2.
  - rewrite Exy, Eyz, N.compare_refl. exact (IH b c H1 H2).
  - rewrite Exy. apply N.compare_lt_iff in Lyz. rewrite Lyz. reflexivity.
  - rewrite <- Eyz. apply N.compare_lt_iff in Lxy. rewrite Lxy. reflexivity.
  - assert (L : (N_of_ascii x < N_of_ascii z)%N) by lia.
    apply N.compare_lt_iff in L. rewrite L. reflexivity.
Qed.

Lemma string_ltb_asym (a b : string) :
  String.ltb a b = true -> String.ltb b a = false.
Proof.
  unfold String.ltb. rewrite (String.compare_antisym b a).
  destruct (String.compare a b); simpl; congruence.
Qed.

Lemma string_ltb_negtrans (a b c : string) :
  String.ltb a b = false -> String.ltb b c = false -> String.ltb a c = false.
Proof.
  unfold String.ltb. intros Hab Hbc.
  destruct (String.compare a c) eqn:Eac; try reflexivity. exfalso.
  destruct (String.compare a b) eqn:Eab; try discriminate.
  - apply String.compare_eq_iff in Eab. subst b. rewrite Eac in Hbc. discriminate.
  - assert (Eba : String.compare b a = Lt).
    { rewrite String.compare_antisym, Eab. reflexivity. }
    rewrite (string_compare_lt_trans b a c Eba Eac) in Hbc. discriminate.
Qed.

(* ================================================================== *)
(** * The data manager's store: how the operations compose *)

Lemma update_first_Some_split (clock tid : string) (u : DataManager.Updates)
  (l l' : list DataManager.Transaction) :
  DataManager.update_first clock tid u l = Some l' ->
  exists l1 t l2,
    l = l1 ++ t :: l2
    /\ DataManager.id t = tid
    /\ ~ In tid (map DataManager.id l1)
    /\ l' = l1 ++ DataManager.apply_updates clock t u :: l2.
Proof.
  revert l'. induction l as [|x l IH]; simpl; intros l' H; [discriminate|].
  destruct (String.eqb (DataManager.id x) tid) eqn:E.
  - inversion H; subst. apply String.eqb_eq in E.
    exists [], x, l. simpl. repeat split; auto.
  - destruct (DataManager.update_first clock tid u l) as [r|]; [|discriminate].
    inversion H; subst. destruct (IH r eq_refl) as (l1 & t & l2 & -> & Hid & Hn & ->).
    apply String.eqb_neq in E.
    exists (x :: l1), t, l2. simpl. repeat split; auto.
    intros [Hx | Hin]; [contradiction | exact (Hn Hin)].
Qed.

Lemma delete_transaction_fst (self : DataManager.QuantumDataManager) (tid : string) :
  fst (DataManager.delete_transaction self tid)
  = (List.length (filter (fun txn => negb (String.eqb (DataManager.id txn) tid))
                         (DataManager.transactions self))
     <? List.length (DataManager.transactions self))%nat.
Proof.
  unfold DataManager.delete_transaction. cbv zeta.
  simpl DataManager.transactions.
  destruct (_ <? _)%nat; reflexivity.
Qed.

Lemma delete_transaction_transactions (self : DataManager.QuantumDataManager)
  (tid : string) :
  DataManager.transactions (snd (DataManager.delete_transaction self tid))
  = filter (fun txn => negb (String.eqb (DataManager.id txn) tid))
           (DataManager.transactions self).
Proof.
  unfold DataManager.delete_transaction. cbv zeta.
  destruct (_ <? _)%nat; reflexivity.
Qed.

Lemma delete_transaction_data_file (self : DataManager.QuantumDataManager)
  (tid : string) :
  DataManager.data_file (snd (DataManager.delete_transaction self tid))
  = if fst (DataManager.delete_transaction self tid)
    then filter (fun txn => negb (String.eqb (DataManager.id txn) tid))
                (DataManager.transactions self)
    else DataManager.data_file self.
Proof.
  unfold DataManager.delete_transaction. cbv zeta.
  destruct (_ <? _)%nat; reflexivity.
Qed.

Lemma delete_transaction_absent (self : DataManager.QuantumDataManager)
  (tid : string) :
  ~ In tid (map DataManager.id (DataManager.transactions self)) ->
  DataManager.delete_transaction self tid = (false, self).
Proof.
  intro Habs. unfold DataManager.delete_transaction. simpl.
  rewrite (filter_other_ids_absent tid _ Habs), Nat.ltb_irrefl.
  destruct self; reflexivity.
Qed.

(** X1: [add_transaction] appends exactly one transaction, which carries the
    returned id and the record's date, amount and description; the
    earlier transactions stay in place; the data file then mirrors the
    list; and the manager finds the new transaction: an update or a
    delete by the returned id succeeds. *)
Theorem add_transaction_is_found :
  forall (md5_hexdigest : string -> string) (fmt_amount : Q -> string)
         (self : DataManager.QuantumDataManager) (clock clock' : string)
         (d : DataManager.TransactionData) (u : DataManager.Updates),
    let r := DataManager.add_transaction md5_hexdigest fmt_amount self clock d in
    (exists t : DataManager.Transaction,
        DataManager.transactions (snd r) = DataManager.transactions self ++ [t]
        /\ DataManager.id t = fst r
        /\ DataManager.date t = DataManager.d_date d
        /\ DataManager.amount t = DataManager.d_amount d
        /\ DataManager.description t = DataManager.d_description d)
    /\ (DataManager.d_id d = None \/ DataManager.d_id d = Some (fst r))
    /\ DataManager.data_file (snd r) = DataManager.transactions (snd r)
    /\ fst (DataManager.update_transaction (snd r) clock' (fst r) u) = true
    /\ fst (DataManager.delete_transaction (snd r) (fst r)) = true.
Proof.
  intros md5 fmt self clock clock' d u r.
  assert (Hin : In (fst r) (map DataManager.id (DataManager.transactions (snd r)))).
  { subst r. simpl. rewrite map_app. apply in_or_app. right. simpl. auto. }
  split; [|split; [|split; [|split]]].
  - subst r. simpl. eexists. split; [reflexivity|]. simpl. auto.
  - subst r. simpl. destruct (DataManager.d_id d); auto.
  - reflexivity.
  - unfold DataManager.update_transaction.
    destruct (DataManager.update_first clock' (fst r) u
                (DataManager.transactions (snd r))) eqn:E; [reflexivity|].
    apply (update_first_None clock' (fst r) u) in E. contradiction.
  - rewrite delete_transaction_fst. apply Nat.ltb_lt.
    apply filter_other_ids_shorter. exact Hin.
Qed.

(** X2: Adding a transaction under an id that is not stored yet and deleting
    it again by the returned id gives back the transaction list as it
    was, and writes it to the data file. *)
Theorem add_then_delete_restores :
  forall (md5_hexdigest : string -> string) (fmt_amount : Q -> string)
         (self : DataManager.QuantumDataManager) (clock : string)
         (d : DataManager.TransactionData),
    let r := DataManager.add_transaction md5_hexdigest fmt_amount self clock d in
    ~ In (fst r) (map DataManager.id (DataManager.transactions self)) ->
    let r' := DataManager.delete_transaction (snd r) (fst r) in
    fst r' = true
    /\ DataManager.transactions (snd r') = DataManager.transactions self
    /\ DataManager.data_file (snd r') = DataManager.transactions self.
Proof.
  intros md5 fmt self clock d r Hfresh r'.
  assert (Hf : filter (fun txn => negb (String.eqb (DataManager.id txn) (fst r)))
                      (DataManager.transactions (snd r))
               = DataManager.transactions self).
  { subst r. simpl. rewrite filter_app. simpl.
    rewrite String.eqb_refl. simpl. rewrite app_nil_r.
    apply filter_other_ids_absent. exact Hfresh. }
  assert (Hfst : fst r' = true).
  { subst r'. rewrite delete_transaction_fst, Hf. apply Nat.ltb_lt.
    subst r. simpl. rewrite length_app. simpl. lia. }
  split; [exact Hfst | split].
  - subst r'. rewrite delete_transaction_transactions. exact Hf.
  - unfold r' in *. rewrite delete_transaction_data_file, Hfst. exact Hf.
Qed.

Lemma add_then_delete_restores_witness :
  DataManager.transactions
    (snd (DataManager.delete_transaction
            (snd (DataManager.add_transaction (fun s => s) (fun _ => "250")
                    (Examples.dm_of [Examples.dm_txn "a1" 300])
                    "2024-02-01T09:00:00" (Examples.dm_data (Some "b2") 250)))
            "b2"))
  = [Examples.dm_txn "a1" 300].
Proof.
  apply (add_then_delete_restores (fun s => s) (fun _ => "250")
           (Examples.dm_of [Examples.dm_txn "a1" 300]) "2024-02-01T09:00:00"
           (Examples.dm_data (Some "b2") 250)).
  simpl. intros [H | []]. discriminate H.
Defined.

(** X3: [delete_transaction] removes every transaction that carries the id
    and no other: afterwards the id is not stored, the stored
    transactions are exactly the earlier ones with another id, and a
    second delete by the same id returns [False] and changes nothing. *)
Theorem delete_transaction_removes_all_matches :
  forall (self : DataManager.QuantumDataManager) (tid : string),
    let self' := snd (DataManager.delete_transaction self tid) in
    (forall t : DataManager.Transaction,
        In t (DataManager.transactions self')
        <-> In t (DataManager.transactions self) /\ DataManager.id t <> tid)
    /\ (forall other : string,
           other <> tid ->
           filter (fun t => String.eqb (DataManager.id t) other)
                  (DataManager.transactions self')
           = filter (fun t => String.eqb (DataManager.id t) other)
                    (DataManager.transactions self))
    /\ DataManager.delete_transaction self' tid = (false, self').
Proof.
  intros self tid self'.
  assert (Htx : DataManager.transactions self'
                = filter (fun txn => negb (String.eqb (DataManager.id txn) tid))
                         (DataManager.transactions self)).
  { subst self'. apply delete_transaction_transactions. }
  assert (Hmem : forall t, In t (DataManager.transactions self')
                           <-> In t (DataManager.transactions self)
                               /\ DataManager.id t <> tid).
  { intro t. rewrite Htx, filter_In, negb_true_iff, String.eqb_neq. tauto. }
  split; [exact Hmem | split].
  - intros other Hne. rewrite Htx. clear Htx Hmem.
    induction (DataManager.transactions self) as [|x l IH]; simpl; [reflexivity|].
    destruct (String.eqb (DataManager.id x) tid) eqn:E; simpl.
    + apply String.eqb_eq in E.
      assert (E' : String.eqb (DataManager.id x) other = false).
      { apply String.eqb_neq. congruence. }
      rewrite E'. exact IH.
    + destruct (String.eqb (DataManager.id x) other); [f_equal|]; exact IH.
  - assert (Habs : ~ In tid (map DataManager.id (DataManager.transactions self'))).
    { intro H. apply in_map_iff in H. destruct H as (t & Hid & Ht).
      apply Hmem in Ht. tauto. }
    apply delete_transaction_absent. exact Habs.
Qed.

(** X4: A successful [update_transaction] rewrites exactly the first
    transaction that carries the id: everything before and after it is
    kept, also later transactions with the same id.  In the rewritten
    transaction every field the update names has the update's value and
    every other field is kept, except [updated_at], which is the clock
    even when the update names it; the list keeps its length and is
    written to the data file. *)
Theorem update_transaction_rewrites_first_match :
  forall (self : DataManager.QuantumDataManager) (clock tid : string)
         (u : DataManager.Updates),
    fst (DataManager.update_transaction self clock tid u) = true ->
    let self' := snd (DataManager.update_transaction self clock tid u) in
    let set_or_kept (A : Type) (named : option A) (old new : A) : Prop :=
      match named with
      | Some v => new = v
      | None => new = old
      end in
    exists (l1 : list DataManager.Transaction) (t t' : DataManager.Transaction)
           (l2 : list DataManager.Transaction),
      DataManager.transactions self = l1 ++ t :: l2
      /\ DataManager.transactions self' = l1 ++ t' :: l2
      /\ DataManager.data_file self' = l1 ++ t' :: l2
      /\ DataManager.id t = tid
      /\ ~ In tid (map DataManager.id l1)
      /\ DataManager.updated_at t' = clock
      /\ set_or_kept Q (DataManager.u_amount u)
           (DataManager.amount t) (DataManager.amount t')
      /\ set_or_kept string (DataManager.u_id u) tid (DataManager.id t')
      /\ set_or_kept string (DataManager.u_created_at u)
           (DataManager.created_at t) (DataManager.created_at t')
      /\ set_or_kept string (DataManager.u_date u)
           (DataManager.date t) (DataManager.date t')
      /\ set_or_kept string (DataManager.u_category u)
           (DataManager.category t) (DataManager.category t')
      /\ set_or_kept string (DataManager.u_type u)
           (DataManager.type t) (DataManager.type t')
      /\ set_or_kept string (DataManager.u_description u)
           (DataManager.description t) (DataManager.description t')
      /\ set_or_kept (list string) (DataManager.u_tags u)
           (DataManager.tags t) (DataManager.tags t')
      /\ set_or_kept string (DataManager.u_status u)
           (DataManager.status t) (DataManager.status t').
Proof.
  intros self clock tid u. unfold DataManager.update_transaction.
  destruct (DataManager.update_first clock tid u (DataManager.transactions self))
    as [l'|] eqn:E; simpl; [intros _ | discriminate].
  destruct (update_first_Some_split clock tid u _ _ E)
    as (l1 & t & l2 & Hl & Hid & Hn & ->).
  exists l1, t, (DataManager.apply_updates clock t u), l2.
  split; [exact Hl|]. split; [reflexivity|]. split; [reflexivity|].
  split; [exact Hid|]. split; [exact Hn|]. split; [reflexivity|].
  rewrite <- Hid. cbn [DataManager.apply_updates DataManager.amount
                       DataManager.id DataManager.created_at DataManager.date
                       DataManager.category DataManager.type
                       DataManager.description DataManager.tags
                       DataManager.status].
  repeat split;
    match goal with
    | |- match ?o with _ => _ end => destruct o; reflexivity
    end.
Qed.

Lemma update_transaction_rewrites_first_match_witness :
  exists (l1 : list DataManager.Transaction) (t t' : DataManager.Transaction)
         (l2 : list DataManager.Transaction),
    [Examples.dm_txn "a1" 300; Examples.dm_txn "a1" 400] = l1 ++ t :: l2
    /\ DataManager.transactions
         (snd (DataManager.update_transaction
                 (Examples.dm_of [Examples.dm_txn "a1" 300; Examples.dm_txn "a1" 400])
                 "2024-02-01T09:00:00" "a1" (Examples.set_amount 10)))
       = l1 ++ t' :: l2
    /\ DataManager.updated_at t' = "2024-02-01T09:00:00"
    /\ DataManager.amount t' = 10
    /\ DataManager.description t' = DataManager.description t.
Proof.
  destruct (update_transaction_rewrites_first_match
              (Examples.dm_of [Examples.dm_txn "a1" 300; Examples.dm_txn "a1" 400])
              "2024-02-01T09:00:00" "a1" (Examples.set_amount 10) eq_refl)
    as (l1 & t & t' & l2 & H1 & H2 & _ & _ & _ & H3 & H4 & _ & _ & _ & _ & _
        & H5 & _).
  exists l1, t, t', l2.
  split; [exact H1|]. split; [exact H2|]. split; [exact H3|].
  split; [exact H4 | exact H5].
Defined.

(** X5: The data file follows the list: if it mirrored the transaction list
    before [add_transaction], [update_transaction] or
    [delete_transaction], it mirrors it afterwards, whether the operation
    succeeded or not. *)
Theorem data_file_mirrors_transactions :
  forall (md5_hexdigest : string -> string) (fmt_amount : Q -> string)
         (self : DataManager.QuantumDataManager) (clock tid : string)
         (d : DataManager.TransactionData) (u : DataManager.Updates),
    DataManager.data_file self = DataManager.transactions self ->
    let saved (m : DataManager.QuantumDataManager) :=
      DataManager.data_file m = DataManager.transactions m in
    saved (snd (DataManager.add_transaction md5_hexdigest fmt_amount self clock d))
    /\ saved (snd (DataManager.update_transaction self clock tid u))
    /\ saved (snd (DataManager.delete_transaction self tid)).
Proof.
  intros md5 fmt self clock tid d u Hsaved saved. subst saved. cbv beta.
  split; [reflexivity | split].
  - unfold DataManager.update_transaction.
    destruct (DataManager.update_first clock tid u (DataManager.transactions self));
      [reflexivity | exact Hsaved].
  - rewrite delete_transaction_data_file, delete_transaction_transactions.
    destruct (fst (DataManager.delete_transaction self tid)) eqn:E; [reflexivity|].
    rewrite delete_transaction_fst in E. apply Nat.ltb_ge in E.
    rewrite Hsaved. symmetry.
    destruct (in_dec string_dec tid
                (map DataManager.id (DataManager.transactions self))) as [Hin | Hn].
    + pose proof (filter_other_ids_shorter tid _ Hin). lia.
    + apply filter_other_ids_absent. exact Hn.
Qed.

Lemma data_file_mirrors_transactions_witness :
  DataManager.data_file
    (snd (DataManager.delete_transaction
            (Examples.dm_of [Examples.dm_txn "a1" 300]) "zz"))
  = DataManager.transactions
      (snd (DataManager.delete_transaction
              (Examples.dm_of [Examples.dm_txn "a1" 300]) "zz")).
Proof.
  apply (data_file_mirrors_transactions (fun s => s) (fun _ => "300")
           (Examples.dm_of [Examples.dm_txn "a1" 300]) "2024-02-01T09:00:00" "zz"
           (Examples.dm_data None 300) Examples.no_updates).
  reflexivity.
Defined.

(* ================================================================== *)
(** * Queries and clean-up of the data manager *)

Section DateFilterFacts.
Variable strptime : string -> option Z.





End DateFilterFacts.

Lemma by_date_desc_perm (l : list DataManager.Transaction) :
  Permutation l (DataManager.by_date_desc l).
Proof. apply sorted_desc_perm. Qed.

Lemma by_date_desc_sorted (l : list DataManager.Transaction) :
  StronglySorted
    (fun a b => String.ltb (DataManager.date a) (DataManager.date b) = false)
    (DataManager.by_date_desc l).
Proof.
  apply (sorted_desc_sorted
           (fun y x => String.ltb (DataManager.date y) (DataManager.date x))).
  - intros a b. apply string_ltb_asym.
  - intros a b c. apply string_ltb_negtrans.
Qed.






Lemma StronglySorted_app_cross {A : Type} (R : A -> A -> Prop) (l1 l2 : list A) :
  StronglySorted R (l1 ++ l2) ->
  StronglySorted R l1 /\ forall a b, In a l1 -> In b l2 -> R a b.
Proof.
  induction l1 as [|x l1 IH]; simpl; intro H.
  - split; [constructor | intros a b []].
  - inversion H as [|? ? Hs Hall]; subst. destruct (IH Hs) as [Hs1 Hcross].
    rewrite Forall_forall in Hall. split.
    + constructor; [exact Hs1|]. rewrite Forall_forall. intros y Hy.
      apply Hall. apply in_or_app. left; exact Hy.
    + intros a b [<- | Ha] Hb.
      * apply Hall. apply in_or_app. right; exact Hb.
      * apply Hcross; assumption.
Qed.

(** X8: [get_recent_transactions] returns [min(limit, n)] stored transactions,
    latest first, and none of the transactions it leaves out has a later
    date than one it returns. *)
Theorem get_recent_transactions_are_latest :
  forall (self : DataManager.QuantumDataManager) (limit : nat),
    let recent := DataManager.get_recent_transactions self limit in
    List.length recent = Nat.min limit (List.length (DataManager.transactions self))
    /\ StronglySorted
         (fun a b => String.ltb (DataManager.date a) (DataManager.date b) = false)
         recent
    /\ exists rest : list DataManager.Transaction,
        Permutation (DataManager.transactions self) (recent ++ rest)
        /\ forall a b, In a recent -> In b rest ->
                       String.ltb (DataManager.date a) (DataManager.date b) = false.
Proof.
  intros self limit recent. subst recent.
  unfold DataManager.get_recent_transactions.
  set (sorted := DataManager.by_date_desc (DataManager.transactions self)).
  assert (Hsorted : StronglySorted
                      (fun a b => String.ltb (DataManager.date a)
                                             (DataManager.date b) = false)
                      (firstn limit sorted ++ skipn limit sorted)).
  { rewrite firstn_skipn. apply by_date_desc_sorted. }
  destruct (StronglySorted_app_cross _ _ _ Hsorted) as [Hs Hcross].
  split; [|split; [exact Hs|]].
  - rewrite length_firstn. unfold sorted.
    rewrite <- (Permutation_length (by_date_desc_perm (DataManager.transactions self))).
    reflexivity.
  - exists (skipn limit sorted). split; [|exact Hcross].
    rewrite firstn_skipn. apply by_date_desc_perm.
Qed.




(* ================================================================== *)
(** * The data manager's summary *)

(** X10: For non-negative amounts the figures of the current month lie between
    zero and the overall totals, and the savings rate never exceeds 100;
    the net worth is the balance plus the reported portfolio value, and
    the transaction count is the number of stored transactions. *)
Theorem data_manager_summary_bounds :
  forall (to_period_M : string -> Z) (self : DataManager.QuantumDataManager)
         (now : Z) (clock : string),
    Forall (fun t => 0 <= DataManager.amount t) (DataManager.transactions self) ->
    let s := DataManager.get_financial_summary to_period_M self now clock in
    (0 <= DataManager.current_month_income s
     /\ DataManager.current_month_income s <= DataManager.total_income s)
    /\ (0 <= DataManager.current_month_expenses s
        /\ DataManager.current_month_expenses s <= DataManager.total_expenses s)
    /\ DataManager.savings_rate s <= 100
    /\ DataManager.net_worth s
       == DataManager.total_income s - DataManager.total_expenses s
          + DataManager.portfolio_value s
    /\ DataManager.transaction_count s
       = List.length (DataManager.transactions self).
Proof.
  intros tpm self now clock Hpos s. subst s.
  unfold DataManager.get_financial_summary.
  destruct (DataManager.transactions self) as [|t l] eqn:E.
  - simpl. repeat split; first [apply Qle_refl | discriminate | reflexivity].
  - rewrite <- E in *. clear E t l.
    set (df := DataManager.transactions self) in *.
    cbn [DataManager.current_month_income DataManager.total_income
         DataManager.current_month_expenses DataManager.total_expenses
         DataManager.savings_rate DataManager.net_worth
         DataManager.portfolio_value DataManager.transaction_count].
    set (mi := Qsum (map DataManager.amount
                       (filter (fun t => DataManager.is_income t
                                         && DataManager.in_month tpm now t) df))).
    set (me := Qsum (map DataManager.amount
                       (filter (fun t => DataManager.is_expense t
                                         && DataManager.in_month tpm now t) df))).
    assert (Hmi : 0 <= mi) by (apply Qsum_filter_nonneg; exact Hpos).
    assert (Hme : 0 <= me) by (apply Qsum_filter_nonneg; exact Hpos).
    split; [split; [exact Hmi | apply Qsum_filter_and_le; exact Hpos]|].
    split; [split; [exact Hme | apply Qsum_filter_and_le; exact Hpos]|].
    split; [|split; [reflexivity | reflexivity]].
    destruct (Qltb 0 mi) eqn:Epos; [|discriminate].
    apply Qltb_lt in Epos.
    assert (Hq : (mi - me) / mi <= 1).
    { apply Qle_shift_div_r; [exact Epos | lra]. }
    lra.
Qed.

Lemma data_manager_summary_bounds_witness :
  DataManager.savings_rate
    (DataManager.get_financial_summary iso_period_M
       (Examples.dm_of Examples.dm_three) 648 "2024-01-31T00:00:00") <= 100.
Proof.
  apply (data_manager_summary_bounds iso_period_M
           (Examples.dm_of Examples.dm_three) 648 "2024-01-31T00:00:00").
  simpl. repeat constructor; discriminate.
Defined.

(* ================================================================== *)
(** * The finance manager: persistence and summary *)

Lemma of_json_to_json (h : string -> Z) (fmt : Q -> string)
  (t : FinanceCore.Transaction) :
  FinanceCore.of_json h fmt (FinanceCore.to_json t) = Some t.
Proof. destruct t; reflexivity. Qed.

Lemma of_json_all_to_json (h : string -> Z) (fmt : Q -> string)
  (l : list FinanceCore.Transaction) :
  FinanceCore.of_json_all h fmt (map FinanceCore.to_json l) = Some l.
Proof.
  induction l as [|t l IH]; [reflexivity|].
  cbn [map FinanceCore.of_json_all].
  rewrite of_json_to_json, IH. reflexivity.
Qed.

(** X11: What [save_data] wrote is read back unchanged by [load_data], ids
    included, whatever the hash function of the reading process is: after
    [add_transaction], a manager constructed on the data file holds the
    old transactions followed by the new one. *)
Theorem saved_transactions_load_back :
  forall (py_hash : string -> Z) (fmt_float : Q -> string)
         (fm : FinanceCore.FinanceManager) (t : FinanceCore.Transaction),
    FinanceCore.load_data py_hash fmt_float
      (FinanceCore.dump (FinanceCore.add_transaction fm t))
    = FinanceCore.transactions fm ++ [t]
    /\ FinanceCore.load_data py_hash fmt_float
         (FinanceCore.dump (FinanceCore.save_data fm))
       = FinanceCore.transactions fm.
Proof.
  intros h fmt fm t. unfold FinanceCore.load_data, FinanceCore.dump. simpl.
  rewrite !of_json_all_to_json. split; reflexivity.
Qed.

Lemma of_json_all_missing_key (h : string -> Z) (fmt : Q -> string)
  (records : list FinanceCore.JsonRecord) (j : FinanceCore.JsonRecord) :
  In j records ->
  FinanceCore.of_json h fmt j = None ->
  FinanceCore.of_json_all h fmt records = None.
Proof.
  induction records as [|x l IH]; simpl; intros Hin Hj; [contradiction|].
  destruct Hin as [-> | Hin].
  - rewrite Hj. reflexivity.
  - rewrite (IH Hin Hj). destruct (FinanceCore.of_json h fmt x); reflexivity.
Qed.

(** X12: Loading is all or nothing: a missing or unreadable data file gives an
    empty manager, and so does a file in which a single record lacks one
    of the keys date, amount, category, subcategory or description, no
    matter how many well-formed records it holds.  A record without an id
    is accepted and gets a synthesized one. *)
Theorem load_data_all_or_nothing :
  forall (py_hash : string -> Z) (fmt_float : Q -> string),
    FinanceCore.load_data py_hash fmt_float FinanceCore.Missing = []
    /\ FinanceCore.load_data py_hash fmt_float FinanceCore.Corrupt = []
    /\ (forall (records : list FinanceCore.JsonRecord) (j : FinanceCore.JsonRecord),
           In j records ->
           (FinanceCore.j_date j = None \/ FinanceCore.j_amount j = None
            \/ FinanceCore.j_category j = None \/ FinanceCore.j_subcategory j = None
            \/ FinanceCore.j_description j = None) ->
           FinanceCore.load_data py_hash fmt_float (FinanceCore.Parsed records) = [])
    /\ (forall (t : FinanceCore.Transaction),
           FinanceCore.load_data py_hash fmt_float
             (FinanceCore.Parsed
                [ {| FinanceCore.j_date := Some (FinanceCore.date t);
                     FinanceCore.j_amount := Some (FinanceCore.amount t);
                     FinanceCore.j_category := Some (FinanceCore.category t);
                     FinanceCore.j_subcategory := Some (FinanceCore.subcategory t);
                     FinanceCore.j_description := Some (FinanceCore.description t);
                     FinanceCore.j_id := None |} ])
           = [ FinanceCore.new_Transaction py_hash fmt_float
                 (FinanceCore.date t) (FinanceCore.amount t)
                 (FinanceCore.category t) (FinanceCore.subcategory t)
                 (FinanceCore.description t) None ]).
Proof.
  intros h fmt. split; [reflexivity | split; [reflexivity | split]].
  - intros records j Hin Hmiss. unfold FinanceCore.load_data.
    rewrite (of_json_all_missing_key h fmt records j Hin); [reflexivity|].
    unfold FinanceCore.of_json.
    destruct (FinanceCore.j_date j), (FinanceCore.j_amount j),
      (FinanceCore.j_category j), (FinanceCore.j_subcategory j),
      (FinanceCore.j_description j); try reflexivity.
    destruct Hmiss as [H | [H | [H | [H | H]]]]; discriminate H.
  - intro t. reflexivity.
Qed.

Lemma group_insert_incl {K R : Type} (cmp : K -> K -> comparison) (key : R -> K)
  (r : R) (g : list (K * list R)) (grp : K * list R) (x : R) :
  In grp (group_insert cmp key r g) -> In x (snd grp) ->
  x = r \/ exists grp', In grp' g /\ In x (snd grp').
Proof.
  induction g as [|[k rows] g IH]; simpl.
  - intros [<- | []] Hx. simpl in Hx. destruct Hx as [<- | []]. left; reflexivity.
  - destruct (cmp (key r) k).
    + intros [<- | Hin] Hx.
      * simpl in Hx. apply in_app_or in Hx. destruct Hx as [Hx | [<- | []]].
        -- right. exists (k, rows). simpl. auto.
        -- left; reflexivity.
      * right. exists grp. auto.
    + intros [<- | Hin] Hx.
      * simpl in Hx. destruct Hx as [<- | []]. left; reflexivity.
      * right. exists grp. auto.
    + intros [<- | Hin] Hx.
      * right. exists (k, rows). simpl. auto.
      * destruct (IH Hin Hx) as [-> | (grp' & Hg & Hx')]; [left; reflexivity|].
        right. exists grp'. auto.
Qed.

Lemma groupby_incl {K R : Type} (cmp : K -> K -> comparison) (key : R -> K)
  (df : list R) (grp : K * list R) (x : R) :
  In grp (groupby cmp key df) -> In x (snd grp) -> In x df.
Proof.
  unfold groupby.
  assert (H : forall g,
             In grp (fold_left (fun g r => group_insert cmp key r g) df g) ->
             In x (snd grp) ->
             In x df \/ exists grp', In grp' g /\ In x (snd grp')).
  { induction df as [|r df IH]; simpl; intros g Hg Hx.
    - right. exists grp. auto.
    - destruct (IH _ Hg Hx) as [Hin | (grp' & Hg' & Hx')]; [auto|].
      destruct (group_insert_incl cmp key r g grp' x Hg' Hx')
        as [-> | Hold]; auto. }
  intros Hg Hx. destruct (H [] Hg Hx) as [Hin | (grp' & [] & _)]. exact Hin.
Qed.

Lemma filter_none {A : Type} (f : A -> bool) (l : list A) :
  (forall x, In x l -> f x = false) -> filter f l = [].
Proof.
  induction l as [|x l IH]; simpl; intro H; [reflexivity|].
  rewrite (H x (or_introl eq_refl)). apply IH. intros y Hy. apply H. right; exact Hy.
Qed.

(** In a column of the string dtype every monthly ['Expense'] entry is a
    string, so the summary of a non-empty manager raises. *)
Lemma FinanceCore_summary_raises_under_str_dtype (tpm : string -> Z)
  (self : FinanceCore.FinanceManager) (now : Z) :
  FinanceCore.transactions self <> [] ->
  FinanceCore.get_financial_summary tpm StrDtype self now = Raise TypeError.
Proof.
  intro Hne. unfold FinanceCore.get_financial_summary.
  destruct (FinanceCore.transactions self) as [|t0 l] eqn:Edf; [congruence|].
  rewrite <- Edf in *.
  assert (Hin : In t0 (FinanceCore.transactions self))
    by (rewrite Edf; left; reflexivity).
  clear Edf.
  assert (Hf : forallb is_num
                 (map FinanceCore.Expense
                      (FinanceCore.summary_monthly_data tpm StrDtype
                         (FinanceCore.transactions self))) = false).
  { destruct (groupby_In Z.compare (FinanceCore.month_of tpm) _ _ Hin)
      as (grp & Hg & _).
    apply not_true_is_false. intro Hall.
    rewrite forallb_forall in Hall.
    specialize (Hall (str_series_sum StrDtype
                        (map FinanceCore.category
                             (filter FinanceCore.is_expense (snd grp))))).
    assert (Hstr : is_num (str_series_sum StrDtype
                             (map FinanceCore.category
                                  (filter FinanceCore.is_expense (snd grp))))
                   = false)
      by (destruct (map _ _); reflexivity).
    rewrite Hstr in Hall. discriminate Hall.
    unfold FinanceCore.summary_monthly_data. rewrite map_map. simpl.
    apply (in_map (fun g => str_series_sum StrDtype
                              (map FinanceCore.category
                                   (filter FinanceCore.is_expense (snd g))))).
    exact Hg. }
  unfold obj_series_mean. rewrite Hf. reflexivity.
Qed.

(** X13: [FinanceManager.get_financial_summary] never returns a summary
    while an Expense transaction is stored: it returns one for the empty
    manager and, where pandas holds strings in object columns (before
    3.0), when no Expense transaction is stored; under the string dtype
    of pandas 3 every non-empty manager raises.  Whatever fails raises
    [TypeError].  A summary it returns therefore shows no expenses: total
    expenses and expense ratio are zero, the expense breakdown is empty,
    the net balance is the total income, and the savings rate is 100 as
    soon as the income is positive. *)
Theorem finance_summary_only_without_expenses :
  forall (to_period_M : string -> Z) (dtype : StrColumn)
         (fm : FinanceCore.FinanceManager) (now : Z),
    ((exists s, FinanceCore.get_financial_summary to_period_M dtype fm now = Ok s)
     <-> FinanceCore.transactions fm = []
         \/ (dtype = ObjectDtype
             /\ forall t, In t (FinanceCore.transactions fm) ->
                          FinanceCore.category t <> "Expense"))
    /\ (forall e : PyError,
           FinanceCore.get_financial_summary to_period_M dtype fm now = Raise e ->
           e = TypeError)
    /\ forall s : FinanceCore.Summary,
        FinanceCore.get_financial_summary to_period_M dtype fm now = Ok s ->
        (forall t, In t (FinanceCore.transactions fm) ->
                   FinanceCore.category t <> "Expense")
        /\ FinanceCore.s_total_expenses s == 0
        /\ FinanceCore.s_expense_ratio s == 0
        /\ FinanceCore.s_expense_breakdown s = []
        /\ FinanceCore.s_net_balance s == FinanceCore.s_total_income s
        /\ (0 < FinanceCore.s_total_income s -> FinanceCore.s_savings_rate s == 100).
Proof.
  intros tpm dtype fm now.
  assert (Hraise : (exists t, In t (FinanceCore.transactions fm)
                              /\ FinanceCore.is_expense t = true) ->
                   FinanceCore.get_financial_summary tpm dtype fm now
                   = Raise TypeError).
  { intros (t & Hin & He).
    exact (FinanceCore_summary_raises_with_expense tpm dtype fm now t Hin He). }
  assert (Hnone : forall s,
             FinanceCore.get_financial_summary tpm dtype fm now = Ok s ->
             forall t, In t (FinanceCore.transactions fm) ->
                       FinanceCore.is_expense t = false).
  { intros s Hs t Hin. destruct (FinanceCore.is_expense t) eqn:E; [|reflexivity].
    rewrite Hraise in Hs by (exists t; auto). discriminate. }
  assert (Hcat : forall s,
             FinanceCore.get_financial_summary tpm dtype fm now = Ok s ->
             forall t, In t (FinanceCore.transactions fm) ->
                       FinanceCore.category t <> "Expense").
  { intros s Hs t Hin Hc. specialize (Hnone s Hs t Hin).
    unfold FinanceCore.is_expense in Hnone. rewrite Hc in Hnone. discriminate. }
  split; [|split].
  - split.
    + intros (s & Hs).
      destruct (FinanceCore.transactions fm) as [|t0 l0] eqn:Edf;
        [left; reflexivity|].
      right. split; [|exact (Hcat s Hs)].
      destruct dtype; [reflexivity|].
      rewrite FinanceCore_summary_raises_under_str_dtype in Hs;
        [discriminate | rewrite Edf; discriminate].
    + intros [Hnil | [-> Hno]].
      * unfold FinanceCore.get_financial_summary. rewrite Hnil.
        eexists. reflexivity.
      * unfold FinanceCore.get_financial_summary.
        destruct (FinanceCore.transactions fm) as [|t0 l0] eqn:Edf;
          [eexists; reflexivity|].
        rewrite <- Edf in *. clear Edf t0 l0.
        assert (Hall : forallb is_num
                         (map FinanceCore.Expense
                              (FinanceCore.summary_monthly_data tpm ObjectDtype
                                 (FinanceCore.transactions fm))) = true).
        { apply forallb_forall. intros o Ho.
          unfold FinanceCore.summary_monthly_data in Ho. rewrite map_map in Ho.
          apply in_map_iff in Ho. destruct Ho as (g & <- & Hg). simpl.
          rewrite filter_none; [reflexivity|].
          intros x Hx. apply (groupby_incl _ _ _ g x Hg) in Hx.
          unfold FinanceCore.is_expense. apply String.eqb_neq. apply Hno.
          exact Hx. }
        unfold obj_series_mean. rewrite Hall. eexists. reflexivity.
  - intro e. unfold FinanceCore.get_financial_summary.
    destruct (FinanceCore.transactions fm) as [|t0 l0]; [discriminate|].
    unfold obj_series_mean. destruct (forallb is_num _); [discriminate|].
    intro H. inversion H. reflexivity.
  - intros s Hs. split; [exact (Hcat s Hs)|].
    pose proof (Hnone s Hs) as Hne.
    assert (Hf : filter FinanceCore.is_expense (FinanceCore.transactions fm) = [])
      by (apply filter_none; exact Hne).
    revert Hs. unfold FinanceCore.get_financial_summary.
    destruct (FinanceCore.transactions fm) as [|t0 l0] eqn:Edf.
    + intro H. inversion H; subst. simpl.
      repeat split; try reflexivity. intro Hpos. discriminate Hpos.
    + rewrite <- Edf in *. clear Edf t0 l0.
      destruct (obj_series_mean _); [|discriminate].
      intro H. inversion H; subst. clear H.
      cbn [FinanceCore.s_total_expenses FinanceCore.s_expense_ratio
           FinanceCore.s_expense_breakdown FinanceCore.s_net_balance
           FinanceCore.s_total_income FinanceCore.s_savings_rate].
      unfold FinanceCore.expense_breakdown, FinanceCore.total_expenses.
      rewrite Hf. simpl Qsum.
      split; [reflexivity|]. split.
      * unfold FinanceCore.expense_ratio_of. destruct (Qltb 0 _); [|reflexivity].
        unfold Qdiv. ring.
      * split; [reflexivity|]. split; [ring|].
        intro Hpos. unfold FinanceCore.savings_rate_of.
        apply Qltb_lt in Hpos. rewrite Hpos. apply Qltb_lt in Hpos.
        field. intro Hz. rewrite Hz in Hpos. discriminate Hpos.
Qed.

Lemma finance_summary_only_without_expenses_witness :
  (exists s : FinanceCore.Summary,
      FinanceCore.get_financial_summary iso_period_M ObjectDtype
        (Examples.fm_of [Examples.fc_salary]) 648 = Ok s
      /\ FinanceCore.s_savings_rate s == 100)
  /\ ~ (exists s : FinanceCore.Summary,
           FinanceCore.get_financial_summary iso_period_M StrDtype
             (Examples.fm_of [Examples.fc_salary]) 648 = Ok s).
Proof.
  split.
  - eexists. split; [reflexivity|].
    destruct (finance_summary_only_without_expenses iso_period_M ObjectDtype
                (Examples.fm_of [Examples.fc_salary]) 648) as (_ & _ & H).
    apply (H _ eq_refl). reflexivity.
  - intro H.
    destruct (finance_summary_only_without_expenses iso_period_M StrDtype
                (Examples.fm_of [Examples.fc_salary]) 648) as (Hiff & _).
    apply Hiff in H. destruct H as [H | [H _]]; discriminate H.
Defined.

(* ================================================================== *)
(** * Monthly series of the finance manager *)

Lemma Qsum_map_ext {A : Type} (f g : A -> Q) (l : list A) :
  (forall x, In x l -> f x == g x) -> Qsum (map f l) == Qsum (map g l).
Proof.
  induction l as [|x l IH]; simpl; intro H; [reflexivity|].
  rewrite (H x (or_introl eq_refl)), IH; [reflexivity|].
  intros y Hy. apply H. right; exact Hy.
Qed.

Lemma Qsum_filter_indicator {A : Type} (amount : A -> Q) (f : A -> bool)
  (l : list A) :
  Qsum (map amount (filter f l))
  == Qsum (map (fun t => if f t then amount t else 0) l).
Proof.
  induction l as [|x l IH]; simpl; [reflexivity|].
  destruct (f x); simpl; rewrite IH; ring.
Qed.

(** Summing, over the groups, the amounts of the rows that pass a test
    gives the sum over all rows that pass it. *)
Lemma groupby_filtered_total {K R : Type} (cmp : K -> K -> comparison)
  (key : R -> K) (amount : R -> Q) (f : R -> bool) (df : list R) :
  Qsum (map (fun g => Qsum (map amount (filter f (snd g)))) (groupby cmp key df))
  == Qsum (map amount (filter f df)).
Proof.
  rewrite Qsum_filter_indicator.
  rewrite <- (Qplus_0_l (Qsum (map _ df))).
  rewrite <- (fold_group_insert_total cmp key
                (fun t => if f t then amount t else 0) df []).
  unfold groups_total, groupby. apply Qsum_map_ext.
  intros g _. apply Qsum_filter_indicator.
Qed.

Lemma Qsum_map_minus {A : Type} (f g : A -> Q) (l : list A) :
  Qsum (map (fun x => f x - g x) l) == Qsum (map f l) - Qsum (map g l).
Proof.
  induction l as [|x l IH]; simpl; [ring|]. rewrite IH. ring.
Qed.

(** X14: [get_spending_trends] is empty exactly for an empty manager.
    Otherwise its monthly table has one row per month bucket, in
    increasing month order, each with savings = income - expense, and the
    columns add up: the monthly incomes to the total income, the monthly
    expenses to the total expenses, the monthly savings to the net
    balance. *)
Theorem spending_trends_add_up :
  forall (to_period_M : string -> Z) (day_name : string -> string)
         (fm : FinanceCore.FinanceManager),
    (FinanceCore.get_spending_trends to_period_M day_name fm = None
     <-> FinanceCore.transactions fm = [])
    /\ forall tr : FinanceCore.SpendingTrends,
        FinanceCore.get_spending_trends to_period_M day_name fm = Some tr ->
        let rows := FinanceCore.monthly_trends tr in
        Sorted Z.lt (map FinanceCore.t_month rows)
        /\ Forall (fun r => FinanceCore.t_savings r
                            = FinanceCore.t_income r - FinanceCore.t_expense r) rows
        /\ Qsum (map FinanceCore.t_income rows)
           == FinanceCore.total_income (FinanceCore.transactions fm)
        /\ Qsum (map FinanceCore.t_expense rows)
           == FinanceCore.total_expenses (FinanceCore.transactions fm)
        /\ Qsum (map FinanceCore.t_savings rows)
           == FinanceCore.total_income (FinanceCore.transactions fm)
              - FinanceCore.total_expenses (FinanceCore.transactions fm).
Proof.
  intros tpm day fm. unfold FinanceCore.get_spending_trends. split.
  - destruct (FinanceCore.transactions fm); split; intro H;
      try reflexivity; discriminate H.
  - destruct (FinanceCore.transactions fm) as [|t0 l0] eqn:Edf; [discriminate|].
    rewrite <- Edf. clear Edf t0 l0.
    intros tr H. inversion H; subst tr. clear H.
      cbn [FinanceCore.monthly_trends]. cbv zeta.
      set (df := FinanceCore.transactions fm).
      set (groups := groupby Z.compare (FinanceCore.month_of tpm) df).
      assert (Hinc : Qsum (map FinanceCore.t_income (map FinanceCore.trend_row groups))
                     == FinanceCore.total_income df).
      { rewrite map_map. apply groupby_filtered_total. }
      assert (Hexp : Qsum (map FinanceCore.t_expense (map FinanceCore.trend_row groups))
                     == FinanceCore.total_expenses df).
      { rewrite map_map. apply groupby_filtered_total. }
    split; [|split; [|split; [exact Hinc | split; [exact Hexp|]]]].
    + rewrite map_map. apply groupby_sorted.
    + apply Forall_forall. intros r Hr. apply in_map_iff in Hr.
        destruct Hr as (g & <- & _). reflexivity.
    + rewrite <- Hinc, <- Hexp. rewrite !map_map.
        apply (Qsum_map_minus
                 (fun g => FinanceCore.t_income (FinanceCore.trend_row g))
                 (fun g => FinanceCore.t_expense (FinanceCore.trend_row g))).
Qed.

Lemma spending_trends_add_up_witness :
  exists tr : FinanceCore.SpendingTrends,
    FinanceCore.get_spending_trends iso_period_M (fun _ => "Tuesday")
      (Examples.fm_of [Examples.fc_salary; Examples.fc_food; Examples.fc_bills])
    = Some tr
    /\ Qsum (map FinanceCore.t_savings (FinanceCore.monthly_trends tr))
       == FinanceCore.total_income
            [Examples.fc_salary; Examples.fc_food; Examples.fc_bills]
          - FinanceCore.total_expenses
              [Examples.fc_salary; Examples.fc_food; Examples.fc_bills].
Proof.
  eexists. split; [reflexivity|].
  destruct (spending_trends_add_up iso_period_M (fun _ => "Tuesday")
              (Examples.fm_of [Examples.fc_salary; Examples.fc_food;
                               Examples.fc_bills])) as [_ H].
  apply (H _ eq_refl).
Defined.

(* ================================================================== *)
(** * The regression forecast *)

Lemma Qmax'_ge_l (x y : Q) : x <= Qmax' x y.
Proof.
  unfold Qmax'. destruct (Qltb x y) eqn:E.
  - apply Qltb_lt in E. apply Qlt_le_weak. exact E.
  - apply Qle_refl.
Qed.

Lemma Qmax'_mono_r (x a b : Q) : a <= b -> Qmax' x a <= Qmax' x b.
Proof.
  intro H. unfold Qmax'.
  destruct (Qltb x a) eqn:Ea; destruct (Qltb x b) eqn:Eb;
    try apply Qltb_lt in Ea; try apply Qltb_lt in Eb;
    try apply Qltb_ge in Ea; try apply Qltb_ge in Eb; lra.
Qed.

Lemma map_fst_combine_map {A B : Type} (g : A -> B) (l : list A) :
  map fst (combine l (map g l)) = l.
Proof. induction l as [|x l IH]; simpl; [reflexivity | f_equal; exact IH]. Qed.

Lemma last_map_seq {B : Type} (g : nat -> B) (n m : nat) (d : B) :
  last (map g (seq n (S m))) d = g (n + m)%nat.
Proof.
  revert n. induction m as [|m IH]; intro n.
  - simpl. f_equal. lia.
  - change (seq n (S (S m))) with (n :: seq (S n) (S m)).
    cbn [map]. replace (n + S m)%nat with (S n + m)%nat by lia.
    rewrite <- IH. remember (map g (seq (S n) (S m))) as l eqn:El.
    destruct l; [discriminate El | reflexivity].
Qed.

Lemma monthly_balance_total (tpm : string -> Z) (df : list FinanceCore.Transaction) :
  Qsum (FinanceCore.monthly_balance tpm df)
  == FinanceCore.total_income df - FinanceCore.total_expenses df.
Proof.
  unfold FinanceCore.monthly_balance, FinanceCore.total_income,
    FinanceCore.total_expenses.
  rewrite (Qsum_map_minus
             (fun g => Qsum (map FinanceCore.amount
                               (filter FinanceCore.is_income (snd g))))
             (fun g => Qsum (map FinanceCore.amount
                               (filter FinanceCore.is_expense (snd g))))).
  rewrite !groupby_filtered_total. reflexivity.
Qed.

(** X15: A forecast returned by [predict_future_balance] rests on at least
    three transactions in at least two monthly buckets.  It has one
    prediction per requested month, numbered on from the number of
    buckets; no predicted balance or confidence bound is negative, and
    (for a non-negative square root) the bounds enclose the prediction.
    The trend is "increasing" exactly when the fitted slope is positive
    and at least two months are requested, and "decreasing" otherwise.
    The monthly balances the line is fitted to add up to the net balance. *)
Theorem predict_future_balance_shape :
  forall (to_period_M : string -> Z) (np_sqrt : Q -> Q)
         (fm : FinanceCore.FinanceManager) (months : nat)
         (f : FinanceCore.Forecast),
    FinanceCore.predict_future_balance to_period_M np_sqrt fm months = Ok (Some f) ->
    let y := FinanceCore.monthly_balance to_period_M (FinanceCore.transactions fm) in
    let n := List.length y in
    (3 <= List.length (FinanceCore.transactions fm))%nat
    /\ (2 <= n)%nat
    /\ map FinanceCore.p_month (FinanceCore.predictions f) = seq n months
    /\ Forall (fun p => 0 <= FinanceCore.predicted_balance p
                        /\ 0 <= FinanceCore.confidence_low p
                        /\ 0 <= FinanceCore.confidence_high p)
              (FinanceCore.predictions f)
    /\ ((forall x, 0 <= np_sqrt x) ->
        Forall (fun p => FinanceCore.confidence_low p <= FinanceCore.predicted_balance p
                         /\ FinanceCore.predicted_balance p
                            <= FinanceCore.confidence_high p)
               (FinanceCore.predictions f))
    /\ (FinanceCore.current_trend f = "increasing"
        <-> (2 <= months)%nat /\ 0 < fst (FinanceCore.fit (FinanceCore.month_index n) y))
    /\ (FinanceCore.current_trend f = "increasing"
        \/ FinanceCore.current_trend f = "decreasing")
    /\ Qsum y == FinanceCore.total_income (FinanceCore.transactions fm)
                 - FinanceCore.total_expenses (FinanceCore.transactions fm).
Proof.
  intros tpm np_sqrt fm months f. unfold FinanceCore.predict_future_balance.
  destruct (List.length (FinanceCore.transactions fm) <? 3)%nat eqn:E3;
    [discriminate|].
  set (y := FinanceCore.monthly_balance tpm (FinanceCore.transactions fm)).
  set (n := List.length y).
  destruct (n <? 2)%nat eqn:E2; [discriminate|].
  destruct months as [|m]; [discriminate|].
  set (model := FinanceCore.fit (FinanceCore.month_index n) y).
  set (g := fun mth : nat => FinanceCore.predict model (inject_Z (Z.of_nat mth))).
  set (margin := _ * (196 # 100)).
  set (future := seq n (S m)).
  match goal with
  | |- Ok (Some ?X) = _ -> _ =>
      intro H; assert (Hf : f = X) by congruence; rewrite Hf; clear H Hf
  end.
  cbv zeta.
  unfold FinanceCore.predictions, FinanceCore.current_trend. cbv beta iota.
  apply Nat.ltb_ge in E3. apply Nat.ltb_ge in E2.
  split; [exact E3 | split; [exact E2 | split; [|split; [|split; [|split; [|split]]]]]].
  - rewrite map_map. unfold FinanceCore.p_month. cbv beta iota.
    apply (map_fst_combine_map g).
  - apply Forall_forall. intros p Hp. apply in_map_iff in Hp.
    destruct Hp as (mp & <- & _). cbn.
    repeat split; apply Qmax'_ge_l.
  - intro Hsqrt. apply Forall_forall. intros p Hp. apply in_map_iff in Hp.
    destruct Hp as (mp & <- & _). cbn.
    assert (Hm : 0 <= margin).
    { unfold margin. apply Qmult_le_0_compat; [apply Hsqrt | discriminate]. }
    split; apply Qmax'_mono_r; lra.
  - fold g. unfold future. rewrite last_map_seq. cbn [seq map hd].
    assert (Hdiff : g (n + m)%nat - g n == fst model * inject_Z (Z.of_nat m)).
    { unfold g, FinanceCore.predict. rewrite Nat2Z.inj_add, inject_Z_plus. ring. }
    assert (Hm0 : 0 <= inject_Z (Z.of_nat m)).
    { change 0 with (inject_Z 0). rewrite <- Zle_Qle. lia. }
    destruct (Qltb (g n) (g (n + m)%nat)) eqn:Et.
    + apply Qltb_lt in Et. split; [intros _ | reflexivity].
      assert (Hprod : 0 < fst model * inject_Z (Z.of_nat m)) by (rewrite <- Hdiff; lra).
      destruct m as [|m'].
      * exfalso. change (inject_Z (Z.of_nat 0)) with 0 in Hprod. lra.
      * split; [lia|].
        assert (H1 : 1 <= inject_Z (Z.of_nat (S m'))).
        { change 1 with (inject_Z 1). rewrite <- Zle_Qle. lia. }
        apply Qnot_le_lt. intro Hle.
        assert (fst model * inject_Z (Z.of_nat (S m')) <= 0) by nra. lra.
    + apply Qltb_ge in Et. split; [discriminate|]. intros [Hm Hpos]. exfalso.
      assert (H1 : 1 <= inject_Z (Z.of_nat m)).
      { change 1 with (inject_Z 1). rewrite <- Zle_Qle. lia. }
      assert (0 < fst model * inject_Z (Z.of_nat m)) by nra. lra.
  - destruct (Qltb _ _); auto.
  - apply monthly_balance_total.
Qed.

Lemma predict_future_balance_shape_witness :
  exists f : FinanceCore.Forecast,
    FinanceCore.predict_future_balance iso_period_M Examples.sqrt_newton
      (Examples.fm_of Examples.fc_two_months) 3 = Ok (Some f)
    /\ map FinanceCore.p_month (FinanceCore.predictions f) = [2; 3; 4]%nat.
Proof.
  eexists. split; [vm_compute; reflexivity|].
  destruct (predict_future_balance_shape iso_period_M Examples.sqrt_newton
              (Examples.fm_of Examples.fc_two_months) 3 _ eq_refl)
    as (_ & _ & Hmonths & _).
  exact Hmonths.
Defined.

Lemma Qltb_compat_r (x a b : Q) : a == b -> Qltb x a = Qltb x b.
Proof.
  intro H. destruct (Qltb x b) eqn:E.
  - apply Qltb_lt. apply Qltb_lt in E. rewrite H. exact E.
  - apply Qltb_ge. apply Qltb_ge in E. rewrite H. exact E.
Qed.

Lemma Qmax'_compat_r (x a b : Q) : a == b -> Qmax' x a == Qmax' x b.
Proof.
  intro H. unfold Qmax'. rewrite (Qltb_compat_r x a b H).
  destruct (Qltb x b); [exact H | reflexivity].
Qed.

Lemma fit_two_points (y0 y1 : Q) :
  fst (FinanceCore.fit (FinanceCore.month_index 2) [y0; y1]) == y1 - y0
  /\ snd (FinanceCore.fit (FinanceCore.month_index 2) [y0; y1]) == y0.
Proof.
  unfold FinanceCore.fit, FinanceCore.month_index, Qmean. simpl.
  split; field.
Qed.

Lemma map_combine_map {A B C : Type} (g : A -> B) (h : A * B -> C) (l : list A) :
  map h (combine l (map g l)) = map (fun x => h (x, g x)) l.
Proof. induction l as [|x l IH]; simpl; [reflexivity | f_equal; exact IH]. Qed.

Lemma Forall2_map_seq {C : Type} (P : C -> nat -> Prop) (F : nat -> C)
  (a b k : nat) :
  (forall j, (j < k)%nat -> P (F (a + j)%nat) (b + j)%nat) ->
  Forall2 P (map F (seq a k)) (seq b k).
Proof.
  revert a b. induction k as [|k IH]; intros a b H; simpl; [constructor|].
  constructor.
  - specialize (H 0%nat). rewrite !Nat.add_0_r in H. apply H. lia.
  - apply IH. intros j Hj. replace (S a + j)%nat with (a + S j)%nat by lia.
    replace (S b + j)%nat with (b + S j)%nat by lia. apply H. lia.
Qed.

(** X16: With exactly two monthly buckets the fitted line passes through both
    balances: the fit is reported as perfect ([r_squared] is 1) and the
    forecast continues the step from the first to the second month, month
    after month, clamped at zero. *)
Theorem two_bucket_forecast_is_linear :
  forall (to_period_M : string -> Z) (np_sqrt : Q -> Q)
         (fm : FinanceCore.FinanceManager) (months : nat) (y0 y1 : Q),
    (3 <= List.length (FinanceCore.transactions fm))%nat ->
    FinanceCore.monthly_balance to_period_M (FinanceCore.transactions fm) = [y0; y1] ->
    (0 < months)%nat ->
    exists f : FinanceCore.Forecast,
      FinanceCore.predict_future_balance to_period_M np_sqrt fm months = Ok (Some f)
      /\ FinanceCore.r_squared f == 1
      /\ Forall2 (fun p i =>
                    FinanceCore.p_month p = (2 + i)%nat
                    /\ FinanceCore.predicted_balance p
                       == Qmax' 0 (y1 + (y1 - y0) * inject_Z (Z.of_nat (S i))))
                 (FinanceCore.predictions f) (seq 0 months).
Proof.
  intros tpm np_sqrt fm months y0 y1 H3 Hy Hm.
  unfold FinanceCore.predict_future_balance.
  apply Nat.ltb_ge in H3. rewrite H3, Hy.
  change (List.length [y0; y1]) with 2%nat. cbv beta iota zeta.
  change (2 <? 2)%nat with false. cbv iota.
  destruct months as [|m]; [lia|].
  destruct (fit_two_points y0 y1) as [Hc Hi].
  revert Hc Hi.
  generalize (FinanceCore.fit (FinanceCore.month_index 2) [y0; y1]).
  intros model Hc Hi.
  eexists. split; [reflexivity|].
  unfold FinanceCore.r_squared, FinanceCore.predictions. cbv beta iota. split.
  - unfold FinanceCore.score.
    match goal with
    | |- (if Qeq_bool ?tot 0 then (if Qeq_bool ?res 0 then _ else _) else _) == 1 =>
        assert (Hres : res == 0)
    end.
    { unfold FinanceCore.month_index, FinanceCore.predict. simpl.
      rewrite Hc, Hi. ring. }
    apply Qeq_bool_iff in Hres. rewrite Hres. apply Qeq_bool_iff in Hres.
    destruct (Qeq_bool _ 0); [reflexivity|]. rewrite Hres. unfold Qdiv. ring.
  - rewrite map_combine_map. apply Forall2_map_seq.
    intros j Hj. cbn [FinanceCore.p_month FinanceCore.predicted_balance fst snd].
    split; [reflexivity|].
    apply Qmax'_compat_r. unfold FinanceCore.predict. rewrite Hc, Hi.
    rewrite !Nat2Z.inj_succ, Nat2Z.inj_add. unfold Z.succ.
    rewrite !inject_Z_plus. cbn [Nat.add].
    change (inject_Z (Z.of_nat 2)) with 2. change (inject_Z 1) with 1. ring.
Qed.

Lemma two_bucket_forecast_is_linear_witness :
  exists f : FinanceCore.Forecast,
    FinanceCore.predict_future_balance iso_period_M Examples.sqrt_newton
      (Examples.fm_of Examples.fc_two_months) 2 = Ok (Some f)
    /\ FinanceCore.r_squared f == 1.
Proof.
  destruct (two_bucket_forecast_is_linear iso_period_M Examples.sqrt_newton
              (Examples.fm_of Examples.fc_two_months) 2 (0 + 1000 - (0 + 300))
              (0 + 1200 - 0)) as (f & Hf & Hr & _).
  - simpl. lia.
  - reflexivity.
  - lia.
  - exists f. split; assumption.
Defined.

(* ================================================================== *)
(** * Category analysis and savings opportunities *)

Lemma Qsum_perm (l l' : list Q) : Permutation l l' -> Qsum l == Qsum l'.
Proof.
  induction 1 as [|x l l' _ IH|x y l|l l' l'' _ IH1 _ IH2]; simpl.
  - reflexivity.
  - rewrite IH. reflexivity.
  - ring.
  - rewrite IH1. exact IH2.
Qed.

Section GroupSizes.
Context {K R : Type}.
Variable cmp : K -> K -> comparison.
Variable key : R -> K.

Lemma group_insert_sizes (r : R) (g : list (K * list R)) :
  list_sum (map (fun x => List.length (snd x)) (group_insert cmp key r g))
  = S (list_sum (map (fun x => List.length (snd x)) g)).
Proof.
  induction g as [|[k rows] g IH]; simpl; [reflexivity|].
  destruct (cmp (key r) k); simpl.
  - rewrite length_app. simpl. lia.
  - lia.
  - rewrite IH. lia.
Qed.

Lemma groupby_sizes (df : list R) :
  list_sum (map (fun x => List.length (snd x)) (groupby cmp key df))
  = List.length df.
Proof.
  unfold groupby.
  assert (H : forall g,
             list_sum (map (fun x => List.length (snd x))
                           (fold_left (fun g r => group_insert cmp key r g) df g))
             = (list_sum (map (fun x => List.length (snd x)) g)
                + List.length df)%nat).
  { induction df as [|r df IH]; intro g; simpl; [lia|].
    rewrite IH, group_insert_sizes. lia. }
  apply H.
Qed.

Lemma group_insert_nonempty (r : R) (g : list (K * list R)) :
  Forall (fun x => snd x <> []) g ->
  Forall (fun x => snd x <> []) (group_insert cmp key r g).
Proof.
  induction 1 as [|[k rows] g Hk Hg IH]; simpl.
  - constructor; [discriminate | constructor].
  - destruct (cmp (key r) k).
    + constructor; [|exact Hg]. simpl. intro H. apply app_eq_nil in H.
      destruct H as [_ H]. discriminate H.
    + constructor; [discriminate|]. constructor; assumption.
    + constructor; assumption.
Qed.

Hypothesis cmp_eq : forall a b : K, cmp a b = Eq -> a = b.

Lemma group_insert_key (r : R) (g : list (K * list R)) :
  Forall (fun x => Forall (fun y => key y = fst x) (snd x)) g ->
  Forall (fun x => Forall (fun y => key y = fst x) (snd x))
         (group_insert cmp key r g).
Proof.
  induction 1 as [|[k rows] g Hk Hg IH]; simpl.
  - repeat constructor.
  - destruct (cmp (key r) k) eqn:E.
    + constructor; [|exact Hg]. simpl in *. apply Forall_app. split; [exact Hk|].
      constructor; [apply cmp_eq; exact E | constructor].
    + constructor; [repeat constructor|]. constructor; assumption.
    + constructor; assumption.
Qed.

Lemma groupby_key (df : list R) :
  Forall (fun x => Forall (fun y => key y = fst x) (snd x)) (groupby cmp key df).
Proof.
  unfold groupby.
  assert (H : forall g,
             Forall (fun x => Forall (fun y => key y = fst x) (snd x)) g ->
             Forall (fun x => Forall (fun y => key y = fst x) (snd x))
                    (fold_left (fun g r => group_insert cmp key r g) df g)).
  { induction df as [|r df IH]; intros g Hg; simpl; [exact Hg|].
    apply IH. apply group_insert_key. exact Hg. }
  apply H. constructor.
Qed.

Lemma groupby_nonempty (df : list R) :
  Forall (fun x => snd x <> []) (groupby cmp key df).
Proof.
  unfold groupby.
  assert (H : forall g, Forall (fun x => snd x <> []) g ->
                        Forall (fun x => snd x <> [])
                               (fold_left (fun g r => group_insert cmp key r g) df g)).
  { induction df as [|r df IH]; intros g Hg; simpl; [exact Hg|].
    apply IH. apply group_insert_nonempty. exact Hg. }
  apply H. constructor.
Qed.
End GroupSizes.

Lemma StronglySorted_map {A B : Type} (f : A -> B) (R : B -> B -> Prop)
  (l : list A) :
  StronglySorted (fun a b => R (f a) (f b)) l -> StronglySorted R (map f l).
Proof.
  induction 1 as [|x l Hs IH Hx]; simpl; constructor; auto.
  rewrite Forall_forall in *. intros y Hy. apply in_map_iff in Hy.
  destruct Hy as (z & <- & Hz). apply Hx. exact Hz.
Qed.

Lemma list_sum_perm (l l' : list nat) :
  Permutation l l' -> list_sum l = list_sum l'.
Proof. induction 1; simpl; lia. Qed.

Lemma by_sum_desc_perm (g : list (string * list AIEngine.Row)) :
  Permutation g (AIEngine.by_sum_desc g).
Proof. apply sorted_desc_perm. Qed.

Lemma by_sum_desc_sorted (g : list (string * list AIEngine.Row)) :
  StronglySorted
    (fun a b => Qltb (AIEngine.group_sum a) (AIEngine.group_sum b) = false)
    (AIEngine.by_sum_desc g).
Proof.
  apply (sorted_desc_sorted
           (fun y x => Qltb (AIEngine.group_sum y) (AIEngine.group_sum x))).
  - intros a b H. apply Qltb_lt in H. apply Qltb_ge. lra.
  - intros a b c H1 H2. apply Qltb_ge in H1. apply Qltb_ge in H2.
    apply Qltb_ge. lra.
Qed.

Lemma Qmean_times_count (l : list Q) :
  l <> [] -> Qmean l * inject_Z (Z.of_nat (List.length l)) == Qsum l.
Proof.
  intro H. unfold Qmean. field.
  change 0 with (inject_Z 0). rewrite inject_Z_injective.
  destruct l; [congruence | simpl; lia].
Qed.

(** X17: [analyze_categories] is empty exactly when there is no expense.
    Otherwise it lists every expense type once per group, largest sum
    first; the sums add up to the total expenses and the counts to the
    number of expenses; each group counts at least one expense and its
    mean times its count is its sum. *)
Theorem analyze_categories_accounts :
  forall df : list AIEngine.Row,
    (AIEngine.analyze_categories df = None <-> filter AIEngine.is_expense df = [])
    /\ forall rows : list AIEngine.CategoryRow,
        AIEngine.analyze_categories df = Some rows ->
        Qsum (map AIEngine.c_sum rows) == AIEngine.total_expenses df
        /\ list_sum (map AIEngine.c_count rows)
           = List.length (filter AIEngine.is_expense df)
        /\ StronglySorted
             (fun a b => Qltb (AIEngine.c_sum a) (AIEngine.c_sum b) = false) rows
        /\ Forall (fun r => (0 < AIEngine.c_count r)%nat
                            /\ AIEngine.c_mean r
                               * inject_Z (Z.of_nat (AIEngine.c_count r))
                               == AIEngine.c_sum r) rows
        /\ (forall r : AIEngine.Row,
               In r df -> AIEngine.category r = "Expense" ->
               In (AIEngine.type r) (map AIEngine.c_type rows)).
Proof.
  intro df. unfold AIEngine.analyze_categories. split.
  - destruct (filter AIEngine.is_expense df); split; intro H;
      try reflexivity; discriminate H.
  - destruct (filter AIEngine.is_expense df) as [|r0 l0] eqn:Ef; [discriminate|].
    intros rows H. injection H as <-.
    pose proof (by_sum_desc_perm (AIEngine.category_groups df)) as Hperm.
    set (sorted := AIEngine.by_sum_desc (AIEngine.category_groups df)) in *.
    split; [|split; [|split; [|split]]].
    + rewrite map_map. cbn [AIEngine.c_sum].
      rewrite <- (Qsum_perm _ _ (Permutation_map AIEngine.group_sum Hperm)).
      unfold AIEngine.category_groups, AIEngine.total_expenses.
      rewrite <- (Qplus_0_l (Qsum (map AIEngine.amount _))).
      exact (fold_group_insert_total String.compare AIEngine.type AIEngine.amount
               (filter AIEngine.is_expense df) []).
    + rewrite map_map. cbn [AIEngine.c_count].
      rewrite <- (list_sum_perm _ _
                    (Permutation_map (fun x => List.length (snd x)) Hperm)).
      rewrite <- Ef.
      exact (groupby_sizes String.compare AIEngine.type
               (filter AIEngine.is_expense df)).
    + apply (StronglySorted_map
               (fun g => {| AIEngine.c_type := fst g;
                            AIEngine.c_sum := AIEngine.group_sum g;
                            AIEngine.c_count := List.length (snd g);
                            AIEngine.c_mean := Qmean (map AIEngine.amount (snd g));
                            AIEngine.c_percentage := _ |})
               (fun a b => Qltb (AIEngine.c_sum a) (AIEngine.c_sum b) = false)).
      apply by_sum_desc_sorted.
    + apply Forall_forall. intros row Hrow. apply in_map_iff in Hrow.
      destruct Hrow as (g & <- & Hg). cbn.
      apply (Permutation_in g (Permutation_sym Hperm)) in Hg.
      pose proof (groupby_nonempty String.compare AIEngine.type
                    (filter AIEngine.is_expense df)) as Hne.
      rewrite Forall_forall in Hne. specialize (Hne g Hg).
      split.
      * destruct (snd g); [congruence | simpl; lia].
      * rewrite <- (length_map AIEngine.amount (snd g)).
        apply Qmean_times_count. destruct (snd g); [congruence | discriminate].
    + intros r Hin Hcat. rewrite map_map. cbn [AIEngine.c_type].
      assert (Hr : In r (filter AIEngine.is_expense df)).
      { apply filter_In. split; [exact Hin|].
        unfold AIEngine.is_expense. rewrite Hcat. reflexivity. }
      destruct (groupby_In String.compare AIEngine.type _ r Hr) as (g & Hg & Hrg).
      assert (Hkey : AIEngine.type r = fst g).
      { pose proof (groupby_key String.compare AIEngine.type
                      String.compare_eq_iff
                      (filter AIEngine.is_expense df)) as Hk.
        rewrite Forall_forall in Hk. specialize (Hk g Hg).
        rewrite Forall_forall in Hk. exact (Hk r Hrg). }
      rewrite Hkey. apply in_map. exact (Permutation_in g Hperm Hg).
Qed.

Lemma list_sum_In_le {A : Type} (f : A -> nat) (x : A) (l : list A) :
  In x l -> (f x <= list_sum (map f l))%nat.
Proof.
  induction l as [|y l IH]; simpl; [intros []|].
  intros [<- | H]; [lia|]. specialize (IH H). lia.
Qed.

Lemma Qsum_map_filter_le {A : Type} (f : A -> Q) (p : A -> bool) (l : list A) :
  (forall x, In x l -> 0 <= f x) ->
  Qsum (map f (filter p l)) <= Qsum (map f l).
Proof.
  induction l as [|x l IH]; simpl; intro H; [apply Qle_refl|].
  assert (Hx : 0 <= f x) by (apply H; left; reflexivity).
  assert (Hl : Qsum (map f (filter p l)) <= Qsum (map f l))
    by (apply IH; intros y Hy; apply H; right; exact Hy).
  destruct (p x); simpl; lra.
Qed.

Lemma Qsum_map_scale {A : Type} (f : A -> Q) (c : Q) (l : list A) :
  Qsum (map (fun x => f x * c) l) == Qsum (map f l) * c.
Proof.
  induction l as [|x l IH]; simpl; [ring|]. rewrite IH. ring.
Qed.

Lemma category_groups_total (df : list AIEngine.Row) :
  Qsum (map AIEngine.group_sum (AIEngine.category_groups df))
  == AIEngine.total_expenses df.
Proof.
  unfold AIEngine.category_groups, AIEngine.total_expenses.
  rewrite <- (Qplus_0_l (Qsum (map AIEngine.amount _))).
  exact (fold_group_insert_total String.compare AIEngine.type AIEngine.amount
           (filter AIEngine.is_expense df) []).
Qed.

Lemma category_groups_nonneg (df : list AIEngine.Row) :
  (forall r, In r df -> AIEngine.category r = "Expense" -> 0 <= AIEngine.amount r) ->
  forall g, In g (AIEngine.category_groups df) -> 0 <= AIEngine.group_sum g.
Proof.
  intros H g Hg. unfold AIEngine.group_sum. apply Qsum_nonneg.
  apply Forall_forall. intros a Ha. apply in_map_iff in Ha.
  destruct Ha as (r & <- & Hr).
  pose proof (groupby_incl _ _ _ _ _ Hg Hr) as Hin.
  apply filter_In in Hin. destruct Hin as [Hin He].
  apply H; [exact Hin|]. apply String.eqb_eq. exact He.
Qed.

(** X18: When no expense is negative, every opportunity reported by
    [identify_savings_opportunities] has a non-negative potential saving,
    and together they never exceed 45 percent of the total expenses (30
    percent of the subscriptions plus 15 percent of the frequent
    types). *)
Theorem savings_opportunities_bounded :
  forall (mentions_subscription : string -> bool) (fmt_amount0 : Q -> string)
         (df : list AIEngine.Row),
    (forall r, In r df -> AIEngine.category r = "Expense" ->
               0 <= AIEngine.amount r) ->
    let ops := AIEngine.identify_savings_opportunities
                 mentions_subscription fmt_amount0 df in
    Forall (fun o => 0 <= AIEngine.potential_savings o) ops
    /\ Qsum (map AIEngine.potential_savings ops)
       <= (45 # 100) * AIEngine.total_expenses df.
Proof.
  intros m fmt df Hpos ops.
  assert (Hexp : forall r, In r (filter AIEngine.is_expense df) ->
                           0 <= AIEngine.amount r).
  { intros r Hr. apply filter_In in Hr. destruct Hr as [Hin He].
    apply Hpos; [exact Hin|]. apply String.eqb_eq. exact He. }
  assert (Hsub_le :
            Qsum (map AIEngine.amount
                      (filter (fun r => m (AIEngine.description r))
                              (filter AIEngine.is_expense df)))
            <= AIEngine.total_expenses df)
    by (apply Qsum_map_filter_le; exact Hexp).
  assert (Hsub_pos :
            0 <= Qsum (map AIEngine.amount
                           (filter (fun r => m (AIEngine.description r))
                                   (filter AIEngine.is_expense df)))).
  { apply Qsum_nonneg. apply Forall_forall. intros a Ha.
    apply in_map_iff in Ha. destruct Ha as (r & <- & Hr).
    apply filter_In in Hr. apply Hexp. apply Hr. }
  assert (Hgrp := category_groups_nonneg df Hpos).
  assert (Hhf_le :
            Qsum (map AIEngine.group_sum
                      (filter (fun g => (8 <? List.length (snd g))%nat)
                              (AIEngine.category_groups df)))
            <= AIEngine.total_expenses df).
  { rewrite <- category_groups_total. apply Qsum_map_filter_le. exact Hgrp. }
  assert (Hhf_pos :
            Forall (fun o => 0 <= AIEngine.potential_savings o)
                   (map (AIEngine.high_frequency_opportunity fmt)
                        (filter (fun g => (8 <? List.length (snd g))%nat)
                                (AIEngine.category_groups df)))).
  { apply Forall_forall. intros o Ho. apply in_map_iff in Ho.
    destruct Ho as (g & <- & Hg). apply filter_In in Hg. simpl.
    pose proof (Hgrp g (proj1 Hg)). lra. }
  assert (Hhf_sum :
            Qsum (map AIEngine.potential_savings
                      (map (AIEngine.high_frequency_opportunity fmt)
                           (filter (fun g => (8 <? List.length (snd g))%nat)
                                   (AIEngine.category_groups df))))
            == Qsum (map AIEngine.group_sum
                         (filter (fun g => (8 <? List.length (snd g))%nat)
                                 (AIEngine.category_groups df))) * (15 # 100)).
  { rewrite map_map. cbn [AIEngine.high_frequency_opportunity
                            AIEngine.potential_savings].
    apply Qsum_map_scale. }
  assert (Htot : 0 <= AIEngine.total_expenses df) by lra.
  unfold ops, AIEngine.identify_savings_opportunities.
  destruct (filter AIEngine.is_expense df) as [|r0 l0] eqn:Ef.
  { split; [constructor|]. simpl. lra. }
  unfold AIEngine.subscription_opportunity.
  destruct (filter (fun r => m (AIEngine.description r)) (r0 :: l0))
    as [|s0 ss] eqn:Es.
  - cbn [app]. split; [exact Hhf_pos|]. lra.
  - cbn [app].
    set (subs := Qsum (map AIEngine.amount (s0 :: ss))) in *.
    split.
    + constructor; [|exact Hhf_pos]. cbn [AIEngine.potential_savings]. lra.
    + cbn [map AIEngine.potential_savings].
      match goal with |- Qsum (?x :: ?l) <= _ => change (Qsum (x :: l)) with (x + Qsum l) end.
      lra.
Qed.

Lemma savings_opportunities_bounded_witness :
  (forall r, In r Examples.streaming -> AIEngine.category r = "Expense" ->
             0 <= AIEngine.amount r)
  /\ let ops := AIEngine.identify_savings_opportunities
                  Examples.mentions (fun _ => "") Examples.streaming in
     Forall (fun o => 0 <= AIEngine.potential_savings o) ops
     /\ Qsum (map AIEngine.potential_savings ops)
        <= (45 # 100) * AIEngine.total_expenses Examples.streaming.
Proof.
  assert (H : forall r, In r Examples.streaming ->
                        AIEngine.category r = "Expense" ->
                        0 <= AIEngine.amount r).
  { intros r Hr _. simpl in Hr.
    repeat (destruct Hr as [<- | Hr]; [simpl; discriminate|]).
    destruct Hr. }
  split; [exact H|].
  exact (savings_opportunities_bounded Examples.mentions (fun _ => "")
           Examples.streaming H).
Defined.

(** X19: With at most eight expenses, none of which mentions a subscription,
    [identify_savings_opportunities] reports nothing. *)
Theorem savings_opportunities_none :
  forall (mentions_subscription : string -> bool) (fmt_amount0 : Q -> string)
         (df : list AIEngine.Row),
    (List.length (filter AIEngine.is_expense df) <= 8)%nat ->
    (forall r, In r df -> AIEngine.category r = "Expense" ->
               mentions_subscription (AIEngine.description r) = false) ->
    AIEngine.identify_savings_opportunities mentions_subscription fmt_amount0 df
    = [].
Proof.
  intros m fmt df Hlen Hno.
  unfold AIEngine.identify_savings_opportunities.
  assert (Hsub : filter (fun r => m (AIEngine.description r))
                        (filter AIEngine.is_expense df) = []).
  { apply filter_none. intros r Hr. apply filter_In in Hr.
    destruct Hr as [Hin He]. apply Hno; [exact Hin|].
    apply String.eqb_eq. exact He. }
  assert (Hhf : filter (fun g => (8 <? List.length (snd g))%nat)
                       (AIEngine.category_groups df) = []).
  { apply filter_none. intros g Hg. apply Nat.ltb_ge.
    pose proof (list_sum_In_le (fun x => List.length (snd x)) g _ Hg) as Hle.
    unfold AIEngine.category_groups in Hle.
    rewrite (groupby_sizes String.compare AIEngine.type) in Hle. lia. }
  destruct (filter AIEngine.is_expense df) as [|r0 l0] eqn:Ef; [reflexivity|].
  unfold AIEngine.subscription_opportunity. rewrite Hsub, Hhf. reflexivity.
Qed.

Lemma savings_opportunities_none_witness :
  AIEngine.identify_savings_opportunities Examples.mentions (fun _ => "")
    Examples.six_expenses = [].
Proof.
  apply savings_opportunities_none.
  - simpl. lia.
  - intros r Hr _. simpl in Hr.
    repeat (destruct Hr as [<- | Hr]; [reflexivity|]). destruct Hr.
Defined.

(* ================================================================== *)
(** * Investment advice and the combined analysis *)

(** X20: Whatever the risk tolerance, the recommended allocations add up to
    100; an unknown tolerance gets the medium portfolio; the confidences
    are the successive random draws; and the horizon is long-term exactly
    for the aggressive portfolio. *)
Theorem investment_recommendations_allocate_everything :
  forall (uniform_draw : nat -> Q) (risk_tolerance : string),
    let recs := AIEngine.generate_investment_recommendations
                  uniform_draw risk_tolerance in
    Qsum (map AIEngine.allocation recs) == 100
    /\ map AIEngine.r_confidence recs
       = map uniform_draw (seq 0 (List.length recs))
    /\ (risk_tolerance <> "conservative" -> risk_tolerance <> "aggressive" ->
        recs = AIEngine.generate_investment_recommendations uniform_draw "medium")
    /\ (Forall (fun r => AIEngine.time_horizon r = "long-term") recs
        <-> risk_tolerance = "aggressive")
    /\ (Forall (fun r => AIEngine.time_horizon r = "medium-term") recs
        <-> risk_tolerance <> "aggressive").
Proof.
  intros u risk recs. unfold recs, AIEngine.generate_investment_recommendations,
    AIEngine.base_recommendations.
  destruct (String.eqb risk "conservative") eqn:Ec;
    [|destruct (String.eqb risk "aggressive") eqn:Ea].
  - apply String.eqb_eq in Ec. subst risk. cbn.
    split; [reflexivity|]. split; [reflexivity|].
    split; [congruence|]. split; split.
    + intro H. inversion H. discriminate.
    + discriminate.
    + discriminate.
    + intros _. repeat constructor.
  - apply String.eqb_eq in Ea. subst risk. cbn.
    split; [reflexivity|]. split; [reflexivity|].
    split; [congruence|]. split; split.
    + reflexivity.
    + intros _. repeat constructor.
    + intro H. inversion H. discriminate.
    + congruence.
  - apply String.eqb_neq in Ea. cbn.
    split; [reflexivity|]. split; [reflexivity|].
    split; [reflexivity|]. split; split.
    + intro H. inversion H. discriminate.
    + congruence.
    + intros _. exact Ea.
    + intros _. repeat constructor.
Qed.

(** X21: For a non-empty input without any expense, [analyze_spending_patterns]
    reports a stable trend, an empty forecast, no anomaly and no savings
    opportunity; its category analysis is the empty dict, where the
    default analysis of an empty input has an empty list. *)
Theorem analysis_without_expenses :
  forall (to_period_M : string -> Z) (np_sqrt : Q -> Q)
         (strftime_after : Z -> string) (strftime_ymd : string -> string)
         (mentions_subscription : string -> bool)
         (fmt_amount0 : Q -> string) (transactions : list AIEngine.Row),
    transactions <> [] ->
    (forall r, In r transactions -> AIEngine.category r <> "Expense") ->
    AIEngine.analyze_spending_patterns to_period_M np_sqrt strftime_after
      strftime_ymd mentions_subscription fmt_amount0 transactions
    = {| AIEngine.monthly_trend :=
           {| AIEngine.trend := "stable"; AIEngine.change_percent := 0;
              AIEngine.current_month := None;
              AIEngine.average_monthly := None |};
         AIEngine.category_analysis := None;
         AIEngine.spending_forecast := [];
         AIEngine.anomalies := [];
         AIEngine.savings_opportunities := [] |}
    /\ AIEngine.category_analysis AIEngine.get_default_analysis = Some [].
Proof.
  intros tp sq sa ymd m fmt txns Hne Hno.
  split; [|reflexivity].
  assert (He : filter AIEngine.is_expense txns = []).
  { apply filter_none. intros r Hr. unfold AIEngine.is_expense.
    apply String.eqb_neq. apply Hno. exact Hr. }
  destruct txns as [|t0 ts]; [congruence|].
  unfold AIEngine.analyze_spending_patterns.
  unfold AIEngine.calculate_monthly_trend, AIEngine.monthly_expense_sums,
    AIEngine.analyze_categories, AIEngine.forecast_spending,
    AIEngine.detect_anomalies, AIEngine.identify_savings_opportunities.
  rewrite He. reflexivity.
Qed.

Lemma analysis_without_expenses_witness :
  AIEngine.analyze_spending_patterns iso_period_M Examples.sqrt_newton
    (fun _ => "2024-02") (fun d => d) Examples.mentions (fun _ => "")
    [Examples.row "2024-01-15" 5000 "Income" "Salary" "Monthly Salary"]
  = {| AIEngine.monthly_trend :=
         {| AIEngine.trend := "stable"; AIEngine.change_percent := 0;
            AIEngine.current_month := None;
            AIEngine.average_monthly := None |};
       AIEngine.category_analysis := None;
       AIEngine.spending_forecast := [];
       AIEngine.anomalies := [];
       AIEngine.savings_opportunities := [] |}
  /\ AIEngine.category_analysis AIEngine.get_default_analysis = Some [].
Proof.
  apply analysis_without_expenses.
  - discriminate.
  - intros r [<- | []]. discriminate.
Defined.

(* ================================================================== *)
(** * Health recommendations, growth score and the spending forecast *)

Lemma rint_near (x : Q) :
  inject_Z (rint x) - (1 # 2) <= x /\ x <= inject_Z (rint x) + (1 # 2).
Proof.
  unfold rint.
  pose proof (Qfloor_le x) as Hlo. pose proof (Qlt_floor x) as Hhi.
  rewrite inject_Z_plus in Hhi. change (inject_Z 1) with 1 in Hhi.
  destruct (Qltb (x - inject_Z (Qfloor x)) (1 # 2)) eqn:E1.
  - apply Qltb_lt in E1. revert Hlo Hhi E1.
    generalize (inject_Z (Qfloor x)). intros f Hlo Hhi E1. split; lra.
  - apply Qltb_ge in E1.
    assert (Hup : inject_Z (Qfloor x + 1) - (1 # 2) <= x
                  /\ x <= inject_Z (Qfloor x + 1) + (1 # 2)).
    { rewrite inject_Z_plus. change (inject_Z 1) with 1. revert Hlo Hhi E1.
      generalize (inject_Z (Qfloor x)). intros f Hlo Hhi E1. split; lra. }
    destruct (Qltb (1 # 2) (x - inject_Z (Qfloor x))) eqn:E2; [exact Hup|].
    apply Qltb_ge in E2.
    destruct (Z.even (Qfloor x)); [|exact Hup].
    revert Hlo Hhi E1 E2.
    generalize (inject_Z (Qfloor x)). intros f Hlo Hhi E1 E2. split; lra.
Qed.

Lemma py_round_1_near (x : Q) :
  py_round x 1 - (1 # 20) <= x /\ x <= py_round x 1 + (1 # 20).
Proof.
  unfold py_round. change (inject_Z (10 ^ Z.of_nat 1)) with (10 # 1).
  destruct (rint_near (x * (10 # 1))) as [Hlo Hhi]. revert Hlo Hhi.
  generalize (inject_Z (rint (x * (10 # 1)))). intros r Hlo Hhi.
  split.
  - assert (H : r / (10 # 1) == r * (1 # 10)) by (field). rewrite H. lra.
  - assert (H : r / (10 # 1) == r * (1 # 10)) by (field). rewrite H. lra.
Qed.

Lemma py_round_1_ge (a : Z) (x : Q) :
  inject_Z a <= x -> inject_Z a <= py_round x 1.
Proof.
  intro H. unfold py_round. change (inject_Z (10 ^ Z.of_nat 1)) with (10 # 1).
  assert (Hr : (a * 10 <= rint (x * (10 # 1)))%Z).
  { apply (rint_bounds (a * 10) (Qfloor (x * (10 # 1)) + 1)).
    - rewrite inject_Z_mult. change (inject_Z 10) with (10 # 1).
      revert H. generalize (inject_Z a). intros q H. lra.
    - apply Qlt_le_weak. apply Qlt_floor. }
  rewrite Zle_Qle, inject_Z_mult in Hr. change (inject_Z 10) with (10 # 1) in Hr.
  revert Hr. generalize (inject_Z (rint (x * (10 # 1)))), (inject_Z a).
  intros r q Hr.
  assert (E : r / (10 # 1) == r * (1 # 10)) by field. rewrite E. lra.
Qed.

(** X22: In a returned health score, the advice to increase the savings rate
    always comes with the advice to build an emergency fund; the advice to
    diversify is given exactly when the income comes from fewer than three
    types; and at most four recommendations are given. *)
Theorem health_recommendations_consistent :
  forall (to_period_M : string -> Z) (transactions : list AIEngine.Row)
         (b : AIEngine.Breakdown),
    AIEngine.breakdown
      (AIEngine.calculate_financial_health_score to_period_M transactions)
    = Some b ->
    let recs := AIEngine.recommendations
                  (AIEngine.calculate_financial_health_score
                     to_period_M transactions) in
    (In "Increase savings rate to at least 20% of income" recs ->
     In "Focus on building emergency fund" recs)
    /\ (In "Diversify income sources for better stability" recs
        <-> (nunique (map AIEngine.type (filter AIEngine.is_income transactions))
             < 3)%nat)
    /\ (List.length recs <= 4)%nat.
Proof.
  intros tp txns b Hb recs. unfold recs. clear recs. revert Hb.
  unfold AIEngine.calculate_financial_health_score.
  destruct txns as [|t0 ts]; [discriminate|].
  set (df := t0 :: ts).
  destruct (Qeq_bool (AIEngine.total_income df) 0); [discriminate|].
  intros _. cbn [AIEngine.recommendations].
  unfold AIEngine.generate_health_recommendations.
  cbn [AIEngine.b_savings_rate AIEngine.b_expense_ratio
       AIEngine.b_diversity_score AIEngine.b_savings_score].
  set (sr := (AIEngine.total_income df - AIEngine.total_expenses df)
             / AIEngine.total_income df * 100).
  set (er := AIEngine.total_expenses df / AIEngine.total_income df * 100).
  set (k := nunique (map AIEngine.type (filter AIEngine.is_income df))).
  assert (Hdiv : Qltb (py_round (AIEngine.calculate_diversity_score df) 1) 60
                 = true <-> (k < 3)%nat).
  { unfold AIEngine.calculate_diversity_score. fold k.
    rewrite Qltb_lt. split.
    - intro Hlt. destruct (Nat.lt_ge_cases k 3) as [Hk | Hk]; [exact Hk|].
      exfalso. apply (Qlt_not_le _ _ Hlt).
      apply (py_round_1_ge 60). apply Qmin'_glb; [|discriminate].
      assert (H3 : inject_Z 3 <= inject_Z (Z.of_nat k))
        by (rewrite <- Zle_Qle; lia).
      change (inject_Z 3) with 3 in H3. change (inject_Z 60) with 60.
      revert H3. generalize (inject_Z (Z.of_nat k)). intros q H3. lra.
    - intro Hk.
      destruct (py_round_1_near
                  (Qmin' (inject_Z (Z.of_nat k) * 20) 100)) as [Hlo _].
      assert (Hmin : Qmin' (inject_Z (Z.of_nat k) * 20) 100 <= 40).
      { assert (H2 : inject_Z (Z.of_nat k) <= inject_Z 2)
          by (rewrite <- Zle_Qle; lia).
        change (inject_Z 2) with 2 in H2.
        unfold Qmin'. destruct (Qltb 100 (inject_Z (Z.of_nat k) * 20)) eqn:E.
        - apply Qltb_lt in E.
          revert E H2. generalize (inject_Z (Z.of_nat k)). intros q E H2. lra.
        - revert H2. generalize (inject_Z (Z.of_nat k)). intros q H2. lra. }
      revert Hlo Hmin.
      generalize (py_round (Qmin' (inject_Z (Z.of_nat k) * 20) 100) 1),
                 (Qmin' (inject_Z (Z.of_nat k) * 20) 100).
      intros p q Hlo Hmin. lra. }
  assert (Hsav : Qltb (py_round sr 1) 20 = true ->
                 Qltb (py_round (AIEngine.savings_score_of sr) 1) 70 = true).
  { rewrite !Qltb_lt. intro Hlt.
    destruct (py_round_1_near sr) as [_ Hsr].
    destruct (py_round_1_near (AIEngine.savings_score_of sr)) as [Hlo _].
    assert (Hscore : AIEngine.savings_score_of sr <= sr * 2).
    { unfold AIEngine.savings_score_of, Qmin'.
      destruct (Qltb 100 (sr * 2)) eqn:E; [|apply Qle_refl].
      apply Qltb_lt in E. lra. }
    revert Hlt Hsr Hlo Hscore.
    generalize (py_round (AIEngine.savings_score_of sr) 1),
               (AIEngine.savings_score_of sr), (py_round sr 1).
    intros p q r Hlt Hsr Hlo Hscore. lra. }
  destruct (Qltb (py_round sr 1) 20) eqn:E1;
    destruct (Qltb 80 (py_round er 1)) eqn:E2;
    destruct (Qltb (py_round (AIEngine.calculate_diversity_score df) 1) 60) eqn:E3;
    destruct (Qltb (py_round (AIEngine.savings_score_of sr) 1) 70) eqn:E4;
    try (specialize (Hsav eq_refl); discriminate Hsav);
    (split; [|split]);
    try (cbn; lia);
    try (intros _; cbn; tauto);
    try (rewrite <- Hdiv; split; [reflexivity | intros _; cbn; tauto]);
    try (rewrite <- Hdiv; split; [|discriminate];
         intro H; cbn in H;
         repeat (destruct H as [H | H]; [discriminate H|]); destruct H);
    try (intro H; cbn in H;
         repeat (destruct H as [H | H]; [discriminate H|]); destruct H).
Qed.

Lemma health_recommendations_consistent_witness :
  let recs := AIEngine.recommendations
                (AIEngine.calculate_financial_health_score
                   iso_period_M Examples.overspent) in
  (In "Increase savings rate to at least 20% of income" recs ->
   In "Focus on building emergency fund" recs)
  /\ (In "Diversify income sources for better stability" recs
      <-> (nunique (map AIEngine.type
                        (filter AIEngine.is_income Examples.overspent)) < 3)%nat)
  /\ (List.length recs <= 4)%nat.
Proof.
  eapply (health_recommendations_consistent iso_period_M Examples.overspent).
  vm_compute. reflexivity.
Defined.

Lemma last_cons_nonempty {A : Type} (x d : A) (l : list A) :
  l <> [] -> last (x :: l) d = last l d.
Proof. destruct l; [congruence | reflexivity]. Qed.

(** X23: With at least two income months and a positive first month, the growth
    score depends only on the ratio of the last to the first month's
    income: it is 100 exactly when the last month is at least 10 percent
    above the first, 0 exactly when it is at least 10 percent below, and
    linear in between.  When the first month's income is zero the rate is
    a division by zero: the score is 100 for a positive last month, 0 for
    a negative one, and NaN when the last month is zero too. *)
Theorem growth_score_saturates :
  forall (to_period_M : string -> Z) (df : list AIEngine.Row)
         (first : Q) (rest : list Q),
    AIEngine.monthly_income_sums to_period_M df = first :: rest ->
    rest <> [] ->
    let latest := last rest 0 in
    let score := AIEngine.calculate_growth_score to_period_M df in
    (0 < first ->
     exists g : Q,
       score = Fin g
       /\ (g == 100 <-> (11 # 10) * first <= latest)
       /\ (g == 0 <-> latest <= (9 # 10) * first)
       /\ ((9 # 10) * first <= latest -> latest <= (11 # 10) * first ->
           g == 50 + 500 * ((latest - first) / first)))
    /\ (first == 0 ->
        (0 < latest -> score = Fin 100)
        /\ (latest < 0 -> score = Fin 0)
        /\ (latest == 0 -> score = NaN)).
Proof.
  intros tp df first rest Hm Hne latest score.
  unfold score, AIEngine.calculate_growth_score. rewrite Hm.
  assert (Hlen : (List.length (first :: rest) <? 2)%nat = false).
  { apply Nat.ltb_ge. destruct rest; [congruence | simpl; lia]. }
  rewrite Hlen. unfold iloc_last, iloc_first.
  rewrite (last_cons_nonempty first 0 rest Hne). fold latest. cbn [hd].
  unfold np_div. split.
  - intro Hpos.
    assert (E : Qeq_bool first 0 = false).
    { destruct (Qeq_bool first 0) eqn:E; [|reflexivity].
      apply Qeq_bool_iff in E. lra. }
    rewrite E. cbn [pf_mul pf_add py_max py_min].
    eexists. split; [reflexivity|].
    set (g := (latest - first) / first).
    assert (Hg : g * first == latest - first) by (unfold g; field; lra).
    assert (Hhi : (11 # 10) * first <= latest <-> 1 # 10 <= g).
    { split; intro H.
      - unfold g. apply Qle_shift_div_l; [exact Hpos | lra].
      - assert (H' : (1 # 10) * first <= g * first)
          by (apply Qmult_le_compat_r; lra). lra. }
    assert (Hlo : latest <= (9 # 10) * first <-> g <= - (1 # 10)).
    { split; intro H.
      - unfold g. apply Qle_shift_div_r; [exact Hpos | lra].
      - assert (H' : g * first <= - (1 # 10) * first)
          by (apply Qmult_le_compat_r; lra). lra. }
    assert (Hmid_lo : (9 # 10) * first <= latest -> - (1 # 10) <= g).
    { intro H. unfold g. apply Qle_shift_div_l; [exact Hpos | lra]. }
    assert (Hmid_hi : latest <= (11 # 10) * first -> g <= 1 # 10).
    { intro H. unfold g. apply Qle_shift_div_r; [exact Hpos | lra]. }
    set (v := g * 100 * 5 + 50).
    assert (Hv : v == 50 + 500 * g) by (unfold v; ring).
    clearbody v. clear Hg. clearbody g.
    destruct (Qltb v 0) eqn:E0; cbv iota;
      [apply Qltb_lt in E0 | apply Qltb_ge in E0].
    + assert (E1 : Qltb 100 0 = false) by reflexivity. rewrite E1.
      split; [|split].
      * rewrite Hhi. split; intro H; [discriminate H | lra].
      * rewrite Hlo. split; intro H; [lra | reflexivity].
      * intros H1 H2. specialize (Hmid_lo H1). lra.
    + destruct (Qltb 100 v) eqn:E1; [apply Qltb_lt in E1 | apply Qltb_ge in E1].
      * split; [|split].
        -- rewrite Hhi. split; intro H; [lra | reflexivity].
        -- rewrite Hlo. split; intro H; [discriminate H | lra].
        -- intros H1 H2. specialize (Hmid_hi H2). lra.
      * split; [|split].
        -- rewrite Hhi. split; intro H; lra.
        -- rewrite Hlo. split; intro H; lra.
        -- intros. lra.
  - intro Hz. apply Qeq_bool_iff in Hz. rewrite Hz.
    apply Qeq_bool_iff in Hz.
    split; [|split]; intro H.
    + assert (E : Qltb 0 (latest - first) = true) by (apply Qltb_lt; lra).
      rewrite E. reflexivity.
    + assert (E1 : Qltb 0 (latest - first) = false) by (apply Qltb_ge; lra).
      assert (E2 : Qltb (latest - first) 0 = true) by (apply Qltb_lt; lra).
      rewrite E1, E2. reflexivity.
    + assert (E1 : Qltb 0 (latest - first) = false) by (apply Qltb_ge; lra).
      assert (E2 : Qltb (latest - first) 0 = false) by (apply Qltb_ge; lra).
      rewrite E1, E2. reflexivity.
Qed.

Lemma growth_score_saturates_witness :
  let df := [ Examples.row "2024-01-15" 1000 "Income" "Salary" "Monthly Salary";
              Examples.row "2024-02-15" 1200 "Income" "Salary" "Monthly Salary" ] in
  let score := AIEngine.calculate_growth_score iso_period_M df in
  exists g : Q,
    score = Fin g
    /\ (g == 100 <-> (11 # 10) * 1000 <= last [1200] 0)
    /\ (g == 0 <-> last [1200] 0 <= (9 # 10) * 1000)
    /\ ((9 # 10) * 1000 <= last [1200] 0 -> last [1200] 0 <= (11 # 10) * 1000 ->
        g == 50 + 500 * ((last [1200] 0 - 1000) / 1000)).
Proof.
  intros df.
  destruct (growth_score_saturates iso_period_M df 1000 [1200]) as [H _].
  - vm_compute. reflexivity.
  - discriminate.
  - apply H. reflexivity.
Defined.

(** X24: With at least three expenses, [forecast_spending] returns one entry
    per requested month.  Entry [i] predicts the mean of the last (up to
    three) monthly expense totals, grown by 2 percent per step; its
    confidence is 0.7, 0.6, 0.5, 0.4 for the first four entries and 0.3
    from the fifth on; and it is labelled with the month 30 (i + 1) days
    ahead. *)
Theorem forecast_spending_schedule :
  forall (to_period_M : string -> Z) (strftime_after : Z -> string)
         (df : list AIEngine.Row) (months : nat),
    (3 <= List.length (filter AIEngine.is_expense df))%nat ->
    let forecast := AIEngine.forecast_spending to_period_M strftime_after
                      df months in
    let avg_spending :=
      Qmean (tail_n 3 (AIEngine.monthly_expense_sums to_period_M df)) in
    List.length forecast = months
    /\ Forall2
         (fun e i =>
            AIEngine.predicted_amount e
            == avg_spending * (1 + (2 # 100) * inject_Z (Z.of_nat i))
            /\ AIEngine.confidence e
               == (if (i <? 4)%nat
                   then (7 # 10) - inject_Z (Z.of_nat i) * (1 # 10)
                   else 3 # 10)
            /\ AIEngine.f_month e = strftime_after (30 * (Z.of_nat i + 1))%Z)
         forecast (seq 0 months).
Proof.
  intros tp sa df months Hlen forecast avg. unfold forecast.
  unfold AIEngine.forecast_spending.
  assert (E : (List.length (filter AIEngine.is_expense df) <? 3)%nat = false)
    by (apply Nat.ltb_ge; exact Hlen).
  rewrite E. fold avg. split.
  - rewrite length_map, length_seq. reflexivity.
  - apply Forall2_map_seq. intros j _. cbn [Nat.add].
    unfold AIEngine.forecast_entry.
    cbn [AIEngine.predicted_amount AIEngine.confidence AIEngine.f_month].
    split; [reflexivity|]. split; [|reflexivity].
    unfold Qmax'.
    destruct (j <? 4)%nat eqn:Ej.
    + apply Nat.ltb_lt in Ej.
      assert (Hq : inject_Z (Z.of_nat j) <= inject_Z 3)
        by (rewrite <- Zle_Qle; lia).
      change (inject_Z 3) with 3 in Hq. revert Hq.
      generalize (inject_Z (Z.of_nat j)). intros q Hq.
      destruct (Qltb ((7 # 10) - q * (1 # 10)) (3 # 10)) eqn:El;
        [|reflexivity].
      apply Qltb_lt in El. lra.
    + apply Nat.ltb_ge in Ej.
      assert (Hq : inject_Z 4 <= inject_Z (Z.of_nat j))
        by (rewrite <- Zle_Qle; lia).
      change (inject_Z 4) with 4 in Hq. revert Hq.
      generalize (inject_Z (Z.of_nat j)). intros q Hq.
      destruct (Qltb ((7 # 10) - q * (1 # 10)) (3 # 10)) eqn:El;
        [reflexivity|].
      apply Qltb_ge in El. lra.
Qed.

Lemma forecast_spending_schedule_witness :
  let forecast := AIEngine.forecast_spending iso_period_M (fun _ => "2024-02")
                    Examples.six_expenses 6 in
  let avg_spending :=
    Qmean (tail_n 3 (AIEngine.monthly_expense_sums iso_period_M
                       Examples.six_expenses)) in
  List.length forecast = 6%nat
  /\ Forall2
       (fun e i =>
          AIEngine.predicted_amount e
          == avg_spending * (1 + (2 # 100) * inject_Z (Z.of_nat i))
          /\ AIEngine.confidence e
             == (if (i <? 4)%nat
                 then (7 # 10) - inject_Z (Z.of_nat i) * (1 # 10)
                 else 3 # 10)
          /\ AIEngine.f_month e = (fun _ : Z => "2024-02") (30 * (Z.of_nat i + 1))%Z)
       forecast (seq 0 6).
Proof.
  apply (forecast_spending_schedule iso_period_M (fun _ => "2024-02")
           Examples.six_expenses 6).
  simpl. lia.
Defined.

(* ================================================================== *)
(** * Small samples never hold an anomaly *)

Lemma Qsum_map_sub (m : Q) (l : list Q) :
  Qsum (map (fun x => x - m) l)
  == Qsum l - inject_Z (Z.of_nat (List.length l)) * m.
Proof.
  induction l as [|x l IH].
  - simpl. ring.
  - change (Qsum (map (fun x => x - m) (x :: l)))
      with ((x - m) + Qsum (map (fun x => x - m) l)).
    change (Qsum (x :: l)) with (x + Qsum l).
    rewrite IH. cbn [List.length]. rewrite Nat2Z.inj_succ.
    unfold Z.succ. rewrite inject_Z_plus. change (inject_Z 1) with 1. ring.
Qed.

Lemma deviations_sum_zero (l : list Q) :
  l <> [] -> Qsum (map (fun x => x - AIEngine.series_mean l) l) == 0.
Proof.
  intro Hne. rewrite Qsum_map_sub. unfold AIEngine.series_mean, Qmean. field.
  change 0 with (inject_Z 0). rewrite inject_Z_injective.
  destruct l; [congruence | simpl; lia].
Qed.

(** The square of a sum is at most the count times the sum of the
    squares. *)
Lemma Qsum_square_le (l : list Q) :
  Qsum l * Qsum l
  <= inject_Z (Z.of_nat (List.length l)) * Qsum (map (fun x => x * x) l).
Proof.
  induction l as [|a l IH].
  - simpl. apply Qle_refl.
  - change (Qsum (a :: l)) with (a + Qsum l).
    change (Qsum (map (fun x => x * x) (a :: l)))
      with (a * a + Qsum (map (fun x => x * x) l)).
    cbn [List.length]. rewrite Nat2Z.inj_succ. unfold Z.succ.
    rewrite inject_Z_plus. change (inject_Z 1) with 1.
    assert (Hcross : 0 <= Qsum (map (fun x => (a - x) * (a - x)) l)).
    { apply Qsum_nonneg. apply Forall_forall. intros y Hy.
      apply in_map_iff in Hy. destruct Hy as (x & <- & _).
      generalize (a - x). intro d. nra. }
    assert (Hexp : Qsum (map (fun x => (a - x) * (a - x)) l)
                   == inject_Z (Z.of_nat (List.length l)) * (a * a)
                      - 2 * a * Qsum l + Qsum (map (fun x => x * x) l)).
    { clear. induction l as [|x l IH]; [simpl; ring|].
      change (Qsum (map (fun x => (a - x) * (a - x)) (x :: l)))
        with ((a - x) * (a - x) + Qsum (map (fun x => (a - x) * (a - x)) l)).
      change (Qsum (x :: l)) with (x + Qsum l).
      change (Qsum (map (fun x => x * x) (x :: l)))
        with (x * x + Qsum (map (fun x => x * x) l)).
      rewrite IH. cbn [List.length]. rewrite Nat2Z.inj_succ. unfold Z.succ.
      rewrite inject_Z_plus. change (inject_Z 1) with 1. ring. }
    revert IH Hcross Hexp.
    generalize (Qsum (map (fun x => (a - x) * (a - x)) l)),
               (Qsum (map (fun x => x * x) l)), (Qsum l),
               (inject_Z (Z.of_nat (List.length l))).
    intros c ss s n IH Hcross Hexp. nra.
Qed.

(** Samuelson's inequality: no squared deviation from the mean exceeds
    [(n - 1) / n] times the sum of all squared deviations. *)
Lemma squared_deviation_le (l : list Q) (x : Q) :
  In x l ->
  inject_Z (Z.of_nat (List.length l))
  * ((x - AIEngine.series_mean l) * (x - AIEngine.series_mean l))
  <= inject_Z (Z.of_nat (List.length l - 1)) * AIEngine.sum_sq_dev l.
Proof.
  intro Hin.
  assert (Hne : l <> []) by (destruct l; [destruct Hin | discriminate]).
  pose proof (deviations_sum_zero l Hne) as Hzero.
  unfold AIEngine.sum_sq_dev.
  set (m := AIEngine.series_mean l) in *. clearbody m.
  destruct (in_split x l Hin) as (l1 & l2 & ->).
  rewrite map_app in Hzero. rewrite map_app.
  rewrite Qsum_app in Hzero. rewrite Qsum_app.
  change (Qsum (map (fun x => x - m) (x :: l2)))
    with ((x - m) + Qsum (map (fun x => x - m) l2)) in Hzero.
  change (Qsum (map (fun x => (x - m) * (x - m)) (x :: l2)))
    with ((x - m) * (x - m) + Qsum (map (fun x => (x - m) * (x - m)) l2)).
  pose proof (Qsum_square_le (map (fun x => x - m) (l1 ++ l2))) as Hcs.
  rewrite map_map, length_map in Hcs.
  rewrite !map_app, !Qsum_app in Hcs.
  rewrite !length_app. cbn [List.length].
  replace (List.length l1 + S (List.length l2) - 1)%nat
    with (List.length l1 + List.length l2)%nat by lia.
  replace (List.length l1 + S (List.length l2))%nat
    with (S (List.length l1 + List.length l2))%nat by lia.
  rewrite length_app in Hcs.
  rewrite Nat2Z.inj_succ. unfold Z.succ. rewrite inject_Z_plus.
  change (inject_Z 1) with 1.
  assert (Hn : 0 <= inject_Z (Z.of_nat (List.length l1 + List.length l2))).
  { change 0 with (inject_Z 0). rewrite <- Zle_Qle. lia. }
  revert Hzero Hcs Hn.
  generalize (Qsum (map (fun x => x - m) l1)),
             (Qsum (map (fun x => x - m) l2)),
             (Qsum (map (fun x => (x - m) * (x - m)) l1)),
             (Qsum (map (fun x => (x - m) * (x - m)) l2)),
             (inject_Z (Z.of_nat (List.length l1 + List.length l2))),
             (x - m).
  intros s1 s2 q1 q2 n d Hzero Hcs Hn.
  assert (Hd : d == - (s1 + s2)) by lra.
  assert (Hdd : d * d == (s1 + s2) * (s1 + s2)) by (rewrite Hd; ring).
  nra.
Qed.

Lemma small_sample_not_flagged (l : list Q) (var x : Q) :
  AIEngine.series_var l = Some var ->
  (List.length l <= 5)%nat ->
  In x l ->
  AIEngine.z_score_exceeds_2 x (AIEngine.series_mean l) var = false.
Proof.
  intros Hvar Hlen Hin.
  pose proof (series_var_nonneg l var Hvar) as Hpos.
  pose proof (squared_deviation_le l x Hin) as Hsam.
  assert (Hn : (2 <= List.length l)%nat).
  { destruct l as [|a [|b l]]; try discriminate Hvar. simpl. lia. }
  assert (Hss : AIEngine.sum_sq_dev l
                == inject_Z (Z.of_nat (List.length l - 1)) * var).
  { destruct l as [|a [|b l]]; try discriminate Hvar.
    set (l' := a :: b :: l) in *.
    change (Some (AIEngine.sum_sq_dev l'
                  / inject_Z (Z.of_nat (List.length l' - 1))) = Some var)
      in Hvar.
    assert (Hv : var = AIEngine.sum_sq_dev l'
                       / inject_Z (Z.of_nat (List.length l' - 1)))
      by congruence.
    rewrite Hv.
    assert (Hn0 : ~ inject_Z (Z.of_nat (List.length l' - 1)) == 0).
    { change 0 with (inject_Z 0). rewrite inject_Z_injective.
      unfold l'. simpl List.length. lia. }
    revert Hn0. clear.
    generalize (inject_Z (Z.of_nat (List.length l' - 1))),
               (AIEngine.sum_sq_dev l').
    intros n ss Hn0. field. exact Hn0. }
  unfold AIEngine.z_score_exceeds_2. apply Qltb_ge.
  revert Hsam Hss. generalize (AIEngine.sum_sq_dev l).
  generalize ((x - AIEngine.series_mean l) * (x - AIEngine.series_mean l)).
  intros dd ss Hsam Hss.
  assert (Hcases : List.length l = 2%nat \/ List.length l = 3%nat
                   \/ List.length l = 4%nat \/ List.length l = 5%nat) by lia.
  destruct Hcases as [E | [E | [E | E]]]; rewrite E in Hsam, Hss;
    cbn in Hsam, Hss; unfold inject_Z in Hsam, Hss; lra.
Qed.

(** X25: [detect_anomalies] reports nothing when there are at most five
    expenses: in so small a sample no amount can lie more than two sample
    standard deviations from the mean. *)
Theorem detect_anomalies_needs_six_expenses :
  forall (np_sqrt : Q -> Q) (strftime_ymd : string -> string)
         (df : list AIEngine.Row),
    (List.length (filter AIEngine.is_expense df) <= 5)%nat ->
    AIEngine.detect_anomalies np_sqrt strftime_ymd df = [].
Proof.
  intros sq ymd df Hlen. unfold AIEngine.detect_anomalies.
  set (expense_df := filter AIEngine.is_expense df) in *.
  destruct expense_df as [|r0 rs] eqn:Ee; [reflexivity|].
  rewrite <- Ee in *. clear Ee r0 rs.
  destruct (AIEngine.series_var (map AIEngine.amount expense_df))
    as [var|] eqn:Ev; [|reflexivity].
  destruct (Qeq_bool var 0); [reflexivity|].
  rewrite (filter_none
             (fun row => AIEngine.z_score_exceeds_2 (AIEngine.amount row)
                           (AIEngine.series_mean
                              (map AIEngine.amount expense_df)) var)
             expense_df); [reflexivity|].
  intros row Hrow.
  apply small_sample_not_flagged.
  - exact Ev.
  - rewrite length_map. exact Hlen.
  - apply in_map. exact Hrow.
Qed.

Lemma detect_anomalies_needs_six_expenses_witness :
  AIEngine.detect_anomalies Examples.sqrt_newton (fun d => d)
    [Examples.spend 1; Examples.spend 1; Examples.spend 1; Examples.spend 1;
     Examples.spend 13] = [].
Proof.
  apply detect_anomalies_needs_six_expenses. simpl. lia.
Defined.

(** Six expenses are enough for an anomaly. *)
Remark detect_anomalies_six_expenses_can_flag :
  forall (np_sqrt : Q -> Q) (strftime_ymd : string -> string),
    List.length (filter AIEngine.is_expense Examples.six_with_outlier) = 6%nat
    /\ List.length (AIEngine.detect_anomalies np_sqrt strftime_ymd
                      Examples.six_with_outlier)
       = 1%nat.
Proof. intros sq ymd. split; reflexivity. Qed.

(* ================================================================== *)
(** * The amount prompt *)

(** X26: [get_amount] skips every rejected line and hands back the
    first line that is not rejected: a positive number, rounded to two
    decimals and never negative, or [inf] or [nan] as they are, which the
    check [amount <= 0] lets through. *)
Theorem get_amount_returns_first_accepted :
  forall (parse_amount : string -> option PyFloat) (skipped : list string)
         (line : string) (later : list string) (a : PyFloat),
    Forall (rejected parse_amount) skipped ->
    parse_amount line = Some a ->
    ~ rejected parse_amount line ->
    exists r : PyFloat,
      DataEntry.get_amount parse_amount (skipped ++ line :: later) = Some r
      /\ match a with
         | Fin q => 0 < q /\ r = Fin (py_round q 2) /\ 0 <= py_round q 2
         | PosInf => r = PosInf
         | NaN => r = NaN
         | NegInf => False
         end.
Proof.
  intros parse skipped line later a Hskip Hparse Hacc.
  assert (Hle : pf_le0 a = false).
  { apply pf_le0_false. unfold rejected in Hacc. rewrite Hparse in Hacc.
    destruct a as [q| | |]; try tauto.
    apply Qnot_le_lt. exact Hacc. }
  exists (pf_round a 2). split.
  - induction Hskip as [|s skipped Hs _ IH]; simpl.
    + rewrite Hparse, Hle. reflexivity.
    + unfold rejected in Hs. destruct (parse s) as [b|]; [|exact IH].
      assert (E : pf_le0 b = true).
      { destruct b as [q| | |]; try contradiction; [|reflexivity].
        apply Qle_bool_iff. exact Hs. }
      rewrite E. exact IH.
  - apply pf_le0_false in Hle.
    destruct a as [q| | |]; try reflexivity; try contradiction.
    split; [exact Hle|]. split; [reflexivity|].
    unfold py_round.
    change (inject_Z (10 ^ Z.of_nat 2)) with (100 # 1).
    assert (Hr : (0 <= rint (q * (100 # 1)))%Z).
    { apply (rint_bounds 0 (Qfloor (q * (100 # 1)) + 1)).
      - change (inject_Z 0) with 0. lra.
      - apply Qlt_le_weak. apply Qlt_floor. }
    rewrite Zle_Qle in Hr. change (inject_Z 0) with 0 in Hr.
    revert Hr. generalize (inject_Z (rint (q * (100 # 1)))). intros r Hr.
    apply Qle_shift_div_l; [reflexivity | lra].
Qed.

Lemma get_amount_returns_first_accepted_witness :
  (exists r : PyFloat,
      DataEntry.get_amount
        (fun s => if String.eqb s "-3" then Some (Fin (- (3)))
                  else if String.eqb s "1500.505" then Some (Fin (1500505 # 1000))
                  else if String.eqb s "nan" then Some NaN
                  else None)
        (["abc"; "-3"] ++ "1500.505" :: ["7"]) = Some r
      /\ 0 < 1500505 # 1000
      /\ r = Fin (py_round (1500505 # 1000) 2)
      /\ 0 <= py_round (1500505 # 1000) 2)
  /\ (exists r : PyFloat,
         DataEntry.get_amount
           (fun s => if String.eqb s "-3" then Some (Fin (- (3)))
                     else if String.eqb s "1500.505" then Some (Fin (1500505 # 1000))
                     else if String.eqb s "nan" then Some NaN
                     else None)
           (["abc"; "-3"] ++ "nan" :: ["7"]) = Some r
         /\ r = NaN).
Proof.
  split.
  - apply (get_amount_returns_first_accepted _ ["abc"; "-3"] "1500.505" ["7"]
             (Fin (1500505 # 1000))).
    + repeat constructor. unfold rejected. simpl. discriminate.
    + reflexivity.
    + unfold rejected. simpl. intro H. apply H. reflexivity.
  - apply (get_amount_returns_first_accepted _ ["abc"; "-3"] "nan" ["7"] NaN).
    + repeat constructor. unfold rejected. simpl. discriminate.
    + reflexivity.
    + unfold rejected. simpl. tauto.
Defined.

(** X27: [get_amount] runs out of lines without a result exactly when
    every line is rejected: [float] raises on it, or it is a number that
    is not positive, or minus infinity. *)
Theorem get_amount_exhausts_iff_all_rejected :
  forall (parse_amount : string -> option PyFloat) (lines : list string),
    DataEntry.get_amount parse_amount lines = None
    <-> Forall (rejected parse_amount) lines.
Proof.
  intros parse lines. induction lines as [|s lines IH]; simpl.
  - split; [constructor | reflexivity].
  - split.
    + intro H. constructor.
      * unfold rejected. destruct (parse s) as [b|]; [|exact I].
        destruct (pf_le0 b) eqn:E; [|discriminate H].
        destruct b as [q| | |]; try discriminate E; [|exact I].
        apply Qle_bool_iff. exact E.
      * apply IH. destruct (parse s) as [b|]; [|exact H].
        destruct (pf_le0 b); [exact H | discriminate H].
    + intro H. inversion H as [|? ? Hs Hl]; subst.
      unfold rejected in Hs. destruct (parse s) as [b|].
      * assert (E : pf_le0 b = true).
        { destruct b as [q| | |]; try contradiction; [|reflexivity].
          apply Qle_bool_iff. exact Hs. }
        rewrite E. apply IH. exact Hl.
      * apply IH. exact Hl.
Qed.
